(** * The per-folder metadata journal of libkbfs ([mdJournal])

    A shallow embedding of the journal coordinator ([getMD], [putMD], [put],
    [convertToBranch], [getNextEntryToFlush], [removeFlushedEntry], [clear]
    and the readers) together with the properties of its specification.

    The coordinator is written as in the Go source: every method is a
    computation over the journal ([M]), errors are values that are returned
    and tested, panics abort.  The collaborators the coordinator consumes
    (codec, crypto, signer, key getter, the metadata methods, the operating
    system) are the fields of one record, [Externals]. *)

From Stdlib Require Import ZArith String.
From stdpp Require Import gmap list strings countable.

Local Open Scope string_scope.
Local Open Scope Z_scope.

(** ** Identifiers *)

(** [MdID] and [BranchID] are fixed-width identifiers compared with [==];
    their zero values are [MdID{}] and [NullBranchID]. *)
Abbreviation MdID := N (only parsing).
Abbreviation BranchID := N (only parsing).
Abbreviation TlfID := N (only parsing).
Abbreviation UID := N (only parsing).
Abbreviation VerifyingKey := N (only parsing).
Abbreviation SignatureInfo := N (only parsing).
Abbreviation Time := N (only parsing).
Abbreviation MetadataRevision := Z (only parsing).
Abbreviation bytes := (list Byte.byte) (only parsing).

Definition zeroMdID : MdID := 0%N.
Definition NullBranchID : BranchID := 0%N.
Definition zeroTime : Time := 0%N.
Definition MetadataRevisionUninitialized : MetadataRevision := 0.

(** [MetadataRevision] is an [int64]; additions wrap around. *)
Definition wrap64 (z : Z) : Z := (z + 2 ^ 63) mod 2 ^ 64 - 2 ^ 63.

(** ** Errors and results *)

Inductive Errno := ENOENT | EIO | EACCES | ENOSPC.

Inductive error :=
| errorString (msg : string)          (* errors.New and fmt.Errorf *)
| PathError (errno : Errno)           (* errors of package os *)
| ProviderError (code : N)            (* errors of codec, crypto, signer *)
| MDJournalConflictError
| MutableBareRootMetadataNoImplError
| MDServerErrorUnauthorized.

Definition os_IsNotExist (e : error) : bool :=
  match e with
  | PathError ENOENT => true
  | _ => false
  end.

Inductive result (A : Type) :=
| OK (a : A)
| Err (e : error)
| Panic (msg : string).
Arguments OK {A} a.
Arguments Err {A} e.
Arguments Panic {A} msg.

Definition isErr {A} (r : result A) : bool :=
  match r with
  | Err _ => true
  | _ => false
  end.

(** ** Metadata *)

Inductive MergeStatus := Merged | Unmerged.

(** The fields of a bare root metadata object that the journal reads or
    sets; [payload] stands for everything else. *)
Record BareRootMetadata := mkBRMD {
  TlfIDOf : TlfID;
  RevisionNumber : MetadataRevision;
  BID : BranchID;
  GetPrevRoot : MdID;
  MergedStatus : MergeStatus;
  WriterMetadataSigInfo : SignatureInfo;
  payload : N
}.

Definition SetUnmerged (md : BareRootMetadata) : BareRootMetadata :=
  mkBRMD (TlfIDOf md) (RevisionNumber md) (BID md) (GetPrevRoot md)
         Unmerged (WriterMetadataSigInfo md) (payload md).

Definition SetBranchID (bid : BranchID) (md : BareRootMetadata) : BareRootMetadata :=
  mkBRMD (TlfIDOf md) (RevisionNumber md) bid (GetPrevRoot md)
         (MergedStatus md) (WriterMetadataSigInfo md) (payload md).

Definition SetPrevRoot (id : MdID) (md : BareRootMetadata) : BareRootMetadata :=
  mkBRMD (TlfIDOf md) (RevisionNumber md) (BID md) id
         (MergedStatus md) (WriterMetadataSigInfo md) (payload md).

Definition SetWriterMetadataSigInfo (sig : SignatureInfo) (md : BareRootMetadata)
  : BareRootMetadata :=
  mkBRMD (TlfIDOf md) (RevisionNumber md) (BID md) (GetPrevRoot md)
         (MergedStatus md) sig (payload md).

(** [rmd.data.Changes]: the block pointer of the unembedded changes
    ([zeroPtr] is 0) and the operations. *)
Record BlockChanges := mkBlockChanges {
  Info_BlockPointer : N;
  Ops : N
}.

Definition zeroPtr : N := 0%N.

Record RootMetadata := mkRMD {
  bareMd : BareRootMetadata;
  data_Changes : BlockChanges
}.

Definition rmd_SetBranchID (bid : BranchID) (rmd : RootMetadata) : RootMetadata :=
  mkRMD (SetBranchID bid (bareMd rmd)) (data_Changes rmd).

Definition rmd_SetPrevRoot (id : MdID) (rmd : RootMetadata) : RootMetadata :=
  mkRMD (SetPrevRoot id (bareMd rmd)) (data_Changes rmd).

Record RootMetadataSigned := mkRMDS {
  SigInfo : SignatureInfo;
  MD : BareRootMetadata
}.

(** The embedded [BareRootMetadata] is an interface value: [None] is nil. *)
Record ImmutableBareRootMetadata := mkIBRMD {
  ibrmd : option BareRootMetadata;
  mdID : MdID;
  localTimestamp : Time
}.

(** [ImmutableBareRootMetadata{}] *)
Definition zeroIBRMD : ImmutableBareRootMetadata := mkIBRMD None zeroMdID zeroTime.

#[global] Instance MergeStatus_eq_dec : EqDecision MergeStatus.
Proof. solve_decision. Defined.
#[global] Instance BareRootMetadata_eq_dec : EqDecision BareRootMetadata.
Proof. solve_decision. Defined.
#[global] Instance ImmutableBareRootMetadata_eq_dec : EqDecision ImmutableBareRootMetadata.
Proof. solve_decision. Defined.

Definition MakeImmutableBareRootMetadata (rmd : BareRootMetadata) (id : MdID)
    (ts : Time) : result ImmutableBareRootMetadata :=
  if (id =? zeroMdID)%N
  then Panic "zero mdID passed to MakeImmutableBareRootMetadata"
  else OK (mkIBRMD (Some rmd) id ts).

(** ** The ordinal log ([mdIDJournal]) *)

(** Operations of the operating system and of the ordinal log that can fail
    with an I/O error. *)
Inductive LogOp :=
| LogGetEarliest | LogGetLatest | LogReadEarliestRevision
| LogReadLatestRevision | LogGetRange | LogAppend | LogReplaceHead
| LogRemoveEarliest | LogClear | LogMove | LogLength | LogEnd.

Inductive FsOp :=
| ReadFile (id : MdID)
| Stat (id : MdID)
| MkdirAll (id : MdID)
| WriteFile (id : MdID)
| Remove (id : MdID)
| TempDir
| OrdinalLog (dir : string) (op : LogOp).

(** Modelled from the spec: the type [mdIDJournal] and its methods are not
    among the sources.  The ordinal log maps consecutive revisions, from
    [earliestRevision] on, to MdIDs; [jdir] is its directory. *)
Record mdIDJournal := mkMdIDJournal {
  jdir : string;
  earliestRevision : MetadataRevision;
  ids : list MdID
}.

Definition makeMdIDJournal (dir : string) : mdIDJournal :=
  mkMdIDJournal dir MetadataRevisionUninitialized [].

Definition latestRevision (l : mdIDJournal) : MetadataRevision :=
  earliestRevision l + Z.of_nat (length (ids l)) - 1.

(** The entries of the log, as pairs of a revision and an MdID. *)
Definition entries (l : mdIDJournal) : list (MetadataRevision * MdID) :=
  imap (fun i id => (earliestRevision l + Z.of_nat i, id)) (ids l).

Definition latestEntry (l : mdIDJournal) : option (MetadataRevision * MdID) :=
  list.last (entries l).

Section OrdinalLog.
(** The I/O errors that the file system injects. *)
Variable fs_fault : FsOp -> option error.

Definition logFault {A} (l : mdIDJournal) (op : LogOp) (k : result A) : result A :=
  match fs_fault (OrdinalLog (jdir l) op) with
  | Some e => Err e
  | None => k
  end.

(** Modelled from the spec: [getEarliest() -> (R, id)?]; the coordinator
    receives the zero MdID for an empty log. *)
Definition mdIDJournal_getEarliest (l : mdIDJournal) : result MdID :=
  logFault l LogGetEarliest (OK (hd zeroMdID (ids l))).

(** Modelled from the spec: [getLatest() -> (R, id)?]. *)
Definition mdIDJournal_getLatest (l : mdIDJournal) : result MdID :=
  logFault l LogGetLatest (OK (List.last (ids l) zeroMdID)).

(** Modelled from the spec: the revision of the earliest entry, the
    uninitialized revision for an empty log. *)
Definition mdIDJournal_readEarliestRevision (l : mdIDJournal)
  : result MetadataRevision :=
  logFault l LogReadEarliestRevision
    (OK (match ids l with
         | [] => MetadataRevisionUninitialized
         | _ => earliestRevision l
         end)).

(** Modelled from the spec: the revision of the latest entry. *)
Definition mdIDJournal_readLatestRevision (l : mdIDJournal)
  : result MetadataRevision :=
  logFault l LogReadLatestRevision
    (OK (match ids l with
         | [] => MetadataRevisionUninitialized
         | _ => latestRevision l
         end)).

(** Modelled from the spec: [end() -> R] (one past latest, or 0). *)
Definition mdIDJournal_end (l : mdIDJournal) : result MetadataRevision :=
  logFault l LogEnd
    (OK (match ids l with
         | [] => MetadataRevisionUninitialized
         | _ => latestRevision l + 1
         end)).

(** Modelled from the spec: [length()]. *)
Definition mdIDJournal_length (l : mdIDJournal) : result N :=
  logFault l LogLength (OK (N.of_nat (length (ids l)))).

(** Modelled from the spec: [getRange(start, stop) -> (realStart, [id])]
    returns the ids for the revisions in
    [[max(earliest,start), min(latest,stop)]]. *)
Definition mdIDJournal_getRange (start stop : MetadataRevision) (l : mdIDJournal)
  : result (MetadataRevision * list MdID) :=
  logFault l LogGetRange
    (OK (match ids l with
         | [] => (MetadataRevisionUninitialized, [])
         | _ =>
             let realStart := Z.max (earliestRevision l) start in
             let realStop := Z.min (latestRevision l) stop in
             (realStart,
              take (Z.to_nat (realStop - realStart + 1))
                   (drop (Z.to_nat (realStart - earliestRevision l)) (ids l)))
         end)).

(** Modelled from the spec: [append(R, id)] fails if the log is non-empty
    and [R <> latest_R + 1]. *)
Definition mdIDJournal_append (r : MetadataRevision) (id : MdID) (l : mdIDJournal)
  : result mdIDJournal :=
  logFault l LogAppend
    (match ids l with
     | [] => OK (mkMdIDJournal (jdir l) r [id])
     | _ =>
         if r =? latestRevision l + 1
         then OK (mkMdIDJournal (jdir l) (earliestRevision l) (ids l ++ [id]))
         else Err (errorString "ordinal is not the successor of the latest")
     end).

(** Modelled from the spec: [replaceHead(id)] replaces the MdID at the
    current latest revision; the revision is unchanged. *)
Definition mdIDJournal_replaceHead (id : MdID) (l : mdIDJournal)
  : result mdIDJournal :=
  logFault l LogReplaceHead
    (match ids l with
     | [] => Err (errorString "replaceHead on an empty journal")
     | _ => OK (mkMdIDJournal (jdir l) (earliestRevision l)
                  (removelast (ids l) ++ [id]))
     end).

(** Modelled from the spec: [removeEarliest() -> empty?] drops the
    earliest entry and reports whether the log is now empty. *)
Definition mdIDJournal_removeEarliest (l : mdIDJournal)
  : result (mdIDJournal * bool) :=
  logFault l LogRemoveEarliest
    (match ids l with
     | [] => Err (errorString "removeEarliest on an empty journal")
     | _ :: rest =>
         OK (mkMdIDJournal (jdir l) (earliestRevision l + 1) rest,
             match rest with [] => true | _ => false end)
     end).

(** Modelled from the spec: [clear()] empties the log. *)
Definition mdIDJournal_clear (l : mdIDJournal) : result mdIDJournal :=
  logFault l LogClear (OK (makeMdIDJournal (jdir l))).

(** Modelled from the spec: [move(newDir)] renames the directory of the
    log; it returns the directory the log was in. *)
Definition mdIDJournal_move (newDir : string) (l : mdIDJournal)
  : result (mdIDJournal * string) :=
  logFault l LogMove
    (OK (mkMdIDJournal newDir (earliestRevision l) (ids l), jdir l)).
End OrdinalLog.

(** ** The collaborators *)

Abbreviation cryptoSigner := (list Byte.byte -> result N) (only parsing).
Abbreviation BlockSplitter := (BlockChanges -> bool) (only parsing).
Abbreviation encryptionKeyGetter := N (only parsing).
Abbreviation ExtraMetadata := N (only parsing).

(** What the journal consumes and does not implement: the codec and the
    crypto of the journal ([j.codec], [j.crypto]), the methods of
    [BareRootMetadataV2], the functions of the package that are not among the
    sources, and the operating system. *)
Record Externals := mkExternals {
  codec_Encode : BareRootMetadata -> result bytes;
  codec_Decode : bytes -> result BareRootMetadata;
  CodecEqual : BareRootMetadata -> BareRootMetadata -> result bool;
  crypto_MakeMdID : BareRootMetadata -> result MdID;
  crypto_MakeRandomBranchID : result BranchID;
  IsValidAndSigned : BareRootMetadata -> result unit;
  IsLastModifiedBy : UID -> VerifyingKey -> BareRootMetadata -> result unit;
  GetSerializedWriterMetadata : BareRootMetadata -> result bytes;
  CheckValidSuccessorForServer :
    BareRootMetadata -> MdID -> BareRootMetadata -> result unit;
  (* whether [*BareRootMetadataV2] implements [MutableBareRootMetadata] *)
  isMutableBareRootMetadata : bool;
  isReader : UID -> BareRootMetadata -> ExtraMetadata -> result bool;
  isWriterOrValidRekey :
    UID -> BareRootMetadata -> BareRootMetadata -> result bool;
  encryptMDPrivateData :
    cryptoSigner -> encryptionKeyGetter -> UID -> RootMetadata ->
    result BareRootMetadata;
  signMD : cryptoSigner -> RootMetadataSigned -> result RootMetadataSigned;
  (* the I/O errors of this run, the clock, and the name [ioutil.TempDir]
     picks *)
  fs_fault : FsOp -> option error;
  fs_now : Time;
  fs_tempName : string
}.

(** ** The journal *)

Record File := mkFile {
  fdata : bytes;
  fmodTime : Time
}.

(** The fields [j], [branchID] and [lastMdID] of the Go struct, the files
    of the content store under [dir]/mds (by MdID, as [mdPath] names them),
    and the keys held by the [MDCache] that [convertToBranch] is given. *)
Record mdJournal := mkMdJournal {
  j : mdIDJournal;
  branchID : BranchID;
  lastMdID : MdID;
  mds : gmap N File;
  mdcache : gset (N * Z * N)
}.

Definition set_j (l : mdIDJournal) (s : mdJournal) : mdJournal :=
  mkMdJournal l (branchID s) (lastMdID s) (mds s) (mdcache s).
Definition set_branchID (b : BranchID) (s : mdJournal) : mdJournal :=
  mkMdJournal (j s) b (lastMdID s) (mds s) (mdcache s).
Definition set_lastMdID (id : MdID) (s : mdJournal) : mdJournal :=
  mkMdJournal (j s) (branchID s) id (mds s) (mdcache s).
Definition set_mds (m : gmap N File) (s : mdJournal) : mdJournal :=
  mkMdJournal (j s) (branchID s) (lastMdID s) m (mdcache s).
Definition set_mdcache (c : gset (N * Z * N)) (s : mdJournal) : mdJournal :=
  mkMdJournal (j s) (branchID s) (lastMdID s) (mds s) c.

(** ** Computations over the journal *)

Definition M (A : Type) : Type := mdJournal -> mdJournal * result A.

Definition ret {A} (a : A) : M A := fun s => (s, OK a).

Definition bind {A B} (m : M A) (k : A -> M B) : M B :=
  fun s =>
    match m s with
    | (s', OK a) => k a s'
    | (s', Err e) => (s', Err e)
    | (s', Panic msg) => (s', Panic msg)
    end.

Definition lift {A} (r : result A) : M A := fun s => (s, r).
Definition fail {A} (e : error) : M A := fun s => (s, Err e).
Definition panic {A} (msg : string) : M A := fun s => (s, Panic msg).
Definition get : M mdJournal := fun s => (s, OK s).
Definition modify (f : mdJournal -> mdJournal) : M unit := fun s => (f s, OK tt).

Declare Scope journal_scope.
Delimit Scope journal_scope with journal.
Notation "x <- m ;; k" := (bind m (fun x => k))
  (at level 100, m at next level, right associativity) : journal_scope.
Local Open Scope journal_scope.

Section Coordinator.
Variable E : Externals.

(** *** The operating system *)

Definition ioutil_ReadFile (id : MdID) : M bytes := fun s =>
  match fs_fault E (ReadFile id) with
  | Some e => (s, Err e)
  | None =>
      match mds s !! id with
      | Some f => (s, OK (fdata f))
      | None => (s, Err (PathError ENOENT))
      end
  end.

Definition os_Stat (id : MdID) : M Time := fun s =>
  match fs_fault E (Stat id) with
  | Some e => (s, Err e)
  | None =>
      match mds s !! id with
      | Some f => (s, OK (fmodTime f))
      | None => (s, Err (PathError ENOENT))
      end
  end.

Definition os_MkdirAll (id : MdID) : M unit := fun s =>
  match fs_fault E (MkdirAll id) with
  | Some e => (s, Err e)
  | None => (s, OK tt)
  end.

Definition ioutil_WriteFile (id : MdID) (buf : bytes) : M unit := fun s =>
  match fs_fault E (WriteFile id) with
  | Some e => (s, Err e)
  | None => (set_mds (<[id := mkFile buf (fs_now E)]> (mds s)) s, OK tt)
  end.

Definition os_Remove (id : MdID) : M unit := fun s =>
  match fs_fault E (Remove id) with
  | Some e => (s, Err e)
  | None =>
      match mds s !! id with
      | Some _ => (set_mds (delete id (mds s)) s, OK tt)
      | None => (s, Err (PathError ENOENT))
      end
  end.

Definition ioutil_TempDir : M string := fun s =>
  match fs_fault E TempDir with
  | Some e => (s, Err e)
  | None => (s, OK (fs_tempName E))
  end.

(** *** Calls on [j.j] *)

(** A method of [j.j] that only reads the log. *)
Definition jread {A} (f : mdIDJournal -> result A) : M A :=
  fun s => (s, f (j s)).

(** A method of [j.j] that writes the log. *)
Definition jwrite (f : mdIDJournal -> result mdIDJournal) : M unit :=
  fun s =>
    match f (j s) with
    | OK l => (set_j l s, OK tt)
    | Err e => (s, Err e)
    | Panic msg => (s, Panic msg)
    end.

(** *** [getMD] and [putMD] *)

Definition getMD (currentUID : UID) (currentVerifyingKey : VerifyingKey)
    (id : MdID) (verifyBranchID : bool) : M (BareRootMetadata * Time) :=
  data <- ioutil_ReadFile id ;;
  rmd <- lift (codec_Decode E data) ;;
  mdID <- lift (crypto_MakeMdID E rmd) ;;
  if negb (mdID =? id)%N
  then fail (errorString "Metadata ID mismatch: expected %s, got %s")
  else
    _ <- lift (IsLastModifiedBy E currentUID currentVerifyingKey rmd) ;;
    _ <- lift (IsValidAndSigned E rmd) ;;
    s <- get ;;
    if verifyBranchID && negb (BID rmd =? branchID s)%N
    then fail (errorString "Branch ID mismatch: expected %s, got %s")
    else
      ts <- os_Stat id ;;
      ret (rmd, ts).

Definition putMD (currentUID : UID) (currentVerifyingKey : VerifyingKey)
    (rmd : BareRootMetadata) : M MdID :=
  _ <- lift (IsValidAndSigned E rmd) ;;
  _ <- lift (IsLastModifiedBy E currentUID currentVerifyingKey rmd) ;;
  id <- lift (crypto_MakeMdID E rmd) ;;
  fun s =>
    match getMD currentUID currentVerifyingKey id true s with
    | (s1, Err err) =>
        if os_IsNotExist err
        then
          (* Continue on. *)
          (_ <- os_MkdirAll id ;;
           buf <- lift (codec_Encode E rmd) ;;
           _ <- ioutil_WriteFile id buf ;;
           ret id) s1
        else (s1, Err err)
    | (s1, OK _) =>
        (* Entry exists, so nothing else to do. *)
        (s1, OK zeroMdID)
    | (s1, Panic msg) => (s1, Panic msg)
    end.

Definition getEarliest (currentUID : UID) (currentVerifyingKey : VerifyingKey)
    (verifyBranchID : bool) : M ImmutableBareRootMetadata :=
  earliestID <- jread (mdIDJournal_getEarliest (fs_fault E)) ;;
  if (earliestID =? zeroMdID)%N
  then ret zeroIBRMD
  else
    r <- getMD currentUID currentVerifyingKey earliestID verifyBranchID ;;
    let '(earliest, ts) := r in
    lift (MakeImmutableBareRootMetadata earliest earliestID ts).

Definition getLatest (currentUID : UID) (currentVerifyingKey : VerifyingKey)
    (verifyBranchID : bool) : M ImmutableBareRootMetadata :=
  latestID <- jread (mdIDJournal_getLatest (fs_fault E)) ;;
  if (latestID =? zeroMdID)%N
  then ret zeroIBRMD
  else
    r <- getMD currentUID currentVerifyingKey latestID verifyBranchID ;;
    let '(latest, ts) := r in
    lift (MakeImmutableBareRootMetadata latest latestID ts).

(** A method of the embedded interface called on an
    [ImmutableBareRootMetadata]: a nil interface panics. *)
Definition embedded {A} (h : ImmutableBareRootMetadata)
    (k : BareRootMetadata -> M A) : M A :=
  match ibrmd h with
  | Some md => k md
  | None => panic "invalid memory address or nil pointer dereference"
  end.

Definition checkGetParams (currentUID : UID)
    (currentVerifyingKey : VerifyingKey) (extra : ExtraMetadata)
  : M ImmutableBareRootMetadata :=
  head <- getLatest currentUID currentVerifyingKey true ;;
  if decide (head <> zeroIBRMD)
  then
    embedded head (fun md =>
      ok <- lift (isReader E currentUID md extra) ;;
      if negb ok
      then fail MDServerErrorUnauthorized
      else ret head)
  else ret head.
(** *** The readers *)

Definition readEarliestRevision : M MetadataRevision :=
  jread (mdIDJournal_readEarliestRevision (fs_fault E)).

Definition readLatestRevision : M MetadataRevision :=
  jread (mdIDJournal_readLatestRevision (fs_fault E)).

Definition length : M N :=
  jread (mdIDJournal_length (fs_fault E)).

Definition end_ : M MetadataRevision :=
  jread (mdIDJournal_end (fs_fault E)).

Definition getBranchID : M BranchID :=
  s <- get ;; ret (branchID s).

Definition getHead (currentUID : UID) (currentVerifyingKey : VerifyingKey)
    (extra : ExtraMetadata) : M ImmutableBareRootMetadata :=
  checkGetParams currentUID currentVerifyingKey extra.

(** The loop of [getRange]: [i] is the index of the first of [mdIDs]. *)
Fixpoint getRangeLoop (currentUID : UID) (currentVerifyingKey : VerifyingKey)
    (realStart : MetadataRevision) (i : nat) (mdIDs : list MdID)
    (rmds : list ImmutableBareRootMetadata)
  : M (list ImmutableBareRootMetadata) :=
  match mdIDs with
  | [] => ret rmds
  | mdID :: rest =>
      let expectedRevision := wrap64 (realStart + Z.of_nat i) in
      r <- getMD currentUID currentVerifyingKey mdID true ;;
      let '(rmd, ts) := r in
      if negb (expectedRevision =? RevisionNumber rmd)
      then panic "expected revision %v, got %v"
      else
        irmd <- lift (MakeImmutableBareRootMetadata rmd mdID ts) ;;
        getRangeLoop currentUID currentVerifyingKey realStart (S i) rest
          (rmds ++ [irmd])
  end.

Definition getRange (currentUID : UID) (currentVerifyingKey : VerifyingKey)
    (extra : ExtraMetadata) (start stop : MetadataRevision)
  : M (list ImmutableBareRootMetadata) :=
  _ <- checkGetParams currentUID currentVerifyingKey extra ;;
  r <- jread (mdIDJournal_getRange (fs_fault E) start stop) ;;
  let '(realStart, mdIDs) := r in
  getRangeLoop currentUID currentVerifyingKey realStart 0 mdIDs [].

(** *** Flushing *)

(** The result is the MdID and the [*RootMetadataSigned], nil as [None]. *)
Definition getNextEntryToFlush (currentUID : UID)
    (currentVerifyingKey : VerifyingKey) (end' : MetadataRevision)
    (signer : cryptoSigner) : M (MdID * option RootMetadataSigned) :=
  rmd <- getEarliest currentUID currentVerifyingKey true ;;
  if decide (rmd = zeroIBRMD)
  then ret (zeroMdID, None)
  else
    embedded rmd (fun md =>
      if RevisionNumber md >=? end'
      then ret (zeroMdID, None)
      else
        if negb (isMutableBareRootMetadata E)
        then fail MutableBareRootMetadataNoImplError
        else
          rmds <- lift (signMD E signer (mkRMDS 0%N md)) ;;
          ret (mdID rmd, Some rmds)).

Definition removeFlushedEntry (currentUID : UID)
    (currentVerifyingKey : VerifyingKey) (mdID' : MdID)
    (rmds : RootMetadataSigned) : M unit :=
  rmd <- getEarliest currentUID currentVerifyingKey true ;;
  if decide (rmd = zeroIBRMD)
  then fail (errorString "mdJournal unexpectedly empty")
  else
    if negb (mdID' =? mdID rmd)%N
    then fail (errorString "Expected mdID %s, got %s")
    else
      embedded rmd (fun md =>
        eq <- lift (CodecEqual E md (MD rmds)) ;;
        if negb eq
        then fail (errorString "Given RootMetadataSigned doesn't match earliest")
        else
          fun s =>
            match mdIDJournal_removeEarliest (fs_fault E) (j s) with
            | OK (l, empty) =>
                let s1 := set_j l s in
                (* Since the journal is now empty, set lastMdID. *)
                let s2 := if empty then set_lastMdID mdID' s1 else s1 in
                (* Garbage-collect the old entry. *)
                os_Remove mdID' s2
            | Err e => (s, Err e)
            | Panic msg => (s, Panic msg)
            end).

(** *** [put] *)

(** The modifications for the unmerged cases.  [rmd] is a pointer: the
    result carries the RMD as the caller sees it afterwards, and whether
    the deferred revert of the branch ID was registered. *)
Definition putUnmerged (head : ImmutableBareRootMetadata) (rmd : RootMetadata)
    (s : mdJournal) : mdJournal * RootMetadata * bool * result unit :=
  let lastMdID' :=
    if decide (head = zeroIBRMD) then lastMdID s else mdID head in
  if (BID (bareMd rmd) =? NullBranchID)%N && (branchID s =? NullBranchID)%N
  then (s, rmd, false,
        Err (errorString
               "Unmerged put with rmd.BID() == j.branchID == NullBranchID"))
  else if bool_decide (head = zeroIBRMD) && (branchID s =? NullBranchID)%N
  then
    (* Case Unmerged-3. *)
    (set_branchID (BID (bareMd rmd)) s, rmd, true, OK tt)
  else if (BID (bareMd rmd) =? NullBranchID)%N
  then
    (* Case Unmerged-1. *)
    (s, rmd_SetPrevRoot lastMdID' (rmd_SetBranchID (branchID s) rmd),
     false, OK tt)
  else
    (* Most of case Unmerged-2: nothing to do. *)
    (s, rmd, false, OK tt).

Definition isMerged (m : MergeStatus) : bool :=
  match m with Merged => true | Unmerged => false end.

(** The code common to all the cases. *)
Definition putCommon (currentUID : UID) (currentVerifyingKey : VerifyingKey)
    (signer : cryptoSigner) (ekg : encryptionKeyGetter)
    (bsplit : BlockSplitter) (head : ImmutableBareRootMetadata)
    (mStatus : MergeStatus) (rmd : RootMetadata) : M MdID :=
  s <- get ;;
  if negb (eqb (isMerged mStatus) (BID (bareMd rmd) =? NullBranchID)%N)
  then fail (errorString "mStatus=%s doesn't match bid=%s")
  else if isMerged mStatus && negb (branchID s =? NullBranchID)%N
  then fail MDJournalConflictError
  else if negb (BID (bareMd rmd) =? branchID s)%N
  then fail (errorString "Branch ID mismatch: expected %s, got %s")
  else
    (* Check permissions and consistency with head, if it exists. *)
    _ <- (if decide (head <> zeroIBRMD)
          then
            embedded head (fun hmd =>
              ok <- lift (isWriterOrValidRekey E currentUID hmd (bareMd rmd)) ;;
              if negb ok
              then fail MDServerErrorUnauthorized
              else
                if negb (RevisionNumber (bareMd rmd) =? RevisionNumber hmd)
                then lift (CheckValidSuccessorForServer E hmd (mdID head)
                             (bareMd rmd))
                else ret tt)
          else ret tt) ;;
    (* Ensure that the block changes are properly unembedded. *)
    if (Info_BlockPointer (data_Changes rmd) =? zeroPtr)%N
       && negb (bsplit (data_Changes rmd))
    then fail (errorString "MD has embedded block changes, but shouldn't")
    else
      brmd <- lift (encryptMDPrivateData E signer ekg currentUID rmd) ;;
      id <- putMD currentUID currentVerifyingKey brmd ;;
      _ <- (if decide (head <> zeroIBRMD)
            then
              embedded head (fun hmd =>
                if RevisionNumber (bareMd rmd) =? RevisionNumber hmd
                then jwrite (mdIDJournal_replaceHead (fs_fault E) id)
                else jwrite (mdIDJournal_append (fs_fault E)
                               (RevisionNumber brmd) id))
            else jwrite (mdIDJournal_append (fs_fault E)
                           (RevisionNumber brmd) id)) ;;
      (* Since the journal is now non-empty, clear lastMdID. *)
      _ <- modify (set_lastMdID zeroMdID) ;;
      ret id.

Definition put (currentUID : UID) (currentVerifyingKey : VerifyingKey)
    (signer : cryptoSigner) (ekg : encryptionKeyGetter)
    (bsplit : BlockSplitter) (rmd : RootMetadata) (s : mdJournal)
  : mdJournal * RootMetadata * result MdID :=
  match getLatest currentUID currentVerifyingKey true s with
  | (s1, OK head) =>
      let mStatus := MergedStatus (bareMd rmd) in
      (* Make modifications for the Unmerged cases. *)
      let '(s2, rmd', reverting, r) :=
        match mStatus with
        | Unmerged => putUnmerged head rmd s1
        | Merged => (s1, rmd, false, OK tt)
        end in
      match r with
      | OK _ =>
          let '(s3, r3) :=
            putCommon currentUID currentVerifyingKey signer ekg bsplit
              head mStatus rmd' s2 in
          (* Revert branch ID if we encounter an error. *)
          (if reverting && isErr r3 then set_branchID NullBranchID s3 else s3,
           rmd', r3)
      | Err e => (s2, rmd', Err e)
      | Panic msg => (s2, rmd', Panic msg)
      end
  | (s1, Err e) => (s1, rmd, Err e)
  | (s1, Panic msg) => (s1, rmd, Panic msg)
  end.

(** *** [convertToBranch] *)

Definition mdcache_Delete (tlf : TlfID) (rev : MetadataRevision)
    (bid : BranchID) : M unit :=
  modify (fun s => set_mdcache (mdcache s ∖ {[ (tlf, rev, bid) ]}) s).

(** The deferred block: the temporary directory is removed (directories
    are not part of the journal's state), then each of [mdsToRemove];
    errors are only logged. *)
Definition removeMDs (mdsToRemove : list MdID) (s : mdJournal) : mdJournal :=
  foldl (fun s' id => fst (os_Remove id s')) s mdsToRemove.

(** The body of the loop up to [putMD], for the entry [id] at index [i]. *)
Definition convertEntry (currentUID : UID) (currentVerifyingKey : VerifyingKey)
    (signer : cryptoSigner) (tlfID : TlfID) (bid : BranchID) (i : nat)
    (prevID : MdID) (id : MdID) : M (BareRootMetadata * MdID) :=
  r <- getMD currentUID currentVerifyingKey id true ;;
  let '(ibrmd, _) := r in
  if negb (isMutableBareRootMetadata E)
  then fail MutableBareRootMetadataNoImplError
  else
    let brmd := SetBranchID bid (SetUnmerged ibrmd) in
    (* Delete the old "merged" version from the cache. *)
    _ <- mdcache_Delete tlfID (RevisionNumber brmd) NullBranchID ;;
    (* Re-sign the writer metadata. *)
    buf <- lift (GetSerializedWriterMetadata E brmd) ;;
    sigInfo <- lift (signer buf) ;;
    let brmd := SetWriterMetadataSigInfo sigInfo brmd in
    let brmd := if (0 <? i)%nat then SetPrevRoot prevID brmd else brmd in
    newID <- putMD currentUID currentVerifyingKey brmd ;;
    ret (brmd, newID).

(** The loop over [allMdIDs].  Next to the journal the result carries the
    locals the rest of the function and its deferred block read:
    [tempJournal] and [mdsToRemove]. *)
Fixpoint convertLoop (currentUID : UID) (currentVerifyingKey : VerifyingKey)
    (signer : cryptoSigner) (tlfID : TlfID) (bid : BranchID)
    (allMdIDs : list MdID) (i : nat) (tempJournal : mdIDJournal)
    (prevID : MdID) (mdsToRemove : list MdID) (s : mdJournal)
  : mdJournal * (mdIDJournal * list MdID) * result unit :=
  match allMdIDs with
  | [] => (s, (tempJournal, mdsToRemove), OK tt)
  | id :: rest =>
      match convertEntry currentUID currentVerifyingKey signer tlfID bid i
              prevID id s with
      | (s1, OK (brmd, newID)) =>
          let mdsToRemove := (mdsToRemove ++ [newID])%list in
          match mdIDJournal_append (fs_fault E) (RevisionNumber brmd) newID
                  tempJournal with
          | OK tempJournal =>
              convertLoop currentUID currentVerifyingKey signer tlfID bid
                rest (S i) tempJournal newID mdsToRemove s1
          | Err e => (s1, (tempJournal, mdsToRemove), Err e)
          | Panic msg => (s1, (tempJournal, mdsToRemove), Panic msg)
          end
      | (s1, Err e) => (s1, (tempJournal, mdsToRemove), Err e)
      | (s1, Panic msg) => (s1, (tempJournal, mdsToRemove), Panic msg)
      end
  end.

(** The part of [convertToBranch] after the deferred block is registered:
    the result also says which MDs the deferred block removes. *)
Definition convertRewrite (currentUID : UID)
    (currentVerifyingKey : VerifyingKey) (signer : cryptoSigner)
    (tlfID : TlfID) (bid : BranchID) (allMdIDs : list MdID)
    (journalTempDir : string) (s : mdJournal)
  : mdJournal * list MdID * result BranchID :=
  let tempJournal := makeMdIDJournal journalTempDir in
  match convertLoop currentUID currentVerifyingKey signer tlfID bid
          allMdIDs 0 tempJournal zeroMdID [] s with
  | (s1, (tempJournal, mdsToRemove), OK _) =>
      let oldJournalTempDir := (journalTempDir ++ ".old")%string in
      match mdIDJournal_move (fs_fault E) oldJournalTempDir (j s1) with
      | OK (moved, dir) =>
          let s2 := set_j moved s1 in
          match mdIDJournal_move (fs_fault E) dir tempJournal with
          | OK (tempJournal, _) =>
              (* Make the defer block remove oldJournalTempDir. *)
              (set_branchID bid (set_j tempJournal s2), allMdIDs, OK bid)
          | Err e => (s2, mdsToRemove, Err e)
          | Panic msg => (s2, mdsToRemove, Panic msg)
          end
      | Err e => (s1, mdsToRemove, Err e)
      | Panic msg => (s1, mdsToRemove, Panic msg)
      end
  | (s1, (_, mdsToRemove), Err e) => (s1, mdsToRemove, Err e)
  | (s1, (_, mdsToRemove), Panic msg) => (s1, mdsToRemove, Panic msg)
  end.

Definition convertToBranch (currentUID : UID)
    (currentVerifyingKey : VerifyingKey) (signer : cryptoSigner)
    (tlfID : TlfID) : M BranchID :=
  s <- get ;;
  if negb (branchID s =? NullBranchID)%N
  then fail (errorString "convertToBranch called with BID=%s")
  else
    earliestRevision <- jread (mdIDJournal_readEarliestRevision (fs_fault E)) ;;
    latestRevision <- jread (mdIDJournal_readLatestRevision (fs_fault E)) ;;
    r <- jread (mdIDJournal_getRange (fs_fault E) earliestRevision
                  latestRevision) ;;
    let '(_, allMdIDs) := r in
    bid <- lift (crypto_MakeRandomBranchID E) ;;
    journalTempDir <- ioutil_TempDir ;;
    fun s0 =>
      let '(s1, mdsToRemove, res) :=
        convertRewrite currentUID currentVerifyingKey signer tlfID bid
          allMdIDs journalTempDir s0 in
      (removeMDs mdsToRemove s1, res).

(** *** [clear] *)

Fixpoint clearLoop (allMdIDs : list MdID) : M unit :=
  match allMdIDs with
  | [] => ret tt
  | id :: rest => _ <- os_Remove id ;; clearLoop rest
  end.

Definition clear (currentUID : UID) (currentVerifyingKey : VerifyingKey)
    (bid : BranchID) (extra : ExtraMetadata) : M unit :=
  if (bid =? NullBranchID)%N
  then fail (errorString "Cannot clear master branch")
  else
    head <- getHead currentUID currentVerifyingKey extra ;;
    if decide (head = zeroIBRMD)
    then ret tt (* Nothing to do. *)
    else
      embedded head (fun hmd =>
        if negb (BID hmd =? bid)%N
        then ret tt (* Nothing to do. *)
        else
          earliestRevision <-
            jread (mdIDJournal_readEarliestRevision (fs_fault E)) ;;
          latestRevision <-
            jread (mdIDJournal_readLatestRevision (fs_fault E)) ;;
          r <- jread (mdIDJournal_getRange (fs_fault E) earliestRevision
                        latestRevision) ;;
          let '(_, allMdIDs) := r in
          _ <- modify (set_branchID NullBranchID) ;;
          (* No need to set lastMdID in this case. *)
          fun s =>
            match mdIDJournal_clear (fs_fault E) (j s) with
            | OK l =>
                (* Garbage-collect the old branch entries. *)
                clearLoop allMdIDs (set_j l s)
            | Err _ => (s, OK tt)
            | Panic msg => (s, Panic msg)
            end).

(** *** [makeMDJournal] *)

(** Opening the journal of a directory: [log] is the ordinal log found in
    [dir]/md_journal, [files] the content files found in [dir]/mds, and
    [cache] the MD cache of the process.  The in-memory fields start at
    their zero values. *)
Definition makeMDJournal (currentUID : UID) (currentVerifyingKey : VerifyingKey)
    (log : mdIDJournal) (files : gmap N File) (cache : gset (N * Z * N))
  : result mdJournal :=
  let journal := mkMdJournal log NullBranchID zeroMdID files cache in
  let opening : M unit :=
    earliest <- getEarliest currentUID currentVerifyingKey false ;;
    latest <- getLatest currentUID currentVerifyingKey false ;;
    if negb (eqb (bool_decide (earliest = zeroIBRMD))
                 (bool_decide (latest = zeroIBRMD)))
    then fail (errorString "has earliest=%t != has latest=%t")
    else
      if decide (earliest <> zeroIBRMD)
      then
        embedded earliest (fun e =>
          embedded latest (fun l =>
            if negb (BID e =? BID l)%N
            then fail (errorString "earliest.BID=%s != latest.BID=%s")
            else modify (set_branchID (BID e))))
      else ret tt in
  match opening journal with
  | (s, OK _) => OK s
  | (_, Err e) => Err e
  | (_, Panic msg) => Panic msg
  end.
End Coordinator.

(** ** A concrete set of collaborators

    Used to run the coordinator on explicit journals: a codec and a hash
    that are injective (through the [Countable] encoding of the metadata),
    a signer and an encryptor that do nothing, and a successor check that
    compares the revision and the previous root. *)

#[global] Instance MergeStatus_countable : Countable MergeStatus.
Proof.
  refine (inj_countable' isMerged (fun b : bool => if b then Merged else Unmerged) _).
  by intros [].
Defined.

(** The fields of the metadata as a list of numbers, and back. *)
Definition BareRootMetadata_to_list (md : BareRootMetadata) : list N :=
  [TlfIDOf md; Npos (encode (RevisionNumber md)); BID md; GetPrevRoot md;
   Npos (encode (MergedStatus md)); WriterMetadataSigInfo md; payload md].

Definition BareRootMetadata_of_list (l : list N) : option BareRootMetadata :=
  match l with
  | [a; Npos b; c; d; Npos e; f; g] =>
      match decode b, decode e with
      | Some rev, Some st => Some (mkBRMD a rev c d st f g)
      | _, _ => None
      end
  | _ => None
  end.

#[global] Instance BareRootMetadata_countable : Countable BareRootMetadata.
Proof.
  refine (inj_countable BareRootMetadata_to_list BareRootMetadata_of_list _).
  intros []. unfold BareRootMetadata_to_list, BareRootMetadata_of_list.
  cbv beta iota. by rewrite !decode_encode.
Defined.

Fixpoint pos_to_bytes (p : positive) : list Byte.byte :=
  match p with
  | xH => []
  | xO q => Byte.x00 :: pos_to_bytes q
  | xI q => Byte.x01 :: pos_to_bytes q
  end.

Fixpoint bytes_to_pos (l : list Byte.byte) : positive :=
  match l with
  | [] => xH
  | Byte.x00 :: rest => xO (bytes_to_pos rest)
  | _ :: rest => xI (bytes_to_pos rest)
  end.

Module Demo.
Definition Encode (md : BareRootMetadata) : result bytes :=
  OK (pos_to_bytes (encode md)).

Definition Decode (buf : bytes) : result BareRootMetadata :=
  match decode (bytes_to_pos buf) with
  | Some md => OK md
  | None => Err (ProviderError 1)
  end.

Definition MakeMdID (md : BareRootMetadata) : result MdID :=
  OK (Npos (encode md)).

Definition CheckValidSuccessor (head : BareRootMetadata) (headID : MdID)
    (md : BareRootMetadata) : result unit :=
  if (RevisionNumber md =? RevisionNumber head + 1)
     && (GetPrevRoot md =? headID)%N
  then OK tt
  else Err (ProviderError 2).

Definition signer : cryptoSigner := fun _ => OK 9%N.
Definition bsplit : BlockSplitter := fun _ => true.

(** The collaborators, for the I/O errors [fault], a reader check that
    answers [reader], and the random branch ID [bid]. *)
Definition externals (fault : FsOp -> option error) (reader : bool)
    (bid : BranchID) : Externals :=
  {| codec_Encode := Encode;
     codec_Decode := Decode;
     CodecEqual := fun a b => OK (bool_decide (a = b));
     crypto_MakeMdID := MakeMdID;
     crypto_MakeRandomBranchID := OK bid;
     IsValidAndSigned := fun _ => OK tt;
     IsLastModifiedBy := fun _ _ _ => OK tt;
     GetSerializedWriterMetadata := fun _ => OK [];
     CheckValidSuccessorForServer := CheckValidSuccessor;
     isMutableBareRootMetadata := true;
     isReader := fun _ _ _ => OK reader;
     isWriterOrValidRekey := fun _ _ _ => OK true;
     encryptMDPrivateData := fun _ _ _ rmd => OK (bareMd rmd);
     signMD := fun sg rmds =>
       match sg [] with
       | OK sig => OK (mkRMDS sig (MD rmds))
       | Err e => Err e
       | Panic msg => Panic msg
       end;
     fs_fault := fault;
     fs_now := 1%N;
     fs_tempName := "md_journal123" |}.

Definition noFault : FsOp -> option error := fun _ => None.

(** The I/O error of a failed truncation of the ordinal log. *)
Definition clearFails : FsOp -> option error := fun op =>
  match op with
  | OrdinalLog _ LogClear => Some (PathError EIO)
  | _ => None
  end.

Definition E0 : Externals := externals noFault true 7%N.

(** An empty journal on the trunk. *)
Definition empty : mdJournal :=
  mkMdJournal (makeMdIDJournal "md_journal") NullBranchID zeroMdID ∅ ∅.

Definition merged (rev : MetadataRevision) (prev : MdID) : RootMetadata :=
  mkRMD (mkBRMD 1%N rev NullBranchID prev Merged 0%N 0%N)
        (mkBlockChanges 0%N 0%N).

Definition unmerged (rev : MetadataRevision) (bid : BranchID) (prev : MdID)
  : RootMetadata :=
  mkRMD (mkBRMD 1%N rev bid prev Unmerged 0%N 0%N) (mkBlockChanges 0%N 0%N).

(** [put] as a computation that forgets the RMD. *)
Definition putJ (E : Externals) (rmd : RootMetadata) (s : mdJournal)
  : mdJournal * result MdID :=
  let '(s', _, r) := put E 1%N 1%N signer 0%N bsplit rmd s in (s', r).

Definition idOf (r : result MdID) : MdID :=
  match r with OK id => id | _ => zeroMdID end.

(** A journal on the trunk with the revisions 1 and 2. *)
Definition one : mdJournal := fst (putJ E0 (merged 1 0%N) empty).
Definition id1 : MdID := idOf (snd (putJ E0 (merged 1 0%N) empty)).
Definition two : mdJournal := fst (putJ E0 (merged 2 id1) one).
Definition id2 : MdID := idOf (snd (putJ E0 (merged 2 id1) one)).

(** The empty journal after [putMD] of the metadata of revision 1. *)
Definition stored : mdJournal :=
  fst (putMD E0 1%N 1%N (bareMd (merged 1 0%N)) empty).

(** The same journal after its conversion to the branch 7. *)
Definition branched : mdJournal := fst (convertToBranch E0 1%N 1%N signer 1%N two).
End Demo.

(** ** The vocabulary of the properties *)

(** A computation that leaves the journal as it is. *)
Definition readOnly {A} (m : M A) : Prop := forall s, fst (m s) = s.

(** A computation that keeps the component [f] of the journal. *)
Definition keeps {A X} (f : mdJournal -> X) (m : M A) : Prop :=
  forall s, f (fst (m s)) = f s.

(** The encryptor keeps the revision of the metadata it encrypts. *)
Definition encryptKeepsRevision (E : Externals) : Prop :=
  forall signer ekg uid rmd brmd,
    encryptMDPrivateData E signer ekg uid rmd = OK brmd ->
    RevisionNumber brmd = RevisionNumber (bareMd rmd).

(** The contracts of the collaborators that the conversion relies on: the
    random branch ID is not the null one, the hash has no collisions, and
    decoding undoes encoding. *)
Definition randomBranchIDNonNull (E : Externals) : Prop :=
  forall bid, crypto_MakeRandomBranchID E = OK bid -> bid <> NullBranchID.

Definition mdIDInjective (E : Externals) : Prop :=
  forall md1 md2 id,
    crypto_MakeMdID E md1 = OK id -> crypto_MakeMdID E md2 = OK id -> md1 = md2.

Definition codecRoundTrip (E : Externals) : Prop :=
  forall md buf, codec_Encode E md = OK buf -> codec_Decode E buf = OK md.

(** The content store [m] holds the metadata [md] under its MdID [id]. *)
Definition storedMD (E : Externals) (m : gmap N File) (id : N)
    (md : BareRootMetadata) : Prop :=
  exists f, m !! id = Some f /\ codec_Decode E (fdata f) = OK md /\
            crypto_MakeMdID E md = OK id.

(** Invariant 2 of the journal, for the revisions: the metadata stored under
    the MdID of an entry has the revision of the entry. *)
Definition storedRevisionsMatch (E : Externals) (s : mdJournal) : Prop :=
  forall (i : nat) (id : N) (md : BareRootMetadata),
    ids (j s) !! i = Some id ->
    storedMD E (mds s) id md ->
    RevisionNumber md = earliestRevision (j s) + Z.of_nat i.

(** What the new metadata [b] with the MdID [n], at the index [k] of the
    loop, is: stored in [m1], on the branch, unmerged, with the revision of
    the old metadata at that index (stored in [m0] on the trunk), at the
    revision [rev0 + k] of the new log, and chained to its predecessor. *)
Definition converted (E : Externals) (bid : N) (m0 m1 : gmap N File) (allMdIDs : list N)
    (news : list (BareRootMetadata * N)) (rev0 : Z) (first : nat) (prevID : N)
    (k : nat) (b : BareRootMetadata) (n : N) : Prop :=
  crypto_MakeMdID E b = OK n /\
  BID b = bid /\ MergedStatus b = Unmerged /\
  storedMD E m1 n b /\
  RevisionNumber b = rev0 + Z.of_nat k /\
  (exists o old, allMdIDs !! k = Some o /\ storedMD E m0 o old /\
     BID old = NullBranchID /\ RevisionNumber b = RevisionNumber old) /\
  match k with
  | O => (0 < first)%nat -> GetPrevRoot b = prevID
  | S k' => exists b' n', news !! k' = Some (b', n') /\ GetPrevRoot b = n'
  end.

(** A computation that keeps a property of the journal, whatever its
    outcome. *)
Definition preserves {A} (P : mdJournal -> Prop) (m : M A) : Prop :=
  forall s, P s -> P (fst (m s)).

(** The journal remembers the MdID of the last flushed entry only while its
    log is empty. *)
Definition lastMdIDOnlyWhenEmpty (s : mdJournal) : Prop :=
  lastMdID s <> zeroMdID -> ids (j s) = [].

(** The calls that change a journal. *)
Inductive Call :=
| CallPut (signer : cryptoSigner) (ekg : encryptionKeyGetter)
    (bsplit : BlockSplitter) (rmd : RootMetadata)
| CallRemoveFlushedEntry (mdID' : MdID) (rmds : RootMetadataSigned)
| CallConvertToBranch (signer : cryptoSigner) (tlfID : TlfID)
| CallClear (bid : BranchID) (extra : ExtraMetadata).

(** The journal after a call, whatever the call returned. *)
Definition afterCall (E : Externals) (uid : UID) (key : VerifyingKey)
    (c : Call) (s : mdJournal) : mdJournal :=
  match c with
  | CallPut signer ekg bsplit rmd =>
      fst (fst (put E uid key signer ekg bsplit rmd s))
  | CallRemoveFlushedEntry mdID' rmds =>
      fst (removeFlushedEntry E uid key mdID' rmds s)
  | CallConvertToBranch signer tlfID =>
      fst (convertToBranch E uid key signer tlfID s)
  | CallClear bid extra => fst (clear E uid key bid extra s)
  end.

Definition afterCalls (E : Externals) (uid : UID) (key : VerifyingKey)
    (cs : list Call) (s : mdJournal) : mdJournal :=
  foldl (fun s' c => afterCall E uid key c s') s cs.

(** [signMD] signs the metadata it is given and leaves it as it is. *)
Definition signKeepsMD (E : Externals) : Prop :=
  forall signer rmds rmds', signMD E signer rmds = OK rmds' -> MD rmds' = MD rmds.

(** The codec finds metadata equal to itself. *)
Definition codecEqualRefl (E : Externals) : Prop :=
  forall md, CodecEqual E md md = OK true.

(** The journal [Demo.two] with three merged keys in the MD cache. *)
Definition cachedTwo : mdJournal :=
  set_mdcache ({[ (1%N, 1, 0%N) ]} ∪ {[ (1%N, 2, 0%N) ]} ∪ {[ (1%N, 5, 0%N) ]})
    Demo.two.

(** * Properties *)

(** ** Computations that leave the journal as it is *)


Create HintDb readonly.

Lemma readOnly_ret {A} (a : A) : readOnly (ret a).
Proof. by intros s. Qed.

Lemma readOnly_lift {A} (r : result A) : readOnly (lift r).
Proof. by intros s. Qed.

Lemma readOnly_fail {A} (e : error) : readOnly (@fail A e).
Proof. by intros s. Qed.

Lemma readOnly_panic {A} (msg : string) : readOnly (@panic A msg).
Proof. by intros s. Qed.

Lemma readOnly_get : readOnly get.
Proof. by intros s. Qed.

Lemma readOnly_bind {A B} (m : M A) (k : A -> M B) :
  readOnly m -> (forall a, readOnly (k a)) -> readOnly (bind m k).
Proof.
  intros Hm Hk s. unfold bind.
  specialize (Hm s). destruct (m s) as [s1 [a | e | msg]]; simpl in Hm; subst; auto.
  apply Hk.
Qed.

Lemma readOnly_if {A} (b : bool) (m1 m2 : M A) :
  readOnly m1 -> readOnly m2 -> readOnly (if b then m1 else m2).
Proof. by destruct b. Qed.

Lemma readOnly_sumbool {A} {P Q : Prop} (d : {P} + {Q}) (m1 m2 : M A) :
  readOnly m1 -> readOnly m2 -> readOnly (if d then m1 else m2).
Proof. by destruct d. Qed.

Lemma readOnly_jread {A} (f : mdIDJournal -> result A) : readOnly (jread f).
Proof. by intros s. Qed.

#[global] Hint Resolve readOnly_ret readOnly_lift readOnly_fail readOnly_panic
  readOnly_get readOnly_jread : readonly.
#[global] Hint Extern 2 (readOnly (bind _ _)) =>
  apply readOnly_bind; [ | intros ] : readonly.
#[global] Hint Extern 2 (readOnly (if _ then _ else _)) =>
  first [ apply readOnly_if | apply readOnly_sumbool ] : readonly.
#[global] Hint Extern 2 (readOnly (let '(_, _) := ?p in _)) =>
  destruct p : readonly.

Section ReadOnly.
Variable E : Externals.

Lemma readOnly_ReadFile id : readOnly (ioutil_ReadFile E id).
Proof.
  intros s. unfold ioutil_ReadFile.
  destruct (fs_fault E (ReadFile id)); [done |]. by destruct (mds s !! id).
Qed.

Lemma readOnly_Stat id : readOnly (os_Stat E id).
Proof.
  intros s. unfold os_Stat.
  destruct (fs_fault E (Stat id)); [done |]. by destruct (mds s !! id).
Qed.

Hint Resolve readOnly_ReadFile readOnly_Stat : readonly.

Lemma readOnly_getMD uid key id verify : readOnly (getMD E uid key id verify).
Proof. unfold getMD. auto 20 with readonly. Qed.

Hint Resolve readOnly_getMD : readonly.

Lemma readOnly_getEarliest uid key verify :
  readOnly (getEarliest E uid key verify).
Proof. unfold getEarliest. auto 20 with readonly. Qed.

Lemma readOnly_getLatest uid key verify :
  readOnly (getLatest E uid key verify).
Proof. unfold getLatest. auto 20 with readonly. Qed.

Hint Resolve readOnly_getEarliest readOnly_getLatest : readonly.

Lemma readOnly_embedded {A} h (k : BareRootMetadata -> M A) :
  (forall md, readOnly (k md)) -> readOnly (embedded h k).
Proof. intros Hk. unfold embedded. destruct (ibrmd h); auto with readonly. Qed.

Hint Extern 2 (readOnly (embedded _ _)) =>
  apply readOnly_embedded; intros : readonly.

Lemma readOnly_checkGetParams uid key extra :
  readOnly (checkGetParams E uid key extra).
Proof. unfold checkGetParams. auto 20 with readonly. Qed.

Hint Resolve readOnly_checkGetParams : readonly.

Lemma readOnly_getRangeLoop uid key realStart mdIDs :
  forall i rmds, readOnly (getRangeLoop E uid key realStart i mdIDs rmds).
Proof.
  induction mdIDs as [| mdID rest IH]; intros i rmds; simpl;
    auto 20 with readonly.
Qed.

Hint Resolve readOnly_getRangeLoop : readonly.

Lemma readOnly_getHead uid key extra : readOnly (getHead E uid key extra).
Proof. apply readOnly_checkGetParams. Qed.

Lemma readOnly_getRange uid key extra start stop :
  readOnly (getRange E uid key extra start stop).
Proof. unfold getRange. auto 20 with readonly. Qed.

Lemma readOnly_getNextEntryToFlush uid key end' signer :
  readOnly (getNextEntryToFlush E uid key end' signer).
Proof. unfold getNextEntryToFlush. auto 20 with readonly. Qed.

Lemma readOnly_length : readOnly (length E).
Proof. apply readOnly_jread. Qed.

Lemma readOnly_end : readOnly (end_ E).
Proof. apply readOnly_jread. Qed.

Lemma readOnly_getBranchID : readOnly getBranchID.
Proof. unfold getBranchID. auto with readonly. Qed.
End ReadOnly.

(** ** What a successful read tells *)

Section Reads.
Variable E : Externals.

(** The file that [getMD] read, and the checks it passed. *)
Lemma getMD_OK uid key id verify s s' rmd ts :
  getMD E uid key id verify s = (s', OK (rmd, ts)) ->
  s' = s /\
  exists f, mds s !! id = Some f /\ ts = fmodTime f /\
    codec_Decode E (fdata f) = OK rmd /\
    crypto_MakeMdID E rmd = OK id /\
    (verify = true -> BID rmd = branchID s).
Proof.
  unfold getMD, bind, lift, fail, get, ret, ioutil_ReadFile, os_Stat.
  intros H. repeat case_match; simplify_eq.
  split; [done |]. eexists; repeat split; try done.
  - match goal with
    | Hc : crypto_MakeMdID E _ = OK ?n, Hn : negb (?n =? _)%N = false |- _ =>
        apply negb_false_iff, N.eqb_eq in Hn; by subst
    end.
  - intros ->.
    match goal with
    | Hn : true && negb _ = false |- _ =>
        simpl in Hn; by apply negb_false_iff, N.eqb_eq in Hn
    end.
Qed.

(** [getLatest] answers the zero value exactly when the log gives the zero
    MdID, and otherwise the metadata stored under the latest MdID. *)
Lemma getLatest_OK uid key verify s s' head :
  getLatest E uid key verify s = (s', OK head) ->
  s' = s /\
  mdIDJournal_getLatest (fs_fault E) (j s) = OK (mdID head) /\
  ((head = zeroIBRMD /\ List.last (ids (j s)) zeroMdID = zeroMdID) \/
   (exists md, ibrmd head = Some md /\ mdID head <> zeroMdID /\
      getMD E uid key (mdID head) verify s
      = (s, OK (md, localTimestamp head)))).
Proof.
  intros H.
  assert (s' = s) as ->.
  { pose proof (readOnly_getLatest E uid key verify s) as Hr.
    rewrite H in Hr. by simpl in Hr. }
  split; [done |]. revert H.
  unfold getLatest, bind, jread, ret, lift, MakeImmutableBareRootMetadata.
  destruct (mdIDJournal_getLatest (fs_fault E) (j s)) as [latestID | e | msg] eqn:Hl;
    [| done | done].
  destruct (latestID =? zeroMdID)%N eqn:Hz.
  - intros [= <-]. apply N.eqb_eq in Hz. subst. split; [done |]. left.
    split; [done |]. unfold mdIDJournal_getLatest, logFault in Hl.
    destruct (fs_fault E _); by simplify_eq.
  - destruct (getMD E uid key latestID verify s) as [s1 [[md ts] | e | msg]] eqn:Hg;
      [| done | done].
    intros [= -> <-]. simpl. split; [done |]. right.
    apply N.eqb_neq in Hz. by exists md.
Qed.

Lemma getEarliest_OK uid key verify s s' head :
  getEarliest E uid key verify s = (s', OK head) ->
  s' = s /\
  mdIDJournal_getEarliest (fs_fault E) (j s) = OK (mdID head) /\
  ((head = zeroIBRMD /\ hd zeroMdID (ids (j s)) = zeroMdID) \/
   (exists md, ibrmd head = Some md /\ mdID head <> zeroMdID /\
      getMD E uid key (mdID head) verify s
      = (s, OK (md, localTimestamp head)))).
Proof.
  intros H.
  assert (s' = s) as ->.
  { pose proof (readOnly_getEarliest E uid key verify s) as Hr.
    rewrite H in Hr. by simpl in Hr. }
  split; [done |]. revert H.
  unfold getEarliest, bind, jread, ret, lift, MakeImmutableBareRootMetadata.
  destruct (mdIDJournal_getEarliest (fs_fault E) (j s)) as [earliestID | e | msg] eqn:Hl;
    [| done | done].
  destruct (earliestID =? zeroMdID)%N eqn:Hz.
  - intros [= <-]. apply N.eqb_eq in Hz. subst. split; [done |]. left.
    split; [done |]. unfold mdIDJournal_getEarliest, logFault in Hl.
    destruct (fs_fault E _); by simplify_eq.
  - destruct (getMD E uid key earliestID verify s) as [s1 [[md ts] | e | msg]] eqn:Hg;
      [| done | done].
    intros [= -> <-]. simpl. split; [done |]. right.
    apply N.eqb_neq in Hz. by exists md.
Qed.

(** The head that was read with the branch check is on the journal's
    branch. *)
Lemma getLatest_BID uid key s s' head md :
  getLatest E uid key true s = (s', OK head) ->
  ibrmd head = Some md ->
  BID md = branchID s.
Proof.
  intros H Hmd. apply getLatest_OK in H as (-> & _ & [[-> _] | (md' & Hmd' & _ & Hg)]).
  - done.
  - rewrite Hmd in Hmd'. simplify_eq.
    apply getMD_OK in Hg as (_ & f & _ & _ & _ & _ & Hb). by apply Hb.
Qed.

(** On an empty log there is no head. *)
Lemma getLatest_empty uid key verify s s' head :
  ids (j s) = [] ->
  getLatest E uid key verify s = (s', OK head) ->
  head = zeroIBRMD.
Proof.
  intros Hnil H.
  apply getLatest_OK in H as (-> & Hl & [[-> _] | (md & _ & Hne & _)]);
    [done |].
  unfold mdIDJournal_getLatest, logFault in Hl. rewrite Hnil in Hl.
  destruct (fs_fault E _); by simplify_eq.
Qed.
End Reads.

Lemma readOnly_run {A} (m : M A) (s : mdJournal) (r : result A) :
  readOnly m -> snd (m s) = r -> m s = (s, r).
Proof.
  intros Hm Hr. specialize (Hm s). destruct (m s) as [s' r']. simpl in *.
  by subst.
Qed.

(** ** The readers *)

(** C10: the read operations getHead, getRange, getNextEntryToFlush, length,
    end and getBranchID leave the coordinator's state unchanged: the journal
    after the call (its branchID, its lastMdID, its ordinal log, and the
    files of the content store) is the journal before the call, whether the
    call succeeds, fails or panics. *)
Theorem readers_leave_journal_unchanged (E : Externals) (uid key : N)
    (extra : N) (start stop end' : Z) (signer : list Byte.byte -> result N)
    (s : mdJournal) :
  fst (getHead E uid key extra s) = s /\
  fst (getRange E uid key extra start stop s) = s /\
  fst (getNextEntryToFlush E uid key end' signer s) = s /\
  fst (length E s) = s /\
  fst (end_ E s) = s /\
  fst (getBranchID s) = s.
Proof.
  repeat split.
  - apply readOnly_getHead.
  - apply readOnly_getRange.
  - apply readOnly_getNextEntryToFlush.
Qed.

(** ** Branch conversion is not re-entrant *)

(** C6: on a journal whose branchID is not NULL_BID, convertToBranch fails:
    it returns an error and the journal is unchanged. *)
Theorem convertToBranch_not_reentrant (E : Externals) (uid key : N)
    (signer : list Byte.byte -> result N) (tlfID : N) (s : mdJournal) :
  branchID s <> NullBranchID ->
  exists e, convertToBranch E uid key signer tlfID s = (s, Err e).
Proof.
  intros Hb. unfold convertToBranch, bind, get.
  apply N.eqb_neq in Hb. rewrite Hb. simpl. by eexists.
Qed.

Lemma convertToBranch_not_reentrant_witness :
  branchID Demo.branched <> NullBranchID /\
  exists e, convertToBranch Demo.E0 1%N 1%N Demo.signer 1%N Demo.branched
            = (Demo.branched, Err e).
Proof.
  assert (branchID Demo.branched <> NullBranchID) as Hb by (by vm_compute).
  split; [exact Hb |].
  exact (convertToBranch_not_reentrant Demo.E0 1%N 1%N Demo.signer 1%N
           Demo.branched Hb).
Defined.

(** ** A merged put on a branch *)

(** C3 (amended): on a journal whose branchID is not NULL_BID and whose head
    is read without error, put of an RMD with mergedStatus MERGED and branch
    ID NULL_BID fails with MDJournalConflictError, and neither the journal
    nor the RMD is changed by the failed call. *)
Theorem put_merged_on_branch_conflicts (E : Externals) (uid key : N)
    (signer : list Byte.byte -> result N) (ekg : N)
    (bsplit : BlockChanges -> bool) (rmd : RootMetadata) (s : mdJournal)
    (head : ImmutableBareRootMetadata) :
  branchID s <> NullBranchID ->
  MergedStatus (bareMd rmd) = Merged ->
  BID (bareMd rmd) = NullBranchID ->
  snd (getLatest E uid key true s) = OK head ->
  put E uid key signer ekg bsplit rmd s = (s, rmd, Err MDJournalConflictError).
Proof.
  intros Hb Hm Hbid Hhead.
  apply readOnly_run in Hhead; [| apply readOnly_getLatest].
  unfold put. rewrite Hhead, Hm. unfold putCommon, bind, get, fail. simpl.
  rewrite Hbid. apply N.eqb_neq in Hb. by rewrite Hb.
Qed.

Lemma put_merged_on_branch_conflicts_witness :
  branchID Demo.branched <> NullBranchID /\
  put Demo.E0 1%N 1%N Demo.signer 0%N Demo.bsplit (Demo.merged 3 0%N)
    Demo.branched
  = (Demo.branched, Demo.merged 3 0%N, Err MDJournalConflictError).
Proof.
  assert (branchID Demo.branched <> NullBranchID) as Hb by (by vm_compute).
  split; [exact Hb |].
  eapply (put_merged_on_branch_conflicts Demo.E0 1%N 1%N Demo.signer 0%N
            Demo.bsplit (Demo.merged 3 0%N) Demo.branched _ Hb);
    [reflexivity | reflexivity | by vm_compute].
Defined.

(** C3 as stated fails: on the branched journal a merged RMD that carries a
    branch ID is rejected by the check of the merge status against the
    branch ID, which comes first, and not with MDJournalConflictError. *)
Lemma put_merged_on_branch_counterexample :
  let rmd := mkRMD (mkBRMD 1%N 3 7%N 0%N Merged 0%N 0%N) (mkBlockChanges 0%N 0%N) in
  branchID Demo.branched <> NullBranchID /\
  MergedStatus (bareMd rmd) = Merged /\
  snd (put Demo.E0 1%N 1%N Demo.signer 0%N Demo.bsplit rmd Demo.branched)
  = Err (errorString "mStatus=%s doesn't match bid=%s") /\
  snd (put Demo.E0 1%N 1%N Demo.signer 0%N Demo.bsplit rmd Demo.branched)
  <> Err MDJournalConflictError.
Proof.
  assert (snd (put Demo.E0 1%N 1%N Demo.signer 0%N Demo.bsplit
                 (mkRMD (mkBRMD 1%N 3 7%N 0%N Merged 0%N 0%N)
                    (mkBlockChanges 0%N 0%N)) Demo.branched)
          = Err (errorString "mStatus=%s doesn't match bid=%s")) as H
    by (by vm_compute).
  cbv zeta. rewrite H.
  split; [by vm_compute |]. split; [reflexivity |]. by split.
Qed.

(** ** Computations that keep a component of the journal *)

Lemma keeps_readOnly {A X} (f : mdJournal -> X) (m : M A) :
  readOnly m -> keeps f m.
Proof. intros Hm s. by rewrite Hm. Qed.

Lemma keeps_bind {A B X} (f : mdJournal -> X) (m : M A) (k : A -> M B) :
  keeps f m -> (forall a, keeps f (k a)) -> keeps f (bind m k).
Proof.
  intros Hm Hk s. unfold bind. specialize (Hm s).
  destruct (m s) as [s1 [a | e | msg]]; simpl in *; [| done | done].
  by rewrite Hk.
Qed.

Lemma keeps_os_Remove {X} (E : Externals) (f : mdJournal -> X) id :
  (forall m s, f (set_mds m s) = f s) -> keeps f (os_Remove E id).
Proof.
  intros Hf s. unfold os_Remove.
  destruct (fs_fault E (Remove id)); [done |].
  destruct (mds s !! id); [| done]. apply Hf.
Qed.

Lemma keeps_clearLoop {X} (E : Externals) (f : mdJournal -> X) allMdIDs :
  (forall m s, f (set_mds m s) = f s) -> keeps f (clearLoop E allMdIDs).
Proof.
  intros Hf. induction allMdIDs as [| id rest IH]; simpl.
  - by intros s.
  - apply keeps_bind; [by apply keeps_os_Remove | by intros _].
Qed.

(** ** [clear] *)

Section Clear.
Variable E : Externals.

Lemma checkGetParams_OK uid key extra s s' head :
  checkGetParams E uid key extra s = (s', OK head) ->
  getLatest E uid key true s = (s, OK head).
Proof.
  unfold checkGetParams, bind. intros H.
  pose proof (readOnly_getLatest E uid key true s) as Hr.
  destruct (getLatest E uid key true s) as [s1 [h | e | msg]];
    simpl in Hr; subst; [| done | done].
  destruct (decide (h <> zeroIBRMD)); [| unfold ret in H; by simplify_eq].
  unfold embedded, bind, lift, fail, ret in H.
  repeat case_match; by simplify_eq.
Qed.

(** What [clear] does once the head is read, exists and is on the branch
    [bid], and the ordinal log answers: the truncated journal, or the
    journal with its log as it was when the truncation fails. *)
Lemma clear_run uid key bid extra s head md :
  bid <> NullBranchID ->
  snd (getHead E uid key extra s) = OK head ->
  ibrmd head = Some md ->
  BID md = bid ->
  (forall op, In op [LogReadEarliestRevision; LogReadLatestRevision; LogGetRange] ->
     fs_fault E (OrdinalLog (jdir (j s)) op) = None) ->
  exists allMdIDs,
    clear E uid key bid extra s
    = match mdIDJournal_clear (fs_fault E) (j s) with
      | OK l => clearLoop E allMdIDs (set_j l (set_branchID NullBranchID s))
      | Err _ => (set_branchID NullBranchID s, OK tt)
      | Panic msg => (set_branchID NullBranchID s, Panic msg)
      end.
Proof.
  intros Hbid Hhead Hmd Hb Hf.
  apply readOnly_run in Hhead; [| apply readOnly_getHead].
  unfold clear. apply N.eqb_neq in Hbid. rewrite Hbid.
  unfold bind at 1. rewrite Hhead.
  destruct (decide (head = zeroIBRMD)) as [-> | _]; [done |].
  unfold embedded. rewrite Hmd, Hb, N.eqb_refl. simpl.
  unfold bind, jread, modify, mdIDJournal_readEarliestRevision,
    mdIDJournal_readLatestRevision, mdIDJournal_getRange, logFault.
  rewrite !Hf by (simpl; tauto). simpl.
  destruct (ids (j s)); by eexists.
Qed.
End Clear.

Lemma clear_keeps_lastMdID (E : Externals) (uid key bid extra : N) :
  keeps lastMdID (clear E uid key bid extra).
Proof.
  unfold clear. destruct (bid =? NullBranchID)%N; [by intros s |].
  apply keeps_bind; [apply keeps_readOnly, readOnly_getHead |]. intros head.
  destruct (decide (head = zeroIBRMD)); [by intros s |].
  unfold embedded. destruct (ibrmd head) as [hmd |]; [| by intros s].
  destruct (negb (BID hmd =? bid)%N); [by intros s |].
  apply keeps_bind; [apply keeps_readOnly, readOnly_jread |]. intros r1.
  apply keeps_bind; [apply keeps_readOnly, readOnly_jread |]. intros r2.
  apply keeps_bind; [apply keeps_readOnly, readOnly_jread |]. intros [r3 allMdIDs].
  apply keeps_bind; [by intros s |]. intros _ s.
  destruct (mdIDJournal_clear (fs_fault E) (j s)); [| done | done].
  by rewrite (keeps_clearLoop E lastMdID).
Qed.

(** C8 (amended): clear(bid) with bid == NULL_BID fails with the
    invalid-argument error; clear(bid) with bid different from the current
    branch, or on an empty journal, leaves the journal (branchID, ordinal
    log and all the rest) unchanged; otherwise, when the head is read
    without error and exists and the ordinal log neither fails to answer
    the revision range nor to truncate, clear sets branchID to NULL_BID and
    empties the ordinal log; and clear never updates lastMdID. *)
Theorem clear_spec (E : Externals) (uid key bid extra : N) (s : mdJournal) :
  (bid = NullBranchID ->
   clear E uid key bid extra s
   = (s, Err (errorString "Cannot clear master branch"))) /\
  (bid <> NullBranchID ->
   bid <> branchID s \/ ids (j s) = [] ->
   fst (clear E uid key bid extra s) = s) /\
  (forall head md,
     bid <> NullBranchID ->
     bid = branchID s ->
     snd (getHead E uid key extra s) = OK head ->
     ibrmd head = Some md ->
     (forall op,
        In op [LogReadEarliestRevision; LogReadLatestRevision; LogGetRange;
               LogClear] ->
        fs_fault E (OrdinalLog (jdir (j s)) op) = None) ->
     branchID (fst (clear E uid key bid extra s)) = NullBranchID /\
     ids (j (fst (clear E uid key bid extra s))) = []) /\
  lastMdID (fst (clear E uid key bid extra s)) = lastMdID s.
Proof.
  split; [| split; [| split]].
  - intros ->. done.
  - intros Hbid Hcase. unfold clear. apply N.eqb_neq in Hbid. rewrite Hbid.
    unfold bind.
    destruct (getHead E uid key extra s) as [s1 r] eqn:Hhead.
    pose proof (readOnly_getHead E uid key extra s) as Hr.
    rewrite Hhead in Hr. simpl in Hr. subst s1.
    destruct r as [head | e | msg]; [| done | done].
    destruct (decide (head = zeroIBRMD)) as [| Hnz]; [done |].
    apply checkGetParams_OK in Hhead.
    unfold embedded. destruct (ibrmd head) as [hmd |] eqn:Hmd; [| done].
    destruct Hcase as [Hne | Hnil].
    + rewrite (getLatest_BID E uid key s s head hmd Hhead Hmd).
      assert ((branchID s =? bid)%N = false) as ->
        by (apply N.eqb_neq; congruence).
      done.
    + by apply (getLatest_empty E uid key true s s head Hnil) in Hhead.
  - intros head md Hbid Hb Hhead Hmd Hf.
    assert (BID md = bid) as Hbmd.
    { apply readOnly_run in Hhead; [| apply readOnly_getHead].
      apply checkGetParams_OK in Hhead.
      rewrite (getLatest_BID E uid key s s head md Hhead Hmd). done. }
    destruct (clear_run E uid key bid extra s head md Hbid Hhead Hmd Hbmd)
      as [allMdIDs ->].
    { intros op Hop. apply Hf. simpl in *. tauto. }
    unfold mdIDJournal_clear, logFault. rewrite Hf by (simpl; tauto).
    split.
    + by rewrite (keeps_clearLoop E branchID).
    + by rewrite (keeps_clearLoop E (fun s => ids (j s))).
  - apply clear_keeps_lastMdID.
Qed.


Lemma clear_spec_witness :
  branchID (fst (clear Demo.E0 1%N 1%N 7%N 0%N Demo.branched)) = NullBranchID /\
  ids (j (fst (clear Demo.E0 1%N 1%N 7%N 0%N Demo.branched))) = [].
Proof.
  destruct (clear_spec Demo.E0 1%N 1%N 7%N 0%N Demo.branched) as (_ & _ & H & _).
  eapply H; [done | by vm_compute | by vm_compute | reflexivity |].
  intros op _. reflexivity.
Defined.

(** C8 as stated fails: for a user who is not a reader of the head, clear of
    the current branch on a non-empty journal is refused, and the journal
    stays on its branch with its log. *)
Lemma clear_counterexample :
  let E := Demo.externals Demo.noFault false 7%N in
  (7 <> NullBranchID)%N /\
  branchID Demo.branched = 7%N /\
  ids (j Demo.branched) <> [] /\
  clear E 1%N 1%N 7%N 0%N Demo.branched
  = (Demo.branched, Err MDServerErrorUnauthorized) /\
  branchID (fst (clear E 1%N 1%N 7%N 0%N Demo.branched)) <> NullBranchID /\
  ids (j (fst (clear E 1%N 1%N 7%N 0%N Demo.branched))) <> [].
Proof.
  assert (clear (Demo.externals Demo.noFault false 7%N) 1%N 1%N 7%N 0%N
            Demo.branched
          = (Demo.branched, Err MDServerErrorUnauthorized)) as H
    by (by vm_compute).
  cbv zeta. rewrite H. cbn [fst].
  split; [done |]. split; [by vm_compute |]. split; [by vm_compute |].
  split; [done |]. split; by vm_compute.
Qed.

(** ** A failed truncation of the ordinal log *)

(** When the truncation of the ordinal log fails, [clear] answers nil: the
    error is dropped, the branch ID is already reset and the log is as it
    was. *)
Lemma clear_truncation_error (E : Externals) (uid key bid extra : N)
    (s : mdJournal) (head : ImmutableBareRootMetadata) (md : BareRootMetadata)
    (e : error) :
  bid <> NullBranchID ->
  snd (getHead E uid key extra s) = OK head ->
  ibrmd head = Some md ->
  BID md = bid ->
  (forall op,
     In op [LogReadEarliestRevision; LogReadLatestRevision; LogGetRange] ->
     fs_fault E (OrdinalLog (jdir (j s)) op) = None) ->
  mdIDJournal_clear (fs_fault E) (j s) = Err e ->
  clear E uid key bid extra s = (set_branchID NullBranchID s, OK tt).
Proof.
  intros Hbid Hhead Hmd Hb Hf He.
  destruct (clear_run E uid key bid extra s head md Hbid Hhead Hmd Hb Hf)
    as [allMdIDs ->].
  by rewrite He.
Qed.

(** C9: the code does not propagate the error of a failed truncation of the
    ordinal log.  On the branched journal with the revisions 1 and 2, when
    the truncation fails with an I/O error, clear(7) reports success (nil)
    although the two entries are still in the log, and the branch ID is
    reset. *)
Theorem clear_swallows_truncation_error :
  let E := Demo.externals Demo.clearFails true 7%N in
  mdIDJournal_clear (fs_fault E) (j Demo.branched) = Err (PathError EIO) /\
  snd (clear E 1%N 1%N 7%N 0%N Demo.branched) = OK tt /\
  j (fst (clear E 1%N 1%N 7%N 0%N Demo.branched)) = j Demo.branched /\
  List.length (ids (j Demo.branched)) = 2%nat /\
  branchID (fst (clear E 1%N 1%N 7%N 0%N Demo.branched)) = NullBranchID.
Proof.
  assert (clear (Demo.externals Demo.clearFails true 7%N) 1%N 1%N 7%N 0%N
            Demo.branched
          = (set_branchID NullBranchID Demo.branched, OK tt)) as H.
  { eapply clear_truncation_error;
      [done | by vm_compute | reflexivity | by vm_compute | |].
    - intros op [<- | [<- | [<- | []]]]; reflexivity.
    - reflexivity. }
  cbv zeta. rewrite H. cbn [fst snd]. repeat split.
Qed.

(** ** [putMD] on an entry that exists *)

(** When the metadata is already stored, [putMD] leaves the journal as it is
    and answers the zero MdID. *)
Lemma putMD_existing (E : Externals) (uid key : N) (rmd : BareRootMetadata)
    (id : N) (s : mdJournal) (found : BareRootMetadata * N) :
  IsValidAndSigned E rmd = OK tt ->
  IsLastModifiedBy E uid key rmd = OK tt ->
  crypto_MakeMdID E rmd = OK id ->
  snd (getMD E uid key id true s) = OK found ->
  putMD E uid key rmd s = (s, OK zeroMdID).
Proof.
  intros Hv Hl Hid Hg. apply readOnly_run in Hg; [| apply readOnly_getMD].
  unfold putMD, bind, lift. by rewrite Hv, Hl, Hid, Hg.
Qed.

(** C2: the code is not idempotent in the MdID it returns.  On the empty
    journal, putMD of the merged revision 1 writes the content file and
    returns its MdID, which is not zero; the second putMD of the identical
    metadata does not rewrite the file (the journal is unchanged) but
    returns the zero MdID, not the MdID of the first call. *)
Theorem putMD_twice_returns_zero :
  let rmd := bareMd (Demo.merged 1 0%N) in
  let first := putMD Demo.E0 1%N 1%N rmd Demo.empty in
  let second := putMD Demo.E0 1%N 1%N rmd (fst first) in
  snd first = OK Demo.id1 /\
  Demo.id1 <> zeroMdID /\
  fst second = fst first /\
  snd second = OK zeroMdID /\
  snd second <> snd first.
Proof.
  assert (putMD Demo.E0 1%N 1%N (bareMd (Demo.merged 1 0%N)) Demo.empty
          = (Demo.stored, OK Demo.id1)) as H1 by (by vm_compute).
  assert (Demo.id1 <> zeroMdID) as Hne by (by vm_compute).
  assert (putMD Demo.E0 1%N 1%N (bareMd (Demo.merged 1 0%N)) Demo.stored
          = (Demo.stored, OK zeroMdID)) as H2.
  { eapply (putMD_existing _ _ _ _ Demo.id1);
      [done | done | by vm_compute | by vm_compute]. }
  cbv zeta. rewrite H1. cbn [fst snd]. rewrite H2. cbn [fst snd].
  repeat split; done.
Qed.


(** ** [removeFlushedEntry] *)

(** C7: removeFlushedEntry(mdID, rmds) succeeds only when mdID is the MdID
    of the earliest entry and rmds is codec-equal to the stored earliest RMD
    (the metadata that the content file of mdID decodes to); on success the
    earliest ordinal entry is removed, the log is exactly one entry shorter,
    and when the log thereby becomes empty lastMdID is mdID (and otherwise
    lastMdID is as before). *)
Theorem removeFlushedEntry_spec (E : Externals) (uid key mdID' : N)
    (rmds : RootMetadataSigned) (s s' : mdJournal) :
  removeFlushedEntry E uid key mdID' rmds s = (s', OK tt) ->
  exists (rest : list N) (f : File) (stored : BareRootMetadata),
    ids (j s) = mdID' :: rest /\
    mds s !! mdID' = Some f /\
    codec_Decode E (fdata f) = OK stored /\
    CodecEqual E stored (MD rmds) = OK true /\
    ids (j s') = rest /\
    (List.length (ids (j s')) + 1 = List.length (ids (j s)))%nat /\
    (ids (j s') = [] -> lastMdID s' = mdID') /\
    (ids (j s') <> [] -> lastMdID s' = lastMdID s).
Proof.
  unfold removeFlushedEntry. unfold bind at 1.
  destruct (getEarliest E uid key true s) as [s1 [head | e | msg]] eqn:Hhead;
    [| done | done].
  apply getEarliest_OK in Hhead as (-> & Hlog & Hcases).
  destruct (decide (head = zeroIBRMD)) as [| Hnz]; [done |].
  destruct Hcases as [[-> _] | (stored & Hmd & Hne & Hget)]; [done |].
  destruct (mdID' =? mdID head)%N eqn:Hid; [| done].
  apply N.eqb_eq in Hid. subst mdID'. cbn [negb].
  unfold embedded. rewrite Hmd. unfold bind, lift.
  destruct (CodecEqual E stored (MD rmds)) as [[|] | e | msg] eqn:Heq;
    [| done | done | done].
  cbn [negb].
  apply getMD_OK in Hget as (_ & f & Hf & _ & Hdec & _).
  unfold mdIDJournal_getEarliest, logFault in Hlog.
  unfold mdIDJournal_removeEarliest, logFault.
  destruct (fs_fault E (OrdinalLog (jdir (j s)) LogGetEarliest)); [done |].
  destruct (fs_fault E (OrdinalLog (jdir (j s)) LogRemoveEarliest)); [done |].
  destruct (ids (j s)) as [| id0 rest] eqn:Hids.
  { simpl in Hlog. by simplify_eq. }
  simpl in Hlog. simplify_eq.
  intros Hrm. exists rest, f, stored.
  assert (ids (j s') = rest /\
          lastMdID s' = match rest with [] => mdID head | _ => lastMdID s end)
    as [Hrest Hlast].
  { revert Hrm. unfold os_Remove.
    destruct (fs_fault E (Remove (mdID head))); [by destruct rest |].
    destruct rest; simpl; rewrite Hf; by intros [= <-]. }
  repeat split; try done.
  - rewrite Hrest. simpl. lia.
  - rewrite Hrest, Hlast. by intros ->.
  - rewrite Hrest, Hlast. by destruct rest.
Qed.

Lemma removeFlushedEntry_spec_witness :
  exists (rest : list N) (f : File) (stored : BareRootMetadata),
    ids (j Demo.one) = Demo.id1 :: rest /\
    mds Demo.one !! Demo.id1 = Some f /\
    codec_Decode Demo.E0 (fdata f) = OK stored /\
    CodecEqual Demo.E0 stored (bareMd (Demo.merged 1 0%N)) = OK true /\
    ids (j (fst (removeFlushedEntry Demo.E0 1%N 1%N Demo.id1
                   (mkRMDS 9%N (bareMd (Demo.merged 1 0%N))) Demo.one))) = rest /\
    (List.length
       (ids (j (fst (removeFlushedEntry Demo.E0 1%N 1%N Demo.id1
                       (mkRMDS 9%N (bareMd (Demo.merged 1 0%N))) Demo.one)))) + 1
     = List.length (ids (j Demo.one)))%nat /\
    (ids (j (fst (removeFlushedEntry Demo.E0 1%N 1%N Demo.id1
                    (mkRMDS 9%N (bareMd (Demo.merged 1 0%N))) Demo.one))) = [] ->
     lastMdID (fst (removeFlushedEntry Demo.E0 1%N 1%N Demo.id1
                      (mkRMDS 9%N (bareMd (Demo.merged 1 0%N))) Demo.one))
     = Demo.id1) /\
    (ids (j (fst (removeFlushedEntry Demo.E0 1%N 1%N Demo.id1
                    (mkRMDS 9%N (bareMd (Demo.merged 1 0%N))) Demo.one))) <> [] ->
     lastMdID (fst (removeFlushedEntry Demo.E0 1%N 1%N Demo.id1
                      (mkRMDS 9%N (bareMd (Demo.merged 1 0%N))) Demo.one))
     = lastMdID Demo.one).
Proof.
  apply (removeFlushedEntry_spec Demo.E0 1%N 1%N Demo.id1
           (mkRMDS 9%N (bareMd (Demo.merged 1 0%N))) Demo.one).
  by vm_compute.
Defined.

(** ** The ordinal log after [append] and [replaceHead] *)

Lemma latestEntry_snoc (dir : string) (e : Z) (l : list N) (x : N) :
  latestEntry (mkMdIDJournal dir e (l ++ [x]))
  = Some (e + Z.of_nat (List.length l), x).
Proof.
  unfold latestEntry, entries. simpl. rewrite imap_app. simpl.
  rewrite last_snoc. do 3 f_equal. lia.
Qed.

Lemma last_default_nonempty {A} (l : list A) (d d' : A) :
  l <> [] -> List.last l d = List.last l d'.
Proof.
  induction l as [| a [| b l] IH]; [done | done |]. intros _.
  change (List.last (b :: l) d = List.last (b :: l) d'). by apply IH.
Qed.

Lemma mdIDJournal_append_OK (F : FsOp -> option error) (r : Z) (id : N)
    (l l' : mdIDJournal) :
  mdIDJournal_append F r id l = OK l' ->
  latestEntry l' = Some (r, id) /\
  List.length (ids l') = S (List.length (ids l)) /\
  (ids l <> [] -> earliestRevision l' = earliestRevision l) /\
  ids l' = (ids l ++ [id])%list /\
  jdir l' = jdir l.
Proof.
  unfold mdIDJournal_append, logFault.
  destruct (F (OrdinalLog (jdir l) LogAppend)); [done |].
  destruct (ids l) as [| a rest] eqn:Hids.
  - intros [= <-]. simpl. repeat split; try done.
    unfold latestEntry, entries. simpl. do 3 f_equal. lia.
  - destruct (r =? latestRevision l + 1) eqn:Hr; [| done].
    intros [= <-]. apply Z.eqb_eq in Hr. cbn [ids jdir earliestRevision].
    rewrite !(app_comm_cons rest [id] a), latestEntry_snoc. unfold latestRevision in Hr. rewrite Hids in Hr.
    repeat split; try done.
    + do 2 f_equal. lia.
    + rewrite length_app. simpl. lia.
Qed.

Lemma mdIDJournal_replaceHead_OK (F : FsOp -> option error) (id : N)
    (l l' : mdIDJournal) :
  mdIDJournal_replaceHead F id l = OK l' ->
  latestEntry l' = Some (latestRevision l, id) /\
  List.length (ids l') = List.length (ids l).
Proof.
  unfold mdIDJournal_replaceHead, logFault.
  destruct (F (OrdinalLog (jdir l) LogReplaceHead)); [done |].
  remember (removelast (ids l)) as rl eqn:Hrl.
  destruct (ids l) as [| a rest] eqn:Hids; [done |].
  intros [= <-]. rewrite latestEntry_snoc. cbn [ids].
  assert (List.length rl = List.length rest) as Hlen.
  { subst rl. clear. revert a. induction rest as [| b rest IH]; intros a; [done |].
    change (S (List.length (removelast (b :: rest))) = S (List.length rest)).
    by rewrite IH. }
  split.
  - unfold latestRevision. rewrite Hids, Hlen. do 2 f_equal. simpl. lia.
  - rewrite length_app, Hlen. simpl. lia.
Qed.

(** ** [putMD] touches the content store only *)

Lemma keeps_putMD {X} (E : Externals) (f : mdJournal -> X) (uid key : N)
    (rmd : BareRootMetadata) :
  (forall m s, f (set_mds m s) = f s) -> keeps f (putMD E uid key rmd).
Proof.
  intros Hf. unfold putMD.
  apply keeps_bind; [apply keeps_readOnly, readOnly_lift |]. intros _.
  apply keeps_bind; [apply keeps_readOnly, readOnly_lift |]. intros _.
  apply keeps_bind; [apply keeps_readOnly, readOnly_lift |]. intros id s.
  pose proof (readOnly_getMD E uid key id true s) as Hr.
  destruct (getMD E uid key id true s) as [s1 [? | e | msg]];
    simpl in Hr; subst s1; [done | | done].
  destruct (os_IsNotExist e); [| done].
  revert s. change (keeps f (bind (os_MkdirAll E id) (fun _ =>
    bind (lift (codec_Encode E rmd)) (fun buf =>
    bind (ioutil_WriteFile E id buf) (fun _ => ret id))))).
  apply keeps_bind.
  { intros s. unfold os_MkdirAll. by destruct (fs_fault E _). }
  intros _. apply keeps_bind; [apply keeps_readOnly, readOnly_lift |].
  intros buf. apply keeps_bind; [| intros; apply keeps_readOnly, readOnly_ret].
  intros s. unfold ioutil_WriteFile. destruct (fs_fault E _); [done |].
  apply Hf.
Qed.

(** ** What a successful [put] did *)

Section Put.
Variable E : Externals.

(** The common code of [put], when it succeeds: the metadata was encrypted,
    stored by [putMD], and then either replaced the head (same revision) or
    was appended. *)
Lemma putCommon_OK uid key signer ekg bsplit head mStatus rmd s s' id :
  putCommon E uid key signer ekg bsplit head mStatus rmd s = (s', OK id) ->
  exists brmd l,
    encryptMDPrivateData E signer ekg uid rmd = OK brmd /\
    j s' = l /\ lastMdID s' = zeroMdID /\ branchID s' = branchID s /\
    ((exists hmd, ibrmd head = Some hmd /\
        RevisionNumber (bareMd rmd) = RevisionNumber hmd /\
        mdIDJournal_replaceHead (fs_fault E) id (j s) = OK l) \/
     ((head = zeroIBRMD \/
       exists hmd, ibrmd head = Some hmd /\
         RevisionNumber (bareMd rmd) <> RevisionNumber hmd) /\
      mdIDJournal_append (fs_fault E) (RevisionNumber brmd) id (j s) = OK l)).
Proof.
  unfold putCommon. unfold bind at 1, get.
  destruct (negb (eqb _ _)); [done |].
  destruct (isMerged mStatus && _); [done |].
  destruct (negb (BID _ =? _)%N); [done |].
  unfold bind at 1.
  match goal with
  | |- context [match ?m s with _ => _ end] =>
      assert (readOnly m) as Hro
  end.
  { destruct (decide (head <> zeroIBRMD)); [| apply readOnly_ret].
    apply readOnly_embedded. intros md. auto 10 with readonly. }
  match goal with
  | |- context [match ?m s with _ => _ end] =>
      specialize (Hro s); destruct (m s) as [s0 [[] | e | msg]];
      simpl in Hro; subst s0; [| done | done]
  end.
  destruct (_ && negb (bsplit _)); [done |].
  unfold bind at 1, lift.
  destruct (encryptMDPrivateData E signer ekg uid rmd) as [brmd | e | msg];
    [| done | done].
  unfold bind at 1.
  pose proof (keeps_putMD E (fun s => j s) uid key brmd (fun _ _ => eq_refl) s) as Hj.
  pose proof (keeps_putMD E branchID uid key brmd (fun _ _ => eq_refl) s) as Hb.
  destruct (putMD E uid key brmd s) as [s1 [id1 | e | msg]]; [| done | done].
  simpl in Hj, Hb.
  assert (forall f,
            bind (jwrite f) (fun _ =>
              bind (modify (set_lastMdID zeroMdID)) (fun _ => ret id1)) s1
            = (s', OK id) ->
            exists l, f (j s) = OK l /\
                      s' = set_lastMdID zeroMdID (set_j l s1) /\ id1 = id) as Hw.
  { intros f. unfold bind, jwrite, modify, ret. rewrite Hj.
    destruct (f (j s)); [| done | done]. intros [= <- <-]. by eexists. }
  destruct (decide (head <> zeroIBRMD)) as [Hnz | Hz].
  - unfold embedded. unfold bind at 1.
    destruct (ibrmd head) as [hmd |] eqn:Hmd; [| done].
    destruct (RevisionNumber (bareMd rmd) =? RevisionNumber hmd) eqn:Hrev.
    + intros H. apply Hw in H as (l & Hl & -> & ->).
      exists brmd, l. repeat split; try done. left. exists hmd.
      by apply Z.eqb_eq in Hrev.
    + intros H. apply Hw in H as (l & Hl & -> & ->).
      exists brmd, l. repeat split; try done. right.
      split; [| done]. right. exists hmd. by apply Z.eqb_neq in Hrev.
  - intros H. apply Hw in H as (l & Hl & -> & ->).
    exists brmd, l. repeat split; try done. right. split; [| done]. left.
    by destruct (decide (head = zeroIBRMD)).
Qed.

(** The modifications for the unmerged cases touch neither the log nor
    lastMdID nor the revision of the RMD. *)
Lemma putUnmerged_frame head rmd s s2 rmd' reverting r :
  putUnmerged head rmd s = (s2, rmd', reverting, r) ->
  j s2 = j s /\ lastMdID s2 = lastMdID s /\
  RevisionNumber (bareMd rmd') = RevisionNumber (bareMd rmd).
Proof.
  unfold putUnmerged. repeat case_match; by intros [= <- <- <- <-].
Qed.

(** What a successful [put] ran: the head was read, and the common code
    succeeded on the RMD as modified for the unmerged cases, from a journal
    with the same log. *)
Lemma put_OK uid key signer ekg bsplit rmd s s' rmd' id :
  put E uid key signer ekg bsplit rmd s = (s', rmd', OK id) ->
  exists head s2,
    getLatest E uid key true s = (s, OK head) /\
    j s2 = j s /\
    RevisionNumber (bareMd rmd') = RevisionNumber (bareMd rmd) /\
    putCommon E uid key signer ekg bsplit head (MergedStatus (bareMd rmd))
      rmd' s2 = (s', OK id).
Proof.
  unfold put.
  destruct (getLatest E uid key true s) as [s1 [head | e | msg]] eqn:Hhead;
    [| done | done].
  pose proof Hhead as Hhead'. apply getLatest_OK in Hhead' as [-> _].
  intros H. exists head.
  destruct (MergedStatus (bareMd rmd)) eqn:Hm.
  - exists s. destruct (putCommon _ _ _ _ _ _ _ _ _ _) as [s3 r3] eqn:Hc.
    simpl in H. by simplify_eq.
  - destruct (putUnmerged head rmd s) as [[[s2 rmd2] reverting] r] eqn:Hu.
    apply putUnmerged_frame in Hu as (Hj & _ & Hrev).
    destruct r as [[] | e | msg]; [| done | done].
    destruct (putCommon _ _ _ _ _ _ _ _ _ _) as [s3 r3] eqn:Hc.
    exists s2. injection H as <- <- ->. simpl.
    by rewrite andb_false_r.
Qed.
End Put.

(** ** [put] appends or replaces the head *)

Lemma Demo_encryptKeepsRevision fault reader bid :
  encryptKeepsRevision (Demo.externals fault reader bid).
Proof. intros signer ekg uid rmd brmd [= <-]. done. Qed.

(** C1: for an RMD that put accepts without error, returning id: if the
    journal was empty, or its head existed and the revision of the RMD was
    greater than the head's, then afterwards the latest log entry is
    (rmd.revision, id) and the log is exactly one entry longer; if the
    revision of the RMD equalled the head's, then afterwards the MdID of the
    latest entry is id and the length of the log is unchanged.  (The
    encryptor is taken to keep the revision.) *)
Theorem put_appends_or_replaces (E : Externals) (uid key : N)
    (signer : list Byte.byte -> result N) (ekg : N)
    (bsplit : BlockChanges -> bool) (rmd rmd' : RootMetadata)
    (s s' : mdJournal) (id : N) :
  encryptKeepsRevision E ->
  put E uid key signer ekg bsplit rmd s = (s', rmd', OK id) ->
  exists head,
    snd (getLatest E uid key true s) = OK head /\
    ((ids (j s) = [] \/
      exists hmd, ibrmd head = Some hmd /\
                  RevisionNumber hmd < RevisionNumber (bareMd rmd)) ->
     latestEntry (j s') = Some (RevisionNumber (bareMd rmd), id) /\
     List.length (ids (j s')) = S (List.length (ids (j s)))) /\
    (forall hmd,
       ibrmd head = Some hmd ->
       RevisionNumber (bareMd rmd) = RevisionNumber hmd ->
       snd <$> latestEntry (j s') = Some id /\
       List.length (ids (j s')) = List.length (ids (j s))).
Proof.
  intros Henc Hput.
  apply put_OK in Hput as (head & s2 & Hhead & Hj & Hrev & Hc).
  apply putCommon_OK in Hc as (brmd & l & Hbrmd & Hl & _ & _ & Hcases).
  apply Henc in Hbrmd. rewrite Hrev in Hbrmd.
  rewrite Hj, Hrev in Hcases. rewrite Hl. clear Hl.
  exists head. split; [by rewrite Hhead |]. split.
  - intros Happ.
    destruct Hcases as [(hmd & Hmd & Heq & Hrep) | [_ Hap]].
    + exfalso. destruct Happ as [Hnil | (hmd' & Hmd' & Hlt)].
      * revert Hrep. unfold mdIDJournal_replaceHead, logFault. rewrite Hnil.
        by destruct (fs_fault E _).
      * rewrite Hmd in Hmd'. simplify_eq. lia.
    + rewrite Hbrmd in Hap.
      by apply mdIDJournal_append_OK in Hap as (? & ? & _).
  - intros hmd Hmd Heq.
    destruct Hcases as [(hmd' & Hmd' & _ & Hrep) | [[-> | (hmd' & Hmd' & Hne)] _]].
    + apply mdIDJournal_replaceHead_OK in Hrep as [-> ->]. done.
    + done.
    + rewrite Hmd in Hmd'. by simplify_eq.
Qed.

Lemma put_appends_or_replaces_witness :
  latestEntry (j Demo.two) = Some (2, Demo.id2) /\
  List.length (ids (j Demo.two)) = S (List.length (ids (j Demo.one))).
Proof.
  assert (put Demo.E0 1%N 1%N Demo.signer 0%N Demo.bsplit
            (Demo.merged 2 Demo.id1) Demo.one
          = (Demo.two, Demo.merged 2 Demo.id1, OK Demo.id2)) as Hput
    by (by vm_compute).
  destruct (put_appends_or_replaces Demo.E0 1%N 1%N Demo.signer 0%N Demo.bsplit
              (Demo.merged 2 Demo.id1) (Demo.merged 2 Demo.id1) Demo.one
              Demo.two Demo.id2 (Demo_encryptKeepsRevision _ _ _) Hput)
    as (head & Hhead & Happend & _).
  apply Happend. right.
  vm_compute in Hhead. injection Hhead as <-.
  eexists. split; [reflexivity |]. simpl. lia.
Defined.

(** ** The case Unmerged-1 of [put] *)

(** C4: for a put of an unmerged RMD whose branch ID is NULL_BID on a
    journal whose branchID is not (case Unmerged-1, reached once the head is
    read), put sets the branch ID of the RMD to the journal's branchID and
    its prevRoot to the MdID of the head when there is one and to lastMdID
    when there is none, that is, on a journal that keeps lastMdID zero
    while its log is non-empty, to the MdID of the latest entry of the log
    when the log is non-empty and to lastMdID when it is empty; and then
    runs the common code, which appends or replaces, on the RMD so
    modified. *)
Theorem put_unmerged1_sets_branch_and_prevRoot (E : Externals) (uid key : N)
    (signer : list Byte.byte -> result N) (ekg : N)
    (bsplit : BlockChanges -> bool) (rmd rmd' : RootMetadata)
    (s s' : mdJournal) (head : ImmutableBareRootMetadata) (r : result N) :
  MergedStatus (bareMd rmd) = Unmerged ->
  BID (bareMd rmd) = NullBranchID ->
  branchID s <> NullBranchID ->
  snd (getLatest E uid key true s) = OK head ->
  put E uid key signer ekg bsplit rmd s = (s', rmd', r) ->
  BID (bareMd rmd') = branchID s /\
  GetPrevRoot (bareMd rmd')
  = (if decide (head = zeroIBRMD) then lastMdID s else mdID head) /\
  ((lastMdID s <> zeroMdID -> ids (j s) = []) ->
   GetPrevRoot (bareMd rmd') = List.last (ids (j s)) (lastMdID s)) /\
  putCommon E uid key signer ekg bsplit head Unmerged rmd' s = (s', r).
Proof.
  intros Hm Hbid Hb Hhead.
  apply readOnly_run in Hhead; [| apply readOnly_getLatest].
  unfold put. rewrite Hhead, Hm. unfold putUnmerged.
  rewrite Hbid. apply N.eqb_neq in Hb. rewrite Hb.
  rewrite N.eqb_refl, !andb_false_r. cbv beta iota.
  set (rmd1 := rmd_SetPrevRoot _ _).
  destruct (putCommon E uid key signer ekg bsplit head Unmerged rmd1 s)
    as [s3 r3] eqn:Hc.
  cbn [andb]. intros [= <- <- <-].
  split; [done |]. split; [done |]. split; [| done]. subst rmd1.
  intros Hinv.
  apply getLatest_OK in Hhead as (_ & Hlog & Hcases).
  unfold mdIDJournal_getLatest, logFault in Hlog.
  destruct (fs_fault E _); [done |]. injection Hlog as Hlog.
  cbn [rmd_SetPrevRoot rmd_SetBranchID SetPrevRoot bareMd GetPrevRoot].
  destruct Hcases as [[-> Hz] | (md & Hmd & Hne & _)].
  - destruct (decide (zeroIBRMD = zeroIBRMD)); [| done].
    destruct (decide (lastMdID s = zeroMdID)) as [Hl | Hl].
    + rewrite Hl. by rewrite Hz.
    + by rewrite (Hinv Hl).
  - destruct (decide (head = zeroIBRMD)) as [-> | _]; [done |].
    rewrite <- Hlog. apply last_default_nonempty.
    intros Hnil. rewrite Hnil in Hlog. simpl in Hlog. congruence.
Qed.

Lemma put_unmerged1_sets_branch_and_prevRoot_witness :
  BID (bareMd (snd (fst (put Demo.E0 1%N 1%N Demo.signer 0%N Demo.bsplit
                           (Demo.unmerged 3 NullBranchID 0%N) Demo.branched))))
  = branchID Demo.branched /\
  GetPrevRoot
    (bareMd (snd (fst (put Demo.E0 1%N 1%N Demo.signer 0%N Demo.bsplit
                         (Demo.unmerged 3 NullBranchID 0%N) Demo.branched))))
  = List.last (ids (j Demo.branched)) (lastMdID Demo.branched).
Proof.
  destruct (put Demo.E0 1%N 1%N Demo.signer 0%N Demo.bsplit
              (Demo.unmerged 3 NullBranchID 0%N) Demo.branched)
    as [[s' rmd'] r] eqn:Hput.
  cbn [fst snd].
  pose proof (fun head =>
                put_unmerged1_sets_branch_and_prevRoot Demo.E0 1%N 1%N
                  Demo.signer 0%N Demo.bsplit
                  (Demo.unmerged 3 NullBranchID 0%N) rmd' Demo.branched s'
                  head r) as H.
  edestruct H as (H1 & _ & H2 & _);
    [reflexivity | reflexivity | by vm_compute | by vm_compute | exact Hput |].
  split; [done |]. apply H2. intros Hl. destruct Hl. vm_compute. reflexivity.
Defined.

(** ** Branch conversion *)

Section Convert.
Variable E : Externals.
Hypothesis Hinj : mdIDInjective E.
Hypothesis Hcodec : codecRoundTrip E.

Lemma getMD_stored uid key id verify s s' md ts :
  getMD E uid key id verify s = (s', OK (md, ts)) ->
  storedMD E (mds s) id md /\ (verify = true -> BID md = branchID s).
Proof.
  intros H. apply getMD_OK in H as (_ & f & Hf & _ & Hd & Hid & Hb).
  split; [by exists f | done].
Qed.

(** Writing the encoding of [md] under its MdID keeps what is stored, and
    adds [md]. *)
Lemma storedMD_insert m id md buf t id' md' :
  crypto_MakeMdID E md = OK id ->
  codec_Encode E md = OK buf ->
  storedMD E m id' md' ->
  storedMD E (<[id := mkFile buf t]> m) id' md'.
Proof.
  intros Hid Hbuf (f & Hf & Hd & Hid').
  destruct (decide (id = id')) as [<- | Hne].
  - rewrite (Hinj md' md id Hid' Hid).
    exists (mkFile buf t). rewrite lookup_insert_eq. split; [done |].
    split; [by apply Hcodec | done].
  - exists f. by rewrite lookup_insert_ne.
Qed.

Lemma storedMD_insert_new m id md buf t :
  crypto_MakeMdID E md = OK id ->
  codec_Encode E md = OK buf ->
  storedMD E (<[id := mkFile buf t]> m) id md.
Proof.
  intros Hid Hbuf. exists (mkFile buf t). rewrite lookup_insert_eq.
  split; [done |]. split; [by apply Hcodec | done].
Qed.

(** What was stored after the write was stored before it, unless it is the
    metadata written. *)
Lemma storedMD_insert_inv m id md buf t id' md' :
  crypto_MakeMdID E md = OK id ->
  codec_Encode E md = OK buf ->
  storedMD E (<[id := mkFile buf t]> m) id' md' ->
  md' = md \/ storedMD E m id' md'.
Proof.
  intros Hid Hbuf (f & Hf & Hd & Hid').
  destruct (decide (id = id')) as [<- | Hne].
  - left. by apply (Hinj md' md id).
  - right. exists f. by rewrite lookup_insert_ne in Hf.
Qed.

(** [putMD], when it succeeds, either found the entry (and answers the zero
    MdID) or wrote the encoding of the metadata under its MdID. *)
Lemma putMD_OK uid key rmd s s1 id :
  putMD E uid key rmd s = (s1, OK id) ->
  (id = zeroMdID /\ s1 = s /\
   exists id' found, crypto_MakeMdID E rmd = OK id' /\
     getMD E uid key id' true s = (s, OK found)) \/
  (crypto_MakeMdID E rmd = OK id /\
   exists buf, codec_Encode E rmd = OK buf /\
     s1 = set_mds (<[id := mkFile buf (fs_now E)]> (mds s)) s).
Proof.
  unfold putMD, bind at 1 2 3, lift.
  destruct (IsValidAndSigned E rmd); [| done | done].
  destruct (IsLastModifiedBy E uid key rmd); [| done | done].
  destruct (crypto_MakeMdID E rmd) as [id' | |]; [| done | done].
  pose proof (readOnly_getMD E uid key id' true s) as Hr.
  destruct (getMD E uid key id' true s) as [s0 [found | e | msg]] eqn:Hg;
    simpl in Hr; subst s0; [| | done].
  - intros [= <- <-]. left. repeat split; try done. by exists id', found.
  - destruct (os_IsNotExist e); [| done].
    unfold bind, os_MkdirAll, lift, ioutil_WriteFile, ret.
    destruct (fs_fault E (MkdirAll id')); [done |].
    destruct (codec_Encode E rmd) as [buf | |]; [| done | done].
    destruct (fs_fault E (WriteFile id')); [done |].
    intros [= <- <-]. right. split; [done |]. by exists buf.
Qed.
(** One iteration of the loop of [convertToBranch], up to [putMD]: the old
    metadata is stored under [id] on the trunk; the new metadata is the old
    one, unmerged, on the branch [bid], re-signed and chained to [prevID];
    its encoding is written under its MdID. *)
Lemma convertEntry_OK uid key signer tlfID bid i prevID id s s1 brmd newID :
  branchID s = NullBranchID ->
  bid <> NullBranchID ->
  convertEntry E uid key signer tlfID bid i prevID id s = (s1, OK (brmd, newID)) ->
  exists old buf,
    storedMD E (mds s) id old /\ BID old = NullBranchID /\
    RevisionNumber brmd = RevisionNumber old /\
    BID brmd = bid /\ MergedStatus brmd = Unmerged /\
    ((0 < i)%nat -> GetPrevRoot brmd = prevID) /\
    crypto_MakeMdID E brmd = OK newID /\
    codec_Encode E brmd = OK buf /\
    mds s1 = <[newID := mkFile buf (fs_now E)]> (mds s) /\
    j s1 = j s /\ branchID s1 = branchID s /\ lastMdID s1 = lastMdID s.
Proof.
  intros Hnull Hbid. unfold convertEntry. unfold bind at 1.
  destruct (getMD E uid key id true s) as [s0 [[old ts] | e | msg]] eqn:Hg;
    [| done | done].
  pose proof Hg as Hg'. apply getMD_OK in Hg' as [-> _].
  apply getMD_stored in Hg as [Hold Hb]. specialize (Hb eq_refl).
  rewrite Hnull in Hb.
  destruct (isMutableBareRootMetadata E); [| done]. cbn [negb].
  unfold bind at 1, mdcache_Delete, modify.
  unfold bind at 1, lift.
  destruct (GetSerializedWriterMetadata E _) as [wbuf | |]; [| done | done].
  unfold bind at 1.
  destruct (signer wbuf) as [sigInfo | |]; [| done | done].
  set (s2 := set_mdcache _ s).
  set (new := if (0 <? i)%nat then _ else _).
  assert (BID new = bid /\ MergedStatus new = Unmerged /\
          RevisionNumber new = RevisionNumber old /\
          ((0 < i)%nat -> GetPrevRoot new = prevID)) as (Hnb & Hnm & Hnr & Hnp).
  { subst new. destruct (0 <? i)%nat eqn:Hi; repeat split; try done.
    apply Nat.ltb_ge in Hi. lia. }
  unfold bind, ret.
  destruct (putMD E uid key new s2) as [s3 [id3 | |]] eqn:Hput; [| done | done].
  intros [= <- <- <-].
  apply putMD_OK in Hput as [(_ & _ & id' & [found ts'] & Hid' & Hfound)
                            | (Hid & buf & Hbuf & ->)].
  - exfalso. apply getMD_stored in Hfound as [(f & _ & _ & Hfid) Hfb].
    specialize (Hfb eq_refl). change (branchID s2) with (branchID s) in Hfb.
    rewrite (Hinj found new id' Hfid Hid') in Hfb. congruence.
  - exists old, buf. repeat split; done.
Qed.
Lemma mdIDJournal_append_rev (F : FsOp -> option error) (r : Z) (id : N)
    (l l' : mdIDJournal) :
  mdIDJournal_append F r id l = OK l' ->
  r = earliestRevision l' + Z.of_nat (List.length (ids l)).
Proof.
  unfold mdIDJournal_append, logFault.
  destruct (F (OrdinalLog (jdir l) LogAppend)); [done |].
  destruct (ids l) as [| a rest] eqn:Hids.
  - intros [= <-]. simpl. lia.
  - destruct (r =? latestRevision l + 1) eqn:Hr; [| done].
    intros [= <-]. apply Z.eqb_eq in Hr. unfold latestRevision in Hr.
    rewrite Hids in Hr. simpl in *. lia.
Qed.

Lemma convertLoop_OK uid key signer tlfID bid :
  bid <> NullBranchID ->
  forall allMdIDs i tmp prevID toRemove s s1 tmp' toRemove',
    branchID s = NullBranchID ->
    convertLoop E uid key signer tlfID bid allMdIDs i tmp prevID toRemove s
    = (s1, (tmp', toRemove'), OK tt) ->
    exists news : list (BareRootMetadata * N),
      List.length news = List.length allMdIDs /\
      ids tmp' = (ids tmp ++ (snd <$> news))%list /\
      jdir tmp' = jdir tmp /\
      (ids tmp <> [] \/ allMdIDs = [] ->
       earliestRevision tmp' = earliestRevision tmp) /\
      (forall k b n, news !! k = Some (b, n) ->
         converted E bid (mds s) (mds s1) allMdIDs news
           (earliestRevision tmp' + Z.of_nat (List.length (ids tmp))) i prevID
           k b n) /\
      (forall id md, storedMD E (mds s) id md -> storedMD E (mds s1) id md) /\
      (forall id md, storedMD E (mds s1) id md -> BID md = NullBranchID ->
                     storedMD E (mds s) id md) /\
      j s1 = j s /\ branchID s1 = branchID s /\ lastMdID s1 = lastMdID s.
Proof.
  intros Hbid allMdIDs.
  induction allMdIDs as [| id rest IH];
    intros i tmp prevID toRemove s s1 tmp' toRemove' Hnull Hloop.
  - simpl in Hloop. injection Hloop as <- <- <-.
    exists []. rewrite app_nil_r. repeat split; try done.
  - simpl in Hloop.
    destruct (convertEntry E uid key signer tlfID bid i prevID id s)
      as [s2 [[brmd newID] | e | msg]] eqn:Hentry; [| done | done].
    apply convertEntry_OK in Hentry
      as (old & buf & Hold & Hob & Hrev & Hnb & Hnm & Hprev & Hid & Hbuf
          & Hmds & Hj & Hb & Hl); [| done | done].
    destruct (mdIDJournal_append (fs_fault E) (RevisionNumber brmd) newID tmp)
      as [tmp1 | e | msg] eqn:Happ; [| done | done].
    pose proof (mdIDJournal_append_rev _ _ _ _ _ Happ) as Hr.
    apply mdIDJournal_append_OK in Happ as (_ & Hlen1 & He1 & Hids1 & Hdir1).
    apply IH in Hloop
      as (news & Hlen & Hids & Hdir & He & Hnews & Hfwd & Hbwd & Hj' & Hb' & Hl');
      [| congruence].
    assert (earliestRevision tmp' = earliestRevision tmp1) as Heq.
    { apply He. left. rewrite Hids1. by destruct (ids tmp). }
    exists ((brmd, newID) :: news). split; [simpl; by rewrite Hlen |].
    split; [rewrite Hids, Hids1, <- app_assoc; done |].
    split; [congruence |].
    split; [intros [Hne | ?]; [rewrite Heq; by apply He1 | done] |].
    split; [| split; [| split; [| repeat split; congruence]]].
    + intros [| k] b n Hk.
      * simpl in Hk. injection Hk as <- <-.
        repeat split; try done.
        -- apply Hfwd. rewrite Hmds. by apply storedMD_insert_new.
        -- rewrite Heq. lia.
        -- by exists id, old.
      * simpl in Hk. apply Hnews in Hk
          as (Hkid & Hkb & Hkm & Hks & Hkr & (o & oldk & Ho & Hso & Hbo & Hro) & Hchain).
        repeat split; try done.
        -- rewrite Hkr, Hlen1. lia.
        -- exists o, oldk. repeat split; try done.
           rewrite Hmds in Hso.
           apply (storedMD_insert_inv _ newID brmd buf) in Hso as [-> | Hso];
             [congruence | done | done | done].
        -- destruct k as [| k'].
           ++ exists brmd, newID. split; [done |]. apply Hchain. lia.
           ++ destruct Hchain as (b' & n' & Hb'n' & Hp). by exists b', n'.
    + intros id' md Hs. apply Hfwd. rewrite Hmds.
      by apply (storedMD_insert _ newID brmd buf).
    + intros id' md Hs Hmb. apply Hbwd in Hs; [| done]. rewrite Hmds in Hs.
      apply (storedMD_insert_inv _ newID brmd buf) in Hs as [-> | Hs];
        [congruence | done | done | done].
Qed.
Lemma storedMD_unique m id md md' :
  storedMD E m id md -> storedMD E m id md' -> md = md'.
Proof. intros (f & Hf & Hd & _) (f' & Hf' & Hd' & _). congruence. Qed.

(** The deferred block removes the listed MDs and nothing else. *)
Lemma removeMDs_frame (l : list N) (s : mdJournal) :
  j (removeMDs E l s) = j s /\
  branchID (removeMDs E l s) = branchID s /\
  lastMdID (removeMDs E l s) = lastMdID s /\
  (forall id, id ∉ l -> mds (removeMDs E l s) !! id = mds s !! id).
Proof.
  unfold removeMDs. revert s.
  induction l as [| a l IH]; intros s; simpl; [done |].
  destruct (IH (os_Remove E a s).1) as (Hj & Hb & Hl & Hm).
  rewrite Hj, Hb, Hl.
  assert (j (os_Remove E a s).1 = j s /\
          branchID (os_Remove E a s).1 = branchID s /\
          lastMdID (os_Remove E a s).1 = lastMdID s /\
          (forall id, id <> a -> mds (os_Remove E a s).1 !! id = mds s !! id))
    as (Hj1 & Hb1 & Hl1 & Hm1).
  { unfold os_Remove. destruct (fs_fault E (Remove a)); [done |].
    destruct (mds s !! a); [| done]. simpl. repeat split.
    intros id Hne. by rewrite lookup_delete_ne. }
  repeat split; try done.
  intros id Hid. apply not_elem_of_cons in Hid as [Hne Hid].
  rewrite Hm by done. by apply Hm1.
Qed.

(** On a non-empty log, the range from the earliest to the latest revision
    is the whole log. *)
Lemma mdIDJournal_getRange_all (F : FsOp -> option error) (l : mdIDJournal)
    (e la : Z) (r : Z * list N) :
  mdIDJournal_readEarliestRevision F l = OK e ->
  mdIDJournal_readLatestRevision F l = OK la ->
  mdIDJournal_getRange F e la l = OK r ->
  r.2 = ids l.
Proof.
  unfold mdIDJournal_readEarliestRevision, mdIDJournal_readLatestRevision,
    mdIDJournal_getRange, logFault.
  repeat (destruct (F _); [done |]).
  destruct (ids l) as [| a rest] eqn:Hids.
  { by intros _ _ [= <-]. }
  intros [= <-] [= <-] [= <-]. simpl.
  rewrite Z.max_id, Z.min_id. unfold latestRevision. rewrite Hids.
  replace (Z.to_nat (earliestRevision l - earliestRevision l)) with 0%nat by lia.
  rewrite drop_0. apply take_ge. simpl. lia.
Qed.
(** What a successful [convertToBranch] ran: the loop over the whole log,
    into an empty temporary log, with the random branch ID; its journal is
    the temporary log on that branch, and of the content store only the old
    MDs were removed after the loop. *)
Lemma convertToBranch_OK uid key signer tlfID s s' bid :
  convertToBranch E uid key signer tlfID s = (s', OK bid) ->
  branchID s = NullBranchID /\
  crypto_MakeRandomBranchID E = OK bid /\
  exists dir s1 tmp' toRemove',
    convertLoop E uid key signer tlfID bid (ids (j s)) 0
      (makeMdIDJournal dir) zeroMdID [] s
    = (s1, (tmp', toRemove'), OK tt) /\
    ids (j s') = ids tmp' /\
    earliestRevision (j s') = earliestRevision tmp' /\
    branchID s' = bid /\
    lastMdID s' = lastMdID s1 /\
    (forall id, id ∉ ids (j s) -> mds s' !! id = mds s1 !! id).
Proof.
  unfold convertToBranch. unfold bind at 1, get.
  destruct (branchID s =? NullBranchID)%N eqn:Hb; [| done].
  apply N.eqb_eq in Hb. cbn [negb].
  unfold bind at 1, jread.
  destruct (mdIDJournal_readEarliestRevision (fs_fault E) (j s))
    as [e | |] eqn:He; [| done | done].
  unfold bind at 1.
  destruct (mdIDJournal_readLatestRevision (fs_fault E) (j s))
    as [la | |] eqn:Hla; [| done | done].
  unfold bind at 1.
  destruct (mdIDJournal_getRange (fs_fault E) e la (j s))
    as [[realStart allMdIDs] | |] eqn:Hr; [| done | done].
  apply (mdIDJournal_getRange_all _ _ _ _ _ He Hla) in Hr. simpl in Hr.
  subst allMdIDs.
  unfold bind at 1, lift.
  destruct (crypto_MakeRandomBranchID E) as [bid' | |]; [| done | done].
  unfold bind, ioutil_TempDir.
  destruct (fs_fault E TempDir); [done |].
  unfold convertRewrite.
  destruct (convertLoop E uid key signer tlfID bid' (ids (j s)) 0
              (makeMdIDJournal (fs_tempName E)) zeroMdID [] s)
    as [[s1 [tmp' toRemove']] [[] | |]] eqn:Hloop; [| done | done].
  unfold mdIDJournal_move, logFault.
  destruct (fs_fault E (OrdinalLog (jdir (j s1)) LogMove)); [done |].
  destruct (fs_fault E (OrdinalLog (jdir tmp') LogMove)); [done |].
  intros [= <- <-]. split; [done |]. split; [done |].
  exists (fs_tempName E), s1, tmp', toRemove'.
  match goal with
  | |- context [removeMDs E ?l ?s0] =>
      destruct (removeMDs_frame l s0) as (Hj & Hbr & Hl & Hm)
  end.
  rewrite Hj, Hbr, Hl. repeat split; try done.
Qed.
End Convert.

(** C5: on a non-empty journal with branchID == NULL_BID on which
    convertToBranch succeeds returning newBID: afterwards the journal's
    branchID is newBID, which is not NULL_BID; every entry of the log has,
    stored under its MdID, metadata with branch ID newBID, mergedStatus
    UNMERGED and the revision of the entry; for consecutive entries the
    prevRoot of the later one is the new MdID of the earlier one; the
    revisions of the log are the same, entry by entry; and the MdID of every
    entry has changed.  (The collaborators are taken to keep their
    contracts, and the journal to satisfy invariant 2 on the revisions.) *)
Theorem convertToBranch_spec (E : Externals) (uid key : N)
    (signer : list Byte.byte -> result N) (tlfID : N) (s s' : mdJournal)
    (newBID : N) :
  randomBranchIDNonNull E ->
  mdIDInjective E ->
  codecRoundTrip E ->
  storedRevisionsMatch E s ->
  ids (j s) <> [] ->
  branchID s = NullBranchID ->
  convertToBranch E uid key signer tlfID s = (s', OK newBID) ->
  branchID s' = newBID /\
  newBID <> NullBranchID /\
  (forall (i : nat) (id : N),
     ids (j s') !! i = Some id ->
     exists md, storedMD E (mds s') id md /\
       BID md = newBID /\ MergedStatus md = Unmerged /\
       RevisionNumber md = earliestRevision (j s') + Z.of_nat i) /\
  (forall (i : nat) (id1 id2 : N) (md : BareRootMetadata),
     ids (j s') !! i = Some id1 ->
     ids (j s') !! S i = Some id2 ->
     storedMD E (mds s') id2 md ->
     GetPrevRoot md = id1) /\
  fst <$> entries (j s') = fst <$> entries (j s) /\
  (forall (i : nat) (old new : N),
     ids (j s) !! i = Some old ->
     ids (j s') !! i = Some new ->
     new <> old).
Proof.
  intros Hrand Hinj Hcodec Hwf Hne Hnull Hconv.
  apply convertToBranch_OK in Hconv
    as (_ & Hbidrand & dir & s1 & tmp' & tr & Hloop & Hids & Hearl & Hb & _ & Hm).
  pose proof (Hrand _ Hbidrand) as Hbid.
  apply convertLoop_OK in Hloop
    as (news & Hlen & Hids' & _ & _ & Hnews & Hfwd & Hbwd & _); try done.
  simpl in Hids', Hnews. rewrite Z.add_0_r in Hnews.
  rewrite <- Hids in Hids'. rewrite <- Hearl in Hnews. clear Hids Hearl.
  assert (forall k n, ids (j s') !! k = Some n ->
            exists b, news !! k = Some (b, n) /\
              converted E newBID (mds s) (mds s1) (ids (j s)) news
                (earliestRevision (j s')) 0 zeroMdID k b n /\
              storedMD E (mds s') n b /\ n ∉ ids (j s)) as Hkey.
  { intros k n Hk. rewrite Hids', list_lookup_fmap in Hk.
    destruct (news !! k) as [[b n'] |] eqn:Hnk; [| done].
    simpl in Hk. injection Hk as ->.
    pose proof (Hnews k b n Hnk) as Hc. exists b. split; [done |].
    split; [done |].
    destruct Hc as (Hid & Hbb & _ & Hst & _).
    assert (n ∉ ids (j s)) as Hnotin.
    { intros Hin. apply list_elem_of_lookup in Hin as [k' Hk'].
      assert (is_Some (news !! k')) as [[b' n''] Hnk'].
      { apply lookup_lt_is_Some. rewrite Hlen. by eapply lookup_lt_Some. }
      destruct (Hnews k' b' n'' Hnk')
        as (_ & _ & _ & _ & _ & (o & old & Ho & (fo & _ & _ & Hoid) & Hob & _) & _).
      rewrite Hk' in Ho. injection Ho as <-.
      pose proof (Hinj old b n Hoid Hid). congruence. }
    split; [| done].
    destruct Hst as (f & Hf & Hd & Hi). exists f. by rewrite Hm. }
  assert (earliestRevision (j s') = earliestRevision (j s)) as Hearl.
  { destruct (ids (j s)) as [| o0 rest] eqn:Hold; [done |].
    destruct news as [| [b0 n0] news']; [done |].
    destruct (Hnews 0%nat b0 n0 eq_refl)
      as (_ & _ & _ & _ & Hr0 & (o & old & Ho & Hso & _ & Hro) & _).
    rewrite Z.add_0_r in Hr0. rewrite <- Hr0, Hro.
    rewrite (Hwf 0%nat o old); [lia | by rewrite Hold | done]. }
  assert (List.length (ids (j s')) = List.length (ids (j s))) as Hlens.
  { by rewrite Hids', length_fmap. }
  split; [done |]. split; [done |]. split; [| split; [| split]].
  - intros i id Hi. destruct (Hkey i id Hi) as (b & _ & Hc & Hst & _).
    destruct Hc as (_ & Hbb & Hbm & _ & Hr & _). by exists b.
  - intros i id1 id2 md H1 H2 Hst.
    destruct (Hkey (S i) id2 H2) as (b & _ & Hc & Hst' & _).
    rewrite (storedMD_unique E _ _ _ _ Hst Hst').
    destruct Hc as (_ & _ & _ & _ & _ & _ & (b' & n' & Hn' & ->)).
    destruct (Hkey i id1 H1) as (b1 & Hn1 & _). congruence.
  - apply list_eq. intros i. unfold entries.
    rewrite !list_lookup_fmap, !list_lookup_imap, Hearl.
    destruct (ids (j s') !! i) as [n |] eqn:H1;
      destruct (ids (j s) !! i) as [o |] eqn:H2; try done.
    + apply lookup_lt_Some in H1. apply lookup_ge_None in H2. lia.
    + apply lookup_lt_Some in H2. apply lookup_ge_None in H1. lia.
  - intros i old new Ho Hn ->. destruct (Hkey i old Hn) as (_ & _ & _ & _ & Hnotin).
    apply Hnotin. by eapply list_elem_of_lookup_2.
Qed.

(** *** The collaborators of [Demo] keep their contracts *)

Lemma bytes_to_pos_to_bytes (p : positive) : bytes_to_pos (pos_to_bytes p) = p.
Proof. induction p as [p IH | p IH |]; simpl; by rewrite ?IH. Qed.

Lemma Demo_codecRoundTrip fault reader bid :
  codecRoundTrip (Demo.externals fault reader bid).
Proof.
  intros md buf [= <-]. simpl. unfold Demo.Decode.
  by rewrite bytes_to_pos_to_bytes, decode_encode.
Qed.

Lemma Demo_mdIDInjective fault reader bid :
  mdIDInjective (Demo.externals fault reader bid).
Proof.
  intros md1 md2 id [= <-] [= Heq]. apply (inj encode). congruence.
Qed.

Lemma Demo_randomBranchIDNonNull fault reader :
  randomBranchIDNonNull (Demo.externals fault reader 7%N).
Proof. by intros bid [= <-]. Qed.

Lemma Demo_two_storedRevisionsMatch : storedRevisionsMatch Demo.E0 Demo.two.
Proof.
  intros i id md Hi (f & Hf & Hd & _).
  assert (ids (j Demo.two) = [Demo.id1; Demo.id2]) as Hids by (by vm_compute).
  rewrite Hids in Hi.
  destruct i as [| [| i]]; simpl in Hi; [| | done]; injection Hi as <-.
  - vm_compute in Hf. injection Hf as <-. vm_compute in Hd.
    by injection Hd as <-.
  - vm_compute in Hf. injection Hf as <-. vm_compute in Hd.
    by injection Hd as <-.
Qed.

Lemma convertToBranch_spec_witness :
  branchID Demo.branched = 7%N /\
  (7 <> NullBranchID)%N /\
  (forall (i : nat) (id : N),
     ids (j Demo.branched) !! i = Some id ->
     exists md, storedMD Demo.E0 (mds Demo.branched) id md /\
       BID md = 7%N /\ MergedStatus md = Unmerged /\
       RevisionNumber md = earliestRevision (j Demo.branched) + Z.of_nat i) /\
  (forall (i : nat) (id1 id2 : N) (md : BareRootMetadata),
     ids (j Demo.branched) !! i = Some id1 ->
     ids (j Demo.branched) !! S i = Some id2 ->
     storedMD Demo.E0 (mds Demo.branched) id2 md ->
     GetPrevRoot md = id1) /\
  fst <$> entries (j Demo.branched) = fst <$> entries (j Demo.two) /\
  (forall (i : nat) (old new : N),
     ids (j Demo.two) !! i = Some old ->
     ids (j Demo.branched) !! i = Some new ->
     new <> old).
Proof.
  apply (convertToBranch_spec Demo.E0 1%N 1%N Demo.signer 1%N Demo.two
           Demo.branched 7%N).
  - apply Demo_randomBranchIDNonNull.
  - apply Demo_mdIDInjective.
  - apply Demo_codecRoundTrip.
  - apply Demo_two_storedRevisionsMatch.
  - by vm_compute.
  - by vm_compute.
  - by vm_compute.
Defined.


(** * Further properties of the code *)

(** ** [getMD] and [putMD] *)

(** X1: the metadata that getMD returns is the decoding of the content file
    of the requested MdID, hashes to that MdID, passed the last-modifier and
    signature checks and, with verifyBranchID, is on the journal's branch;
    the time is the modification time of the file; the journal is
    unchanged. *)
Theorem getMD_returns_only_verified (E : Externals) (uid key id : N)
    (verify : bool) (s s' : mdJournal) (md : BareRootMetadata) (ts : N) :
  getMD E uid key id verify s = (s', OK (md, ts)) ->
  s' = s /\
  (exists f, mds s !! id = Some f /\ codec_Decode E (fdata f) = OK md /\
             ts = fmodTime f) /\
  crypto_MakeMdID E md = OK id /\
  IsLastModifiedBy E uid key md = OK tt /\
  IsValidAndSigned E md = OK tt /\
  (verify = true -> BID md = branchID s).
Proof.
  intros H. pose proof H as H'.
  apply getMD_OK in H' as (-> & f & Hf & Hts & Hd & Hid & Hb).
  split; [done |]. split; [by exists f |]. split; [done |].
  revert H. unfold getMD, bind, lift, fail, get, ret, ioutil_ReadFile, os_Stat.
  rewrite Hf. destruct (fs_fault E (ReadFile id)); [done |].
  rewrite Hd, Hid.
  destruct (negb (id =? id)%N); [done |].
  destruct (IsLastModifiedBy E uid key md) as [[] | |]; [| done | done].
  destruct (IsValidAndSigned E md) as [[] | |]; [| done | done].
  done.
Qed.

Lemma getMD_returns_only_verified_witness :
  exists md ts,
    getMD Demo.E0 1%N 1%N Demo.id1 true Demo.one = (Demo.one, OK (md, ts)) /\
    crypto_MakeMdID Demo.E0 md = OK Demo.id1 /\
    BID md = branchID Demo.one.
Proof.
  destruct (getMD Demo.E0 1%N 1%N Demo.id1 true Demo.one)
    as [s' [[md ts] | e | msg]] eqn:Hg;
    [| by vm_compute in Hg | by vm_compute in Hg].
  destruct (getMD_returns_only_verified Demo.E0 1%N 1%N Demo.id1 true Demo.one
              s' md ts Hg) as (-> & _ & Hid & _ & _ & Hb).
  exists md, ts. split; [done |]. split; [done |]. by apply Hb.
Defined.

(** What [putMD] did when it succeeded, with the checks it passed. *)
Lemma putMD_OK_checked (E : Externals) (uid key : N) (rmd : BareRootMetadata)
    (s s1 : mdJournal) (id : N) :
  putMD E uid key rmd s = (s1, OK id) ->
  IsValidAndSigned E rmd = OK tt /\
  IsLastModifiedBy E uid key rmd = OK tt /\
  ((id = zeroMdID /\ s1 = s /\
    exists id' found, crypto_MakeMdID E rmd = OK id' /\
      getMD E uid key id' true s = (s, OK found)) \/
   (crypto_MakeMdID E rmd = OK id /\
    exists buf, codec_Encode E rmd = OK buf /\
      s1 = set_mds (<[id := mkFile buf (fs_now E)]> (mds s)) s)).
Proof.
  unfold putMD, bind at 1 2 3, lift.
  destruct (IsValidAndSigned E rmd) as [[] | |]; [| done | done].
  destruct (IsLastModifiedBy E uid key rmd) as [[] | |]; [| done | done].
  destruct (crypto_MakeMdID E rmd) as [id' | |]; [| done | done].
  pose proof (readOnly_getMD E uid key id' true s) as Hr.
  destruct (getMD E uid key id' true s) as [s0 [found | e | msg]] eqn:Hg;
    simpl in Hr; subst s0; [| | done].
  - intros [= <- <-]. split; [done |]. split; [done |]. left.
    repeat split; try done. by exists id', found.
  - destruct (os_IsNotExist e); [| done].
    unfold bind, os_MkdirAll, lift, ioutil_WriteFile, ret.
    destruct (fs_fault E (MkdirAll id')); [done |].
    destruct (codec_Encode E rmd) as [buf | |]; [| done | done].
    destruct (fs_fault E (WriteFile id')); [done |].
    intros [= <- <-]. split; [done |]. split; [done |]. right.
    split; [done |]. by exists buf.
Qed.

(** X2: round trip.  When putMD returns a non-zero MdID for metadata on the
    journal's branch, and decoding undoes encoding, getMD of that MdID with
    the branch check (absent an I/O error on the read) returns exactly the
    metadata that was put, with the time of the write. *)
Theorem putMD_getMD_round_trip (E : Externals) (uid key : N)
    (rmd : BareRootMetadata) (s s' : mdJournal) (id : N) :
  codecRoundTrip E ->
  putMD E uid key rmd s = (s', OK id) ->
  id <> zeroMdID ->
  BID rmd = branchID s ->
  fs_fault E (ReadFile id) = None ->
  fs_fault E (Stat id) = None ->
  getMD E uid key id true s' = (s', OK (rmd, fs_now E)).
Proof.
  intros Hcodec Hput Hnz Hb Hread Hstat.
  apply putMD_OK_checked in Hput
    as (Hv & Hl & [(-> & _) | (Hid & buf & Hbuf & ->)]); [done |].
  unfold getMD, bind, lift, fail, get, ret, ioutil_ReadFile, os_Stat.
  rewrite Hread, Hstat. cbn [mds set_mds]. rewrite lookup_insert_eq.
  cbn [fdata fmodTime]. rewrite (Hcodec rmd buf Hbuf), Hid, N.eqb_refl.
  cbn [negb]. rewrite Hl, Hv. cbn [branchID set_mds]. rewrite Hb, N.eqb_refl.
  cbn [andb negb mds set_mds]. by rewrite lookup_insert_eq.
Qed.

Lemma putMD_getMD_round_trip_witness :
  getMD Demo.E0 1%N 1%N Demo.id1 true Demo.stored
  = (Demo.stored, OK (bareMd (Demo.merged 1 0%N), fs_now Demo.E0)).
Proof.
  apply (putMD_getMD_round_trip Demo.E0 1%N 1%N (bareMd (Demo.merged 1 0%N))
           Demo.empty Demo.stored Demo.id1).
  - apply Demo_codecRoundTrip.
  - by vm_compute.
  - by vm_compute.
  - reflexivity.
  - reflexivity.
  - reflexivity.
Defined.

(** X3: putMD on metadata that is valid, hashes to an MdID without content
    file, and encodes, absent I/O errors, writes the encoding under that
    MdID with the current time and returns the MdID; nothing else of the
    journal changes. *)
Theorem putMD_stores_absent (E : Externals) (uid key : N)
    (rmd : BareRootMetadata) (s : mdJournal) (id : N) (buf : list Byte.byte) :
  IsValidAndSigned E rmd = OK tt ->
  IsLastModifiedBy E uid key rmd = OK tt ->
  crypto_MakeMdID E rmd = OK id ->
  codec_Encode E rmd = OK buf ->
  mds s !! id = None ->
  fs_fault E (ReadFile id) = None ->
  fs_fault E (MkdirAll id) = None ->
  fs_fault E (WriteFile id) = None ->
  putMD E uid key rmd s
  = (set_mds (<[id := mkFile buf (fs_now E)]> (mds s)) s, OK id).
Proof.
  intros Hv Hl Hid Hbuf Hnone Hread Hmk Hwr.
  unfold putMD, bind at 1 2 3, lift. rewrite Hv, Hl, Hid.
  unfold getMD, bind at 1, ioutil_ReadFile. rewrite Hread, Hnone.
  cbn [os_IsNotExist].
  unfold bind, os_MkdirAll, lift, ioutil_WriteFile, ret.
  by rewrite Hmk, Hbuf, Hwr.
Qed.

Lemma putMD_stores_absent_witness :
  exists buf,
    putMD Demo.E0 1%N 1%N (bareMd (Demo.merged 1 0%N)) Demo.empty
    = (set_mds (<[Demo.id1 := mkFile buf (fs_now Demo.E0)]> (mds Demo.empty))
         Demo.empty, OK Demo.id1).
Proof.
  eexists.
  apply (putMD_stores_absent Demo.E0 1%N 1%N (bareMd (Demo.merged 1 0%N))
           Demo.empty Demo.id1); try reflexivity.
Defined.

(** X4: whatever its outcome, putMD touches neither the ordinal log nor the
    in-memory fields nor the MD cache, removes no content file, and leaves
    every content file other than that of the MdID of the metadata as it
    was. *)
Theorem putMD_frame (E : Externals) (uid key : N) (rmd : BareRootMetadata)
    (s : mdJournal) :
  j (fst (putMD E uid key rmd s)) = j s /\
  branchID (fst (putMD E uid key rmd s)) = branchID s /\
  lastMdID (fst (putMD E uid key rmd s)) = lastMdID s /\
  mdcache (fst (putMD E uid key rmd s)) = mdcache s /\
  (forall id, is_Some (mds s !! id) ->
              is_Some (mds (fst (putMD E uid key rmd s)) !! id)) /\
  (forall id, crypto_MakeMdID E rmd <> OK id ->
              mds (fst (putMD E uid key rmd s)) !! id = mds s !! id).
Proof.
  split; [apply (keeps_putMD E (fun s => j s)); done |].
  split; [apply (keeps_putMD E branchID); done |].
  split; [apply (keeps_putMD E lastMdID); done |].
  split; [apply (keeps_putMD E mdcache); done |].
  assert (forall s1 r, putMD E uid key rmd s = (s1, r) ->
            s1 = s \/
            exists id buf, crypto_MakeMdID E rmd = OK id /\
              s1 = set_mds (<[id := mkFile buf (fs_now E)]> (mds s)) s)
    as Hcases.
  { intros s1 r. unfold putMD, bind at 1 2 3, lift.
    destruct (IsValidAndSigned E rmd); [| by intros [= <- _]; left ..].
    destruct (IsLastModifiedBy E uid key rmd); [| by intros [= <- _]; left ..].
    destruct (crypto_MakeMdID E rmd) as [id | |];
      [| by intros [= <- _]; left ..].
    pose proof (readOnly_getMD E uid key id true s) as Hr.
    destruct (getMD E uid key id true s) as [s0 [found | e | msg]];
      simpl in Hr; subst s0;
      [by intros [= <- _]; left | | by intros [= <- _]; left].
    destruct (os_IsNotExist e); [| by intros [= <- _]; left].
    unfold bind, os_MkdirAll, lift, ioutil_WriteFile, ret.
    destruct (fs_fault E (MkdirAll id)); [by intros [= <- _]; left |].
    destruct (codec_Encode E rmd) as [buf | |];
      [| by intros [= <- _]; left ..].
    destruct (fs_fault E (WriteFile id)); [by intros [= <- _]; left |].
    intros [= <- _]. right. by exists id, buf. }
  destruct (putMD E uid key rmd s) as [s1 r] eqn:Hp. cbn [fst].
  destruct (Hcases s1 r eq_refl) as [-> | (id & buf & Hid & ->)]; [done |].
  split.
  - intros id' Hsome. cbn [mds set_mds].
    destruct (decide (id = id')) as [<- | Hne].
    + rewrite lookup_insert_eq. by eexists.
    + by rewrite lookup_insert_ne.
  - intros id' Hne. cbn [mds set_mds]. rewrite lookup_insert_ne; [done |].
    congruence.
Qed.

(** ** [put] *)

Section PutMore.
Variable E : Externals.

(** Unless it succeeds, the common code of [put] leaves the log and the
    in-memory fields as they were. *)
Lemma putCommon_not_OK uid key signer ekg bsplit head mStatus rmd s s' r :
  putCommon E uid key signer ekg bsplit head mStatus rmd s = (s', r) ->
  (exists id, r = OK id) \/
  (j s' = j s /\ branchID s' = branchID s /\ lastMdID s' = lastMdID s).
Proof.
  unfold putCommon. unfold bind at 1, get.
  destruct (negb (eqb _ _)); [intros [= <- <-]; by right |].
  destruct (isMerged mStatus && _); [intros [= <- <-]; by right |].
  destruct (negb (BID _ =? _)%N); [intros [= <- <-]; by right |].
  unfold bind at 1.
  match goal with
  | |- context [match ?m s with _ => _ end] =>
      assert (readOnly m) as Hro
  end.
  { destruct (decide (head <> zeroIBRMD)); [| apply readOnly_ret].
    apply readOnly_embedded. intros md. auto 10 with readonly. }
  match goal with
  | |- context [match ?m s with _ => _ end] =>
      specialize (Hro s); destruct (m s) as [s0 [[] | e | msg]];
      simpl in Hro; subst s0;
      [| intros [= <- <-]; by right | intros [= <- <-]; by right]
  end.
  destruct (_ && negb (bsplit _)); [intros [= <- <-]; by right |].
  unfold bind at 1, lift.
  destruct (encryptMDPrivateData E signer ekg uid rmd) as [brmd | e | msg];
    [| intros [= <- <-]; by right ..].
  unfold bind at 1.
  pose proof (keeps_putMD E (fun s => j s) uid key brmd (fun _ _ => eq_refl) s) as Hj.
  pose proof (keeps_putMD E branchID uid key brmd (fun _ _ => eq_refl) s) as Hb.
  pose proof (keeps_putMD E lastMdID uid key brmd (fun _ _ => eq_refl) s) as Hl.
  destruct (putMD E uid key brmd s) as [s1 [id1 | e | msg]];
    simpl in Hj, Hb, Hl; [| intros [= <- <-]; by right ..].
  assert (forall f,
            bind (jwrite f) (fun _ =>
              bind (modify (set_lastMdID zeroMdID)) (fun _ => ret id1)) s1
            = (s', r) ->
            (exists id, r = OK id) \/
            (j s' = j s /\ branchID s' = branchID s /\ lastMdID s' = lastMdID s))
    as Hw.
  { intros f. unfold bind, jwrite, modify, ret.
    destruct (f (j s1)); intros [= <- <-]; [left; by eexists | by right ..]. }
  destruct (decide (head <> zeroIBRMD)) as [Hnz | Hz]; [| apply Hw].
  unfold embedded. destruct (ibrmd head) as [hmd |].
  - destruct (_ =? _); apply Hw.
  - unfold bind, panic. intros [= <- <-]. by right.
Qed.

(** The checks that the common code passed when it succeeds. *)
Lemma putCommon_checks uid key signer ekg bsplit head mStatus rmd s s' id :
  putCommon E uid key signer ekg bsplit head mStatus rmd s = (s', OK id) ->
  (isMerged mStatus = true <-> BID (bareMd rmd) = NullBranchID) /\
  BID (bareMd rmd) = branchID s.
Proof.
  unfold putCommon. unfold bind at 1, get.
  destruct (negb (eqb _ _)) eqn:Heqb; [done |].
  destruct (isMerged mStatus && _); [done |].
  destruct (negb (BID _ =? _)%N) eqn:Hb; [done |]. intros _.
  apply negb_false_iff in Heqb. apply negb_false_iff, N.eqb_eq in Hb.
  split; [| done].
  apply eqb_prop in Heqb. rewrite Heqb. apply N.eqb_eq.
Qed.

Lemma putUnmerged_status head rmd s s2 rmd' reverting r :
  putUnmerged head rmd s = (s2, rmd', reverting, r) ->
  MergedStatus (bareMd rmd') = MergedStatus (bareMd rmd) /\
  (reverting = true -> branchID s = NullBranchID) /\
  (reverting = false -> branchID s2 = branchID s).
Proof.
  unfold putUnmerged.
  repeat case_match; intros [= <- <- <- <-]; repeat split; try done.
  intros _.
  match goal with
  | H : _ && (branchID s =? NullBranchID)%N = true |- _ =>
      apply andb_true_iff in H as [_ H]; by apply N.eqb_eq in H
  end.
Qed.
End PutMore.

(** X5: a put that returns an error leaves the ordinal log, branchID and
    lastMdID as they were: every check comes before the log is written, the
    log is written last, and the branch ID adopted in case Unmerged-3 is
    reverted. *)
Theorem put_error_leaves_journal (E : Externals) (uid key : N)
    (signer : list Byte.byte -> result N) (ekg : N)
    (bsplit : BlockChanges -> bool) (rmd rmd' : RootMetadata)
    (s s' : mdJournal) (e : error) :
  put E uid key signer ekg bsplit rmd s = (s', rmd', Err e) ->
  j s' = j s /\ branchID s' = branchID s /\ lastMdID s' = lastMdID s.
Proof.
  unfold put.
  pose proof (readOnly_getLatest E uid key true s) as Hr.
  destruct (getLatest E uid key true s) as [s1 [head | e1 | msg]];
    simpl in Hr; subst s1; [| by intros [= <- _ _] | done].
  destruct (MergedStatus (bareMd rmd)).
  - destruct (putCommon _ _ _ _ _ _ _ _ _ _) as [s3 r3] eqn:Hc.
    cbn [andb]. intros [= <- _ ->].
    by apply putCommon_not_OK in Hc as [[id [=]] | ?].
  - destruct (putUnmerged head rmd s) as [[[s2 rmd2] reverting] r] eqn:Hu.
    pose proof (putUnmerged_frame head rmd s s2 rmd2 reverting r Hu)
      as (Hj & Hl & _).
    pose proof Hu as Hu0.
    apply putUnmerged_status in Hu as (_ & Hrev & Hnorev).
    destruct r as [[] | e2 | msg].
    + destruct (putCommon _ _ _ _ _ _ _ _ _ _) as [s3 r3] eqn:Hc.
      intros [= <- _ ->].
      apply putCommon_not_OK in Hc as [[id [=]] | (Hj3 & Hb3 & Hl3)].
      destruct reverting; cbn [andb isErr].
      * cbn [j lastMdID branchID set_branchID].
        rewrite Hj3, Hl3, Hj, Hl. by rewrite Hrev.
      * rewrite Hj3, Hb3, Hl3, Hj, Hl. by rewrite Hnorev.
    + intros [= <- _ _]. rewrite Hj, Hl. split; [done |]. split; [| done].
      apply Hnorev. revert Hu0. unfold putUnmerged.
      repeat case_match; by intros [= _ _ <- _].
    + done.
Qed.


Lemma put_error_leaves_journal_witness :
  j (fst (fst (put Demo.E0 1%N 1%N Demo.signer 0%N Demo.bsplit
                 (Demo.merged 3 0%N) Demo.branched))) = j Demo.branched /\
  branchID (fst (fst (put Demo.E0 1%N 1%N Demo.signer 0%N Demo.bsplit
                        (Demo.merged 3 0%N) Demo.branched)))
  = branchID Demo.branched /\
  lastMdID (fst (fst (put Demo.E0 1%N 1%N Demo.signer 0%N Demo.bsplit
                        (Demo.merged 3 0%N) Demo.branched)))
  = lastMdID Demo.branched.
Proof.
  destruct (put Demo.E0 1%N 1%N Demo.signer 0%N Demo.bsplit
              (Demo.merged 3 0%N) Demo.branched) as [[s' rmd'] r] eqn:Hput.
  assert (r = Err MDJournalConflictError) as ->.
  { vm_compute in Hput. by injection Hput as _ _ <-. }
  exact (put_error_leaves_journal Demo.E0 1%N 1%N Demo.signer 0%N Demo.bsplit
           (Demo.merged 3 0%N) rmd' Demo.branched s' _ Hput).
Defined.

(** X6: after a put that succeeds, lastMdID is zero, the log is non-empty,
    the branch ID of the RMD (as the caller sees it afterwards) is the
    journal's branchID, and the RMD is merged exactly when that branch ID is
    NULL_BID; put changes neither the merge status nor the revision of the
    RMD. *)
Theorem put_success_postconditions (E : Externals) (uid key : N)
    (signer : list Byte.byte -> result N) (ekg : N)
    (bsplit : BlockChanges -> bool) (rmd rmd' : RootMetadata)
    (s s' : mdJournal) (id : N) :
  put E uid key signer ekg bsplit rmd s = (s', rmd', OK id) ->
  lastMdID s' = zeroMdID /\
  ids (j s') <> [] /\
  BID (bareMd rmd') = branchID s' /\
  (MergedStatus (bareMd rmd') = Merged <-> BID (bareMd rmd') = NullBranchID) /\
  MergedStatus (bareMd rmd') = MergedStatus (bareMd rmd) /\
  RevisionNumber (bareMd rmd') = RevisionNumber (bareMd rmd).
Proof.
  intros Hput.
  assert (MergedStatus (bareMd rmd') = MergedStatus (bareMd rmd)) as Hst.
  { revert Hput. unfold put.
    destruct (getLatest E uid key true s) as [s1 [head | |]]; [| done | done].
    destruct (MergedStatus (bareMd rmd)) eqn:Hm.
    - destruct (putCommon _ _ _ _ _ _ _ _ _ _). by intros [= _ <- _].
    - destruct (putUnmerged head rmd s1) as [[[s2 rmd2] reverting] r] eqn:Hu.
      apply putUnmerged_status in Hu as (Hs & _).
      destruct r; [| done | done].
      destruct (putCommon _ _ _ _ _ _ _ _ _ _). intros [= _ <- _]. congruence. }
  apply put_OK in Hput as (head & s2 & _ & _ & Hrev & Hc).
  pose proof (putCommon_checks _ _ _ _ _ _ _ _ _ _ _ _ Hc) as (Hiff & Hb).
  apply putCommon_OK in Hc as (brmd & l & _ & Hl & Hlast & Hb' & Hcases).
  split; [done |]. split; [| split; [congruence | split; [| done]]].
  - rewrite Hl.
    destruct Hcases as [(hmd & _ & _ & Hrep) | [_ Happ]].
    + apply mdIDJournal_replaceHead_OK in Hrep as [Hle _].
      intros Hnil. unfold latestEntry, entries in Hle. by rewrite Hnil in Hle.
    + apply mdIDJournal_append_OK in Happ as (_ & Hlen & _).
      intros Hnil. by rewrite Hnil in Hlen.
  - rewrite Hst, <- Hiff. by destruct (MergedStatus (bareMd rmd)).
Qed.

Lemma put_success_postconditions_witness :
  lastMdID Demo.two = zeroMdID /\
  ids (j Demo.two) <> [] /\
  BID (bareMd (Demo.merged 2 Demo.id1)) = branchID Demo.two /\
  (MergedStatus (bareMd (Demo.merged 2 Demo.id1)) = Merged <->
   BID (bareMd (Demo.merged 2 Demo.id1)) = NullBranchID) /\
  MergedStatus (bareMd (Demo.merged 2 Demo.id1))
  = MergedStatus (bareMd (Demo.merged 2 Demo.id1)) /\
  RevisionNumber (bareMd (Demo.merged 2 Demo.id1))
  = RevisionNumber (bareMd (Demo.merged 2 Demo.id1)).
Proof.
  apply (put_success_postconditions Demo.E0 1%N 1%N Demo.signer 0%N Demo.bsplit
           (Demo.merged 2 Demo.id1) (Demo.merged 2 Demo.id1) Demo.one Demo.two
           Demo.id2).
  by vm_compute.
Defined.

(** X7: an unmerged RMD without branch ID cannot be put on a journal that is
    on the trunk: once the head is read, put fails with its own error and
    changes neither the journal nor the RMD. *)
Theorem put_unmerged_needs_a_branch (E : Externals) (uid key : N)
    (signer : list Byte.byte -> result N) (ekg : N)
    (bsplit : BlockChanges -> bool) (rmd : RootMetadata) (s : mdJournal)
    (head : ImmutableBareRootMetadata) :
  MergedStatus (bareMd rmd) = Unmerged ->
  BID (bareMd rmd) = NullBranchID ->
  branchID s = NullBranchID ->
  snd (getLatest E uid key true s) = OK head ->
  put E uid key signer ekg bsplit rmd s
  = (s, rmd,
     Err (errorString
            "Unmerged put with rmd.BID() == j.branchID == NullBranchID")).
Proof.
  intros Hm Hbid Hb Hhead.
  apply readOnly_run in Hhead; [| apply readOnly_getLatest].
  unfold put. rewrite Hhead, Hm. unfold putUnmerged. by rewrite Hbid, Hb.
Qed.

Lemma put_unmerged_needs_a_branch_witness :
  put Demo.E0 1%N 1%N Demo.signer 0%N Demo.bsplit
    (Demo.unmerged 3 NullBranchID 0%N) Demo.two
  = (Demo.two, Demo.unmerged 3 NullBranchID 0%N,
     Err (errorString
            "Unmerged put with rmd.BID() == j.branchID == NullBranchID")).
Proof.
  eapply (put_unmerged_needs_a_branch Demo.E0 1%N 1%N Demo.signer 0%N
            Demo.bsplit (Demo.unmerged 3 NullBranchID 0%N) Demo.two);
    [reflexivity | reflexivity | by vm_compute | by vm_compute].
Defined.

(** X8: the first entry.  On a journal on the trunk with an empty log, put
    of a merged RMD without branch ID whose block changes pass the check,
    which encrypts to metadata that is valid, hashes to an MdID without
    content file, and encodes, absent I/O errors, succeeds: it returns that
    MdID, writes the content file, and the log becomes the single entry
    (revision of the encrypted metadata, MdID); lastMdID is zero. *)
Theorem put_first_entry (E : Externals) (uid key : N)
    (signer : list Byte.byte -> result N) (ekg : N)
    (bsplit : BlockChanges -> bool) (rmd : RootMetadata) (s : mdJournal)
    (brmd : BareRootMetadata) (id : N) (buf : list Byte.byte) :
  ids (j s) = [] ->
  branchID s = NullBranchID ->
  MergedStatus (bareMd rmd) = Merged ->
  BID (bareMd rmd) = NullBranchID ->
  (Info_BlockPointer (data_Changes rmd) =? zeroPtr)%N
    && negb (bsplit (data_Changes rmd)) = false ->
  encryptMDPrivateData E signer ekg uid rmd = OK brmd ->
  IsValidAndSigned E brmd = OK tt ->
  IsLastModifiedBy E uid key brmd = OK tt ->
  crypto_MakeMdID E brmd = OK id ->
  codec_Encode E brmd = OK buf ->
  mds s !! id = None ->
  (forall op, fs_fault E op = None) ->
  put E uid key signer ekg bsplit rmd s
  = (mkMdJournal (mkMdIDJournal (jdir (j s)) (RevisionNumber brmd) [id])
       NullBranchID zeroMdID
       (<[id := mkFile buf (fs_now E)]> (mds s)) (mdcache s),
     rmd, OK id).
Proof.
  intros Hnil Hb Hm Hbid Hsplit Henc Hv Hl Hid Hbuf Hnone Hf.
  assert (getLatest E uid key true s = (s, OK zeroIBRMD)) as Hhead.
  { unfold getLatest, bind, jread, mdIDJournal_getLatest, logFault.
    by rewrite Hf, Hnil. }
  assert (putMD E uid key brmd s
          = (set_mds (<[id := mkFile buf (fs_now E)]> (mds s)) s, OK id))
    as Hput.
  { unfold putMD, bind at 1 2 3, lift. rewrite Hv, Hl, Hid.
    unfold getMD, bind at 1, ioutil_ReadFile. rewrite Hf, Hnone.
    cbn [os_IsNotExist].
    unfold bind, os_MkdirAll, lift, ioutil_WriteFile, ret.
    by rewrite !Hf, Hbuf. }
  unfold put. rewrite Hhead, Hm. unfold putCommon.
  unfold bind at 1, get. rewrite Hbid, Hb. cbn [isMerged eqb negb andb].
  rewrite N.eqb_refl. cbn [negb andb].
  destruct (decide (zeroIBRMD <> zeroIBRMD)) as [Hne | _]; [done |].
  unfold bind at 1, ret. rewrite Hsplit.
  unfold bind at 1, lift. rewrite Henc.
  unfold bind at 1. rewrite Hput.
  unfold bind, jwrite, modify, ret, mdIDJournal_append, logFault.
  cbn [j set_mds]. rewrite Hf, Hnil. cbn [andb].
  unfold set_lastMdID, set_j. cbn. by rewrite Hb.
Qed.

Lemma put_first_entry_witness :
  exists buf,
    put Demo.E0 1%N 1%N Demo.signer 0%N Demo.bsplit (Demo.merged 1 0%N)
      Demo.empty
    = (mkMdJournal (mkMdIDJournal (jdir (j Demo.empty)) 1 [Demo.id1])
         NullBranchID zeroMdID
         (<[Demo.id1 := mkFile buf (fs_now Demo.E0)]> (mds Demo.empty))
         (mdcache Demo.empty),
       Demo.merged 1 0%N, OK Demo.id1).
Proof.
  eexists.
  apply (put_first_entry Demo.E0 1%N 1%N Demo.signer 0%N Demo.bsplit
           (Demo.merged 1 0%N) Demo.empty (bareMd (Demo.merged 1 0%N))
           Demo.id1); try reflexivity.
Defined.

(** ** The readers *)

(** X9: a head that getHead returns is either the zero value, when the log
    gives the zero MdID, or the verified metadata stored under the MdID of
    the latest entry: it is on the journal's branch and the current user is
    a reader of it. *)
Theorem getHead_returns_readable_head (E : Externals) (uid key extra : N)
    (s s' : mdJournal) (head : ImmutableBareRootMetadata) :
  getHead E uid key extra s = (s', OK head) ->
  s' = s /\
  mdID head = List.last (ids (j s)) zeroMdID /\
  ((head = zeroIBRMD /\ List.last (ids (j s)) zeroMdID = zeroMdID) \/
   (exists md, ibrmd head = Some md /\ mdID head <> zeroMdID /\
      storedMD E (mds s) (mdID head) md /\
      BID md = branchID s /\
      isReader E uid md extra = OK true)).
Proof.
  unfold getHead, checkGetParams. unfold bind at 1.
  destruct (getLatest E uid key true s) as [s1 [h | |]] eqn:Hl; [| done | done].
  apply getLatest_OK in Hl as (-> & Hlog & Hcases).
  assert (mdID h = List.last (ids (j s)) zeroMdID) as Hlast.
  { unfold mdIDJournal_getLatest, logFault in Hlog.
    destruct (fs_fault E _); by simplify_eq. }
  destruct (decide (h <> zeroIBRMD)) as [Hnz | Hz].
  - destruct Hcases as [[-> _] | (md & Hmd & Hne & Hg)]; [done |].
    unfold embedded. rewrite Hmd. unfold bind, lift, fail, ret.
    destruct (isReader E uid md extra) as [[|] | |] eqn:Hr; try done.
    intros [= <- <-]. split; [done |]. split; [done |]. right.
    apply getMD_stored in Hg as [Hst Hb]. exists md. repeat split; try done.
    by apply Hb.
  - unfold ret. intros [= <- <-]. split; [done |]. split; [done |]. left.
    destruct Hcases as [[-> Hz'] | (md & Hmd & _)]; [done |].
    exfalso. apply Hz. intros ->. done.
Qed.

Lemma getHead_returns_readable_head_witness :
  exists head,
    getHead Demo.E0 1%N 1%N 0%N Demo.two = (Demo.two, OK head) /\
    mdID head = Demo.id2.
Proof.
  destruct (getHead Demo.E0 1%N 1%N 0%N Demo.two) as [s' [head | e | msg]] eqn:Hg;
    [| by vm_compute in Hg | by vm_compute in Hg].
  destruct (getHead_returns_readable_head Demo.E0 1%N 1%N 0%N Demo.two s' head Hg)
    as (-> & Hid & _).
  exists head. split; [done |]. rewrite Hid. by vm_compute.
Defined.

(** The loop of [getRange] appends, for each MdID in order, the verified
    metadata stored under it, which has the expected revision. *)
Lemma getRangeLoop_OK (E : Externals) (uid key : N) (realStart : Z)
    (mdIDs : list N) :
  forall (i : nat) (acc out : list ImmutableBareRootMetadata) (s s' : mdJournal),
    getRangeLoop E uid key realStart i mdIDs acc s = (s', OK out) ->
    exists new,
      out = (acc ++ new)%list /\
      mdID <$> new = mdIDs /\
      (forall (k : nat) (r : ImmutableBareRootMetadata),
         new !! k = Some r ->
         exists md, ibrmd r = Some md /\ mdID r <> zeroMdID /\
           storedMD E (mds s) (mdID r) md /\ BID md = branchID s /\
           RevisionNumber md = wrap64 (realStart + Z.of_nat (i + k))).
Proof.
  induction mdIDs as [| id rest IH]; intros i acc out s s'; simpl.
  - unfold ret. intros [= <- <-]. exists []. by rewrite app_nil_r.
  - unfold bind at 1.
    destruct (getMD E uid key id true s) as [s1 [[md ts] | |]] eqn:Hg;
      [| done | done].
    pose proof Hg as Hg'. apply getMD_OK in Hg' as [-> _].
    apply getMD_stored in Hg as [Hst Hb]. specialize (Hb eq_refl).
    destruct (wrap64 (realStart + Z.of_nat i) =? RevisionNumber md) eqn:Hrev;
      [| done].
    apply Z.eqb_eq in Hrev. cbn [negb].
    unfold bind at 1, lift, MakeImmutableBareRootMetadata.
    destruct (id =? zeroMdID)%N eqn:Hz; [done |]. apply N.eqb_neq in Hz.
    intros Hloop. apply IH in Hloop as (new & -> & Hids & Hnew).
    exists (mkIBRMD (Some md) id ts :: new).
    split; [by rewrite <- app_assoc |].
    split; [rewrite fmap_cons; by rewrite Hids |].
    intros [| k] r Hk; simpl in Hk.
    + injection Hk as <-. exists md. simpl. repeat split; try done.
      by rewrite Nat.add_0_r.
    + destruct (Hnew k r Hk) as (md' & ? & ? & ? & ? & Hr').
      exists md'. repeat split; try done. rewrite Hr'. do 3 f_equal. lia.
Qed.

(** X10: what getRange returns are the verified metadata stored under the
    MdIDs that the ordinal log gives for the range, in order: each is on the
    journal's branch and the i-th has the revision realStart + i; the
    journal is unchanged. *)
Theorem getRange_returns_verified_range (E : Externals) (uid key extra : N)
    (start stop : Z) (s s' : mdJournal)
    (rmds : list ImmutableBareRootMetadata) :
  getRange E uid key extra start stop s = (s', OK rmds) ->
  s' = s /\
  exists realStart mdIDs,
    mdIDJournal_getRange (fs_fault E) start stop (j s) = OK (realStart, mdIDs) /\
    mdID <$> rmds = mdIDs /\
    (forall (i : nat) (r : ImmutableBareRootMetadata),
       rmds !! i = Some r ->
       exists md, ibrmd r = Some md /\ mdID r <> zeroMdID /\
         storedMD E (mds s) (mdID r) md /\ BID md = branchID s /\
         RevisionNumber md = wrap64 (realStart + Z.of_nat i)).
Proof.
  intros H.
  assert (s' = s) as ->.
  { pose proof (readOnly_getRange E uid key extra start stop s) as Hr.
    by rewrite H in Hr. }
  split; [done |]. revert H. unfold getRange. unfold bind at 1.
  pose proof (readOnly_checkGetParams E uid key extra s) as Hr.
  destruct (checkGetParams E uid key extra s) as [s1 [h | |]];
    simpl in Hr; subst s1; [| done | done].
  unfold bind, jread.
  destruct (mdIDJournal_getRange (fs_fault E) start stop (j s))
    as [[realStart mdIDs] | |]; [| done | done].
  intros Hloop. apply getRangeLoop_OK in Hloop as (new & -> & Hids & Hnew).
  exists realStart, mdIDs. split; [done |]. split; [done |].
  intros i r Hi. by apply Hnew in Hi.
Qed.

Lemma getRange_returns_verified_range_witness :
  exists rmds,
    getRange Demo.E0 1%N 1%N 0%N 1 2 Demo.two = (Demo.two, OK rmds) /\
    mdID <$> rmds = [Demo.id1; Demo.id2].
Proof.
  destruct (getRange Demo.E0 1%N 1%N 0%N 1 2 Demo.two)
    as [s' [rmds | e | msg]] eqn:Hg;
    [| by vm_compute in Hg | by vm_compute in Hg].
  destruct (getRange_returns_verified_range Demo.E0 1%N 1%N 0%N 1 2 Demo.two s'
              rmds Hg) as (-> & realStart & mdIDs & Hr & Hids & _).
  exists rmds. split; [done |]. rewrite Hids.
  vm_compute in Hr. by injection Hr as _ <-.
Defined.

(** X11: getNextEntryToFlush answers (zero MdID, nil) when the log gives the
    zero MdID or the stored earliest metadata has a revision not below end;
    otherwise it answers the MdID of the earliest entry, which is not zero,
    with what signMD made of the verified metadata stored under it, whose
    revision is below end.  The journal is unchanged. *)
Theorem getNextEntryToFlush_spec (E : Externals) (uid key : N) (end' : Z)
    (signer : list Byte.byte -> result N) (s s' : mdJournal) (id : N)
    (o : option RootMetadataSigned) :
  getNextEntryToFlush E uid key end' signer s = (s', OK (id, o)) ->
  s' = s /\
  ((o = None /\ id = zeroMdID /\
    (hd zeroMdID (ids (j s)) = zeroMdID \/
     exists md, storedMD E (mds s) (hd zeroMdID (ids (j s))) md /\
                end' <= RevisionNumber md)) \/
   (exists rmds md,
      o = Some rmds /\ id = hd zeroMdID (ids (j s)) /\ id <> zeroMdID /\
      storedMD E (mds s) id md /\ BID md = branchID s /\
      RevisionNumber md < end' /\
      signMD E signer (mkRMDS 0%N md) = OK rmds)).
Proof.
  unfold getNextEntryToFlush. unfold bind at 1.
  destruct (getEarliest E uid key true s) as [s1 [h | |]] eqn:He; [| done | done].
  apply getEarliest_OK in He as (-> & Hlog & Hcases).
  assert (mdID h = hd zeroMdID (ids (j s))) as Hhd.
  { unfold mdIDJournal_getEarliest, logFault in Hlog.
    destruct (fs_fault E _); by simplify_eq. }
  destruct (decide (h = zeroIBRMD)) as [-> | Hnz].
  - unfold ret. intros [= <- <- <-]. split; [done |]. left.
    repeat split; try done. left. by rewrite <- Hhd.
  - destruct Hcases as [[-> _] | (md & Hmd & Hne & Hg)]; [done |].
    apply getMD_stored in Hg as [Hst Hb]. specialize (Hb eq_refl).
    unfold embedded. rewrite Hmd.
    destruct (RevisionNumber md >=? end') eqn:Hrev.
    + unfold ret. intros [= <- <- <-]. split; [done |]. left.
      repeat split; try done. right. exists md. rewrite <- Hhd.
      split; [done |]. lia.
    + destruct (isMutableBareRootMetadata E); [| done]. cbn [negb].
      unfold bind, lift, ret.
      destruct (signMD E signer (mkRMDS 0%N md)) as [rmds | |] eqn:Hs;
        [| done | done].
      intros [= <- <- <-]. split; [done |]. right. exists rmds, md.
      repeat split; try done. lia.
Qed.

Lemma getNextEntryToFlush_spec_witness :
  exists rmds,
    getNextEntryToFlush Demo.E0 1%N 1%N 3 Demo.signer Demo.two
    = (Demo.two, OK (Demo.id1, Some rmds)) /\
    Demo.id1 = hd zeroMdID (ids (j Demo.two)).
Proof.
  destruct (getNextEntryToFlush Demo.E0 1%N 1%N 3 Demo.signer Demo.two)
    as [s' [[id [rmds |]] | e | msg]] eqn:Hg;
    [| by vm_compute in Hg | by vm_compute in Hg | by vm_compute in Hg].
  destruct (getNextEntryToFlush_spec Demo.E0 1%N 1%N 3 Demo.signer Demo.two s'
              id (Some rmds) Hg)
    as (-> & [(? & _) | (rmds' & md & _ & Hid & _)]); [done |].
  exists rmds. rewrite Hid. split; [done |]. by vm_compute.
Defined.

(** X12: on a journal with an empty ordinal log, absent I/O errors of the
    log, every operation takes its empty case and leaves the journal as it
    is: there is no head and no entry to flush, every range is empty,
    length and end are 0, removeFlushedEntry fails, and clear of a branch
    is a successful no-op. *)
Theorem empty_journal_behaviour (E : Externals) (uid key extra : N)
    (start stop end' : Z) (signer : list Byte.byte -> result N) (mdID' : N)
    (rmds : RootMetadataSigned) (bid : N) (s : mdJournal) :
  ids (j s) = [] ->
  (forall op, fs_fault E (OrdinalLog (jdir (j s)) op) = None) ->
  getHead E uid key extra s = (s, OK zeroIBRMD) /\
  getRange E uid key extra start stop s = (s, OK []) /\
  getNextEntryToFlush E uid key end' signer s = (s, OK (zeroMdID, None)) /\
  length E s = (s, OK 0%N) /\
  end_ E s = (s, OK MetadataRevisionUninitialized) /\
  readEarliestRevision E s = (s, OK MetadataRevisionUninitialized) /\
  readLatestRevision E s = (s, OK MetadataRevisionUninitialized) /\
  removeFlushedEntry E uid key mdID' rmds s
  = (s, Err (errorString "mdJournal unexpectedly empty")) /\
  (bid <> NullBranchID -> clear E uid key bid extra s = (s, OK tt)).
Proof.
  intros Hnil Hf.
  assert (forall verify, getLatest E uid key verify s = (s, OK zeroIBRMD)) as Hl.
  { intros verify.
    unfold getLatest, bind, jread, mdIDJournal_getLatest, logFault.
    by rewrite Hf, Hnil. }
  assert (getEarliest E uid key true s = (s, OK zeroIBRMD)) as He.
  { unfold getEarliest, bind, jread, mdIDJournal_getEarliest, logFault.
    by rewrite Hf, Hnil. }
  assert (checkGetParams E uid key extra s = (s, OK zeroIBRMD)) as Hc.
  { unfold checkGetParams, bind. rewrite Hl.
    by destruct (decide (zeroIBRMD <> zeroIBRMD)). }
  split; [done |]. split.
  { unfold getRange, bind, jread, mdIDJournal_getRange, logFault.
    by rewrite Hc, Hf, Hnil. }
  split.
  { unfold getNextEntryToFlush, bind. rewrite He.
    by destruct (decide (zeroIBRMD = zeroIBRMD)). }
  split.
  { unfold length, jread, mdIDJournal_length, logFault. by rewrite Hf, Hnil. }
  split.
  { unfold end_, jread, mdIDJournal_end, logFault. by rewrite Hf, Hnil. }
  split.
  { unfold readEarliestRevision, jread, mdIDJournal_readEarliestRevision,
      logFault. by rewrite Hf, Hnil. }
  split.
  { unfold readLatestRevision, jread, mdIDJournal_readLatestRevision, logFault.
    by rewrite Hf, Hnil. }
  split.
  { unfold removeFlushedEntry, bind. rewrite He.
    by destruct (decide (zeroIBRMD = zeroIBRMD)). }
  intros Hbid. unfold clear, getHead, bind. apply N.eqb_neq in Hbid.
  rewrite Hbid, Hc. by destruct (decide (zeroIBRMD = zeroIBRMD)).
Qed.

Lemma empty_journal_behaviour_witness :
  getHead Demo.E0 1%N 1%N 0%N Demo.empty = (Demo.empty, OK zeroIBRMD) /\
  getNextEntryToFlush Demo.E0 1%N 1%N 5 Demo.signer Demo.empty
  = (Demo.empty, OK (zeroMdID, None)) /\
  clear Demo.E0 1%N 1%N 7%N 0%N Demo.empty = (Demo.empty, OK tt).
Proof.
  destruct (empty_journal_behaviour Demo.E0 1%N 1%N 0%N 0 0 5 Demo.signer 0%N
              (mkRMDS 0%N (bareMd (Demo.merged 1 0%N))) 7%N Demo.empty)
    as (H1 & _ & H3 & _ & _ & _ & _ & _ & H9); [reflexivity | reflexivity |].
  split; [exact H1 |]. split; [exact H3 |]. by apply H9.
Defined.

(** ** [removeFlushedEntry] *)

(** Once the checks of [removeFlushedEntry] pass and the earliest entry is
    removed from the log, what remains is the removal of the content
    file. *)
Lemma removeFlushedEntry_run (E : Externals) (uid key : N)
    (rmds : RootMetadataSigned) (s : mdJournal)
    (head : ImmutableBareRootMetadata) (md : BareRootMetadata)
    (l : mdIDJournal) (empty : bool) :
  snd (getEarliest E uid key true s) = OK head ->
  ibrmd head = Some md ->
  CodecEqual E md (MD rmds) = OK true ->
  mdIDJournal_removeEarliest (fs_fault E) (j s) = OK (l, empty) ->
  removeFlushedEntry E uid key (mdID head) rmds s
  = os_Remove E (mdID head)
      (if empty then set_lastMdID (mdID head) (set_j l s) else set_j l s).
Proof.
  intros He Hmd Heq Hrm.
  apply readOnly_run in He; [| apply readOnly_getEarliest].
  unfold removeFlushedEntry. unfold bind at 1. rewrite He.
  destruct (decide (head = zeroIBRMD)) as [-> | _]; [done |].
  rewrite N.eqb_refl. cbn [negb]. unfold embedded. rewrite Hmd.
  unfold bind, lift. rewrite Heq. cbn [negb]. cbv beta iota. by rewrite Hrm.
Qed.

(** X13: a successful removeFlushedEntry removes exactly the content file of
    the flushed MdID from the content store, moves the earliest revision of
    the log up by one, and leaves branchID alone. *)
Theorem removeFlushedEntry_collects_content_file (E : Externals)
    (uid key mdID' : N) (rmds : RootMetadataSigned) (s s' : mdJournal) :
  removeFlushedEntry E uid key mdID' rmds s = (s', OK tt) ->
  mds s' = delete mdID' (mds s) /\
  is_Some (mds s !! mdID') /\
  earliestRevision (j s') = earliestRevision (j s) + 1 /\
  jdir (j s') = jdir (j s) /\
  branchID s' = branchID s.
Proof.
  unfold removeFlushedEntry. unfold bind at 1.
  destruct (getEarliest E uid key true s) as [s1 [head | e | msg]] eqn:Hhead;
    [| done | done].
  apply getEarliest_OK in Hhead as (-> & _ & _).
  destruct (decide (head = zeroIBRMD)); [done |].
  destruct (negb (mdID' =? mdID head)%N); [done |].
  unfold embedded. destruct (ibrmd head) as [md |]; [| done].
  unfold bind, lift.
  destruct (CodecEqual E md (MD rmds)) as [[|] | |]; [| done | done | done].
  cbn [negb]. unfold mdIDJournal_removeEarliest, logFault.
  destruct (fs_fault E _); [done |].
  destruct (ids (j s)) as [| id0 rest]; [done |].
  unfold os_Remove. destruct (fs_fault E (Remove mdID')); [by destruct rest |].
  destruct rest; cbn [mds set_j set_lastMdID];
    (destruct (mds s !! mdID') eqn:Hf; [| done]); intros [= <-]; by eauto.
Qed.

Lemma removeFlushedEntry_collects_content_file_witness :
  mds (fst (removeFlushedEntry Demo.E0 1%N 1%N Demo.id1
              (mkRMDS 9%N (bareMd (Demo.merged 1 0%N))) Demo.one))
  = delete Demo.id1 (mds Demo.one).
Proof.
  destruct (removeFlushedEntry Demo.E0 1%N 1%N Demo.id1
              (mkRMDS 9%N (bareMd (Demo.merged 1 0%N))) Demo.one)
    as [s' r] eqn:Hr.
  assert (r = OK tt) as -> by (vm_compute in Hr; by injection Hr as _ <-).
  cbn [fst].
  by destruct (removeFlushedEntry_collects_content_file Demo.E0 1%N 1%N
                 Demo.id1 (mkRMDS 9%N (bareMd (Demo.merged 1 0%N))) Demo.one s'
                 Hr) as (-> & _).
Defined.

(** X14: removeFlushedEntry with an MdID that is not the one the log gives
    as its earliest never succeeds and leaves the journal as it is. *)
Theorem removeFlushedEntry_rejects_other_id (E : Externals) (uid key mdID' : N)
    (rmds : RootMetadataSigned) (s : mdJournal) :
  mdID' <> hd zeroMdID (ids (j s)) ->
  fst (removeFlushedEntry E uid key mdID' rmds s) = s /\
  snd (removeFlushedEntry E uid key mdID' rmds s) <> OK tt.
Proof.
  intros Hne. unfold removeFlushedEntry. unfold bind at 1 3.
  pose proof (readOnly_getEarliest E uid key true s) as Hr.
  destruct (getEarliest E uid key true s) as [s1 [head | e | msg]] eqn:Hhead;
    simpl in Hr; subst s1; [| done | done].
  apply getEarliest_OK in Hhead as (_ & Hlog & _).
  destruct (decide (head = zeroIBRMD)); [done |].
  assert (mdID head = hd zeroMdID (ids (j s))) as Hhd.
  { unfold mdIDJournal_getEarliest, logFault in Hlog.
    destruct (fs_fault E _); by simplify_eq. }
  assert ((mdID' =? mdID head)%N = false) as ->
    by (apply N.eqb_neq; congruence).
  done.
Qed.

Lemma removeFlushedEntry_rejects_other_id_witness :
  fst (removeFlushedEntry Demo.E0 1%N 1%N Demo.id2
         (mkRMDS 9%N (bareMd (Demo.merged 2 Demo.id1))) Demo.two) = Demo.two /\
  snd (removeFlushedEntry Demo.E0 1%N 1%N Demo.id2
         (mkRMDS 9%N (bareMd (Demo.merged 2 Demo.id1))) Demo.two) <> OK tt.
Proof.
  apply (removeFlushedEntry_rejects_other_id Demo.E0 1%N 1%N Demo.id2
           (mkRMDS 9%N (bareMd (Demo.merged 2 Demo.id1))) Demo.two).
  by vm_compute.
Defined.

(** X15: removeFlushedEntry is not atomic.  When every check passes and the
    earliest entry is removed from the log, but the removal of the content
    file then fails, the error of the removal is returned although the
    entry is gone from the log (and lastMdID is set if the log became
    empty); the content store is untouched. *)
Theorem removeFlushedEntry_file_error_after_log (E : Externals) (uid key : N)
    (rmds : RootMetadataSigned) (s : mdJournal)
    (head : ImmutableBareRootMetadata) (md : BareRootMetadata)
    (l : mdIDJournal) (empty : bool) (e : error) :
  snd (getEarliest E uid key true s) = OK head ->
  ibrmd head = Some md ->
  CodecEqual E md (MD rmds) = OK true ->
  mdIDJournal_removeEarliest (fs_fault E) (j s) = OK (l, empty) ->
  fs_fault E (Remove (mdID head)) = Some e ->
  snd (removeFlushedEntry E uid key (mdID head) rmds s) = Err e /\
  j (fst (removeFlushedEntry E uid key (mdID head) rmds s)) = l /\
  ids l = tail (ids (j s)) /\
  (empty = true ->
   lastMdID (fst (removeFlushedEntry E uid key (mdID head) rmds s))
   = mdID head) /\
  mds (fst (removeFlushedEntry E uid key (mdID head) rmds s)) = mds s.
Proof.
  intros He Hmd Heq Hrm Hfault.
  rewrite (removeFlushedEntry_run E uid key rmds s head md l empty He Hmd Heq Hrm).
  unfold os_Remove. rewrite Hfault. cbn [fst snd].
  split; [done |]. split; [by destruct empty |]. split.
  - revert Hrm. unfold mdIDJournal_removeEarliest, logFault.
    destruct (fs_fault E (OrdinalLog (jdir (j s)) LogRemoveEarliest));
      [done |].
    destruct (ids (j s)); [done |]. by intros [= <- _].
  - split; [by intros -> | by destruct empty].
Qed.

Lemma removeFlushedEntry_file_error_after_log_witness :
  let E := Demo.externals
             (fun op => match op with
                        | Remove _ => Some (PathError EACCES)
                        | _ => None
                        end) true 7%N in
  snd (removeFlushedEntry E 1%N 1%N Demo.id1
         (mkRMDS 9%N (bareMd (Demo.merged 1 0%N))) Demo.one)
  = Err (PathError EACCES) /\
  ids (j (fst (removeFlushedEntry E 1%N 1%N Demo.id1
                 (mkRMDS 9%N (bareMd (Demo.merged 1 0%N))) Demo.one))) = [].
Proof.
  intros E.
  assert (exists head, snd (getEarliest E 1%N 1%N true Demo.one) = OK head /\
                       mdID head = Demo.id1 /\
                       ibrmd head = Some (bareMd (Demo.merged 1 0%N)))
    as (head & He & Hid & Hmd).
  { eexists. split; [by vm_compute |]. split; by vm_compute. }
  rewrite <- Hid.
  edestruct (removeFlushedEntry_file_error_after_log E 1%N 1%N
               (mkRMDS 9%N (bareMd (Demo.merged 1 0%N))) Demo.one head
               (bareMd (Demo.merged 1 0%N)))
    as (H1 & H2 & H3 & _);
    [exact He | exact Hmd | by vm_compute | by vm_compute | by vm_compute |].
  split; [exact H1 |]. rewrite H2, H3. by vm_compute.
Defined.

(** ** More on [convertToBranch] *)

Section ConvertMore.
Variable E : Externals.

(** One iteration of the loop, whatever its outcome: the log and the
    in-memory fields stay, the MD cache only shrinks, and when the iteration
    succeeds the key of the old merged revision is out of the cache. *)
Lemma convertEntry_frame uid key signer tlfID bid i prevID id s s1 r :
  convertEntry E uid key signer tlfID bid i prevID id s = (s1, r) ->
  j s1 = j s /\ branchID s1 = branchID s /\ lastMdID s1 = lastMdID s /\
  mdcache s1 ⊆ mdcache s /\
  (forall brmd newID, r = OK (brmd, newID) ->
     (tlfID, RevisionNumber brmd, NullBranchID) ∉ mdcache s1).
Proof.
  unfold convertEntry. unfold bind at 1.
  pose proof (readOnly_getMD E uid key id true s) as Hr.
  destruct (getMD E uid key id true s) as [s0 [[old ts] | e | msg]];
    simpl in Hr; subst s0; [| by intros [= <- <-] ..].
  destruct (isMutableBareRootMetadata E); [| by intros [= <- <-]].
  cbn [negb]. unfold bind at 1, mdcache_Delete, modify.
  set (s2 := set_mdcache _ s).
  assert (mdcache s2 ⊆ mdcache s) as Hsub
    by (subst s2; simpl; by apply subseteq_difference_l).
  assert ((tlfID, RevisionNumber old, NullBranchID) ∉ mdcache s2) as Hout.
  { subst s2. simpl. apply not_elem_of_difference. right.
    by apply elem_of_singleton. }
  unfold bind at 1, lift.
  destruct (GetSerializedWriterMetadata E _) as [wbuf | |];
    [| by intros [= <- <-] ..].
  unfold bind at 1.
  destruct (signer wbuf) as [sigInfo | |]; [| by intros [= <- <-] ..].
  set (new := if (0 <? i)%nat then _ else _).
  assert (RevisionNumber new = RevisionNumber old) as Hrev
    by (subst new; by destruct (0 <? i)%nat).
  unfold bind, ret.
  pose proof (keeps_putMD E (fun s => j s) uid key new (fun _ _ => eq_refl) s2) as Hj.
  pose proof (keeps_putMD E branchID uid key new (fun _ _ => eq_refl) s2) as Hb.
  pose proof (keeps_putMD E lastMdID uid key new (fun _ _ => eq_refl) s2) as Hl.
  pose proof (keeps_putMD E mdcache uid key new (fun _ _ => eq_refl) s2) as Hc.
  destruct (putMD E uid key new s2) as [s3 [id3 | |]]; simpl in Hj, Hb, Hl, Hc;
    intros [= <- <-]; rewrite Hc; repeat split; try done.
  intros brmd newID [= <- _]. by rewrite Hrev.
Qed.

(** The loop, whatever its outcome; and, when it succeeds, the temporary
    log it built and the keys it deleted from the MD cache. *)
Lemma convertLoop_frame uid key signer tlfID bid :
  forall allMdIDs i tmp prevID toRemove s s1 tmp' toRemove' r,
    convertLoop E uid key signer tlfID bid allMdIDs i tmp prevID toRemove s
    = (s1, (tmp', toRemove'), r) ->
    j s1 = j s /\ branchID s1 = branchID s /\ lastMdID s1 = lastMdID s /\
    mdcache s1 ⊆ mdcache s /\
    (r = OK tt ->
     List.length (ids tmp') = (List.length (ids tmp) + List.length allMdIDs)%nat /\
     jdir tmp' = jdir tmp /\
     (ids tmp <> [] \/ allMdIDs = [] ->
      earliestRevision tmp' = earliestRevision tmp) /\
     forall k, (k < List.length allMdIDs)%nat ->
       (tlfID,
        earliestRevision tmp' + Z.of_nat (List.length (ids tmp) + k),
        NullBranchID) ∉ mdcache s1).
Proof.
  induction allMdIDs as [| id rest IH];
    intros i tmp prevID toRemove s s1 tmp' toRemove' r; simpl.
  - intros [= <- <- <- <-].
    repeat split; first [done | lia | (intros k Hk; simpl in Hk; lia)].
  - destruct (convertEntry E uid key signer tlfID bid i prevID id s)
      as [s2 [[brmd newID] | e | msg]] eqn:Hentry;
      apply convertEntry_frame in Hentry as (Hj & Hb & Hl & Hc & Hout);
      [| by intros [= <- <- <- <-] ..].
    specialize (Hout brmd newID eq_refl).
    destruct (mdIDJournal_append (fs_fault E) (RevisionNumber brmd) newID tmp)
      as [tmp1 | e | msg] eqn:Happ; [| by intros [= <- <- <- <-] ..].
    pose proof (mdIDJournal_append_rev _ _ _ _ _ Happ) as Hr.
    apply mdIDJournal_append_OK in Happ as (_ & Hlen1 & He1 & Hids1 & Hdir1).
    intros Hloop.
    apply IH in Hloop as (Hj' & Hb' & Hl' & Hc' & Hok).
    split; [congruence |]. split; [congruence |]. split; [congruence |].
    split; [by trans (mdcache s2) |].
    intros Hr'. destruct (Hok Hr') as (Hlen & Hdir & Hearl & Hkeys).
    assert (earliestRevision tmp' = earliestRevision tmp1) as Heq.
    { apply Hearl. left. rewrite Hids1. by destruct (ids tmp). }
    split; [rewrite Hlen, Hlen1; lia |]. split; [congruence |].
    split; [intros [Hne | ?]; [rewrite Heq; by apply He1 | done] |].
    intros [| k] Hk.
    + rewrite Nat.add_0_r, Heq, <- Hr. intros Hin. apply Hout. by apply Hc'.
    + replace (List.length (ids tmp) + S k)%nat
        with (List.length (ids tmp1) + k)%nat by lia.
      apply Hkeys. lia.
Qed.
(** The part of [convertToBranch] after the deferred block is registered,
    whatever its outcome. *)
Lemma convertRewrite_frame uid key signer tlfID bid allMdIDs dir s s1 tr r :
  convertRewrite E uid key signer tlfID bid allMdIDs dir s = (s1, tr, r) ->
  lastMdID s1 = lastMdID s /\
  mdcache s1 ⊆ mdcache s /\
  ((forall b, r <> OK b) ->
   ids (j s1) = ids (j s) /\ earliestRevision (j s1) = earliestRevision (j s) /\
   branchID s1 = branchID s) /\
  (forall b, r = OK b ->
     b = bid /\ tr = allMdIDs /\ branchID s1 = bid /\
     jdir (j s1) = jdir (j s) /\
     List.length (ids (j s1)) = List.length allMdIDs /\
     forall k, (k < List.length allMdIDs)%nat ->
       (tlfID, earliestRevision (j s1) + Z.of_nat k, NullBranchID)
       ∉ mdcache s1).
Proof.
  unfold convertRewrite.
  destruct (convertLoop E uid key signer tlfID bid allMdIDs 0
              (makeMdIDJournal dir) zeroMdID [] s)
    as [[s0 [tmp' tr0]] r0] eqn:Hloop.
  apply convertLoop_frame in Hloop as (Hj & Hb & Hl & Hc & Hok).
  destruct r0 as [[] | e | msg];
    [| intros [= <- <- <-]; repeat split; done || congruence ..].
  destruct (Hok eq_refl) as (Hlen & _ & _ & Hkeys).
  unfold mdIDJournal_move, logFault.
  destruct (fs_fault E (OrdinalLog (jdir (j s0)) LogMove)).
  { intros [= <- <- <-]. repeat split; done || congruence. }
  destruct (fs_fault E (OrdinalLog (jdir tmp') LogMove)).
  { intros [= <- <- <-]. cbn [j set_j ids earliestRevision lastMdID mdcache
                             branchID].
    repeat split; done || congruence. }
  intros [= <- <- <-].
  cbn [j set_j set_branchID ids earliestRevision lastMdID mdcache branchID jdir].
  split; [done |]. split; [done |]. split; [intros Hno; by elim (Hno bid) |].
  intros b [= <-]. repeat split; try done; try congruence.
Qed.

Lemma removeMDs_mdcache (l : list N) (s : mdJournal) :
  mdcache (removeMDs E l s) = mdcache s /\
  (forall id, mds s !! id = None -> mds (removeMDs E l s) !! id = None) /\
  (forall id, id ∈ l -> fs_fault E (Remove id) = None ->
              mds (removeMDs E l s) !! id = None).
Proof.
  unfold removeMDs. revert s.
  induction l as [| a l IH]; intros s; simpl.
  { repeat split; try done. intros id Hin. by apply elem_of_nil in Hin. }
  destruct (IH (os_Remove E a s).1) as (Hc & Hnone & Hrem).
  assert (mdcache (os_Remove E a s).1 = mdcache s /\
          (forall id, mds s !! id = None -> mds (os_Remove E a s).1 !! id = None) /\
          (fs_fault E (Remove a) = None -> mds (os_Remove E a s).1 !! a = None))
    as (Hc1 & Hnone1 & Hrem1).
  { unfold os_Remove. destruct (fs_fault E (Remove a)); [done |].
    destruct (mds s !! a) eqn:Hf; simpl; repeat split; try done.
    - intros id Hid. destruct (decide (a = id)) as [<- | Hne]; [congruence |].
      by rewrite lookup_delete_ne.
    - intros _. by rewrite lookup_delete_eq. }
  split; [congruence |]. split; [intros id Hid; by apply Hnone, Hnone1 |].
  intros id Hin Hf. apply elem_of_cons in Hin as [-> | Hin].
  - by apply Hnone, Hrem1.
  - by apply Hrem.
Qed.

(** [convertToBranch] either fails before the deferred block is registered,
    with the journal as it was, or runs the rewrite and then the deferred
    block. *)
Lemma convertToBranch_cases uid key signer tlfID s s' r :
  convertToBranch E uid key signer tlfID s = (s', r) ->
  (s' = s /\ forall b, r <> OK b) \/
  exists bid dir s1 tr,
    branchID s = NullBranchID /\
    crypto_MakeRandomBranchID E = OK bid /\
    (forall op, In op [LogReadEarliestRevision; LogReadLatestRevision;
                       LogGetRange] ->
                fs_fault E (OrdinalLog (jdir (j s)) op) = None) /\
    convertRewrite E uid key signer tlfID bid (ids (j s)) dir s = (s1, tr, r) /\
    s' = removeMDs E tr s1.
Proof.
  unfold convertToBranch. unfold bind at 1, get.
  destruct (branchID s =? NullBranchID)%N eqn:Hb;
    [| intros [= <- <-]; by left].
  apply N.eqb_eq in Hb. cbn [negb].
  unfold bind at 1, jread.
  destruct (mdIDJournal_readEarliestRevision (fs_fault E) (j s))
    as [e | |] eqn:He; [| intros [= <- <-]; by left ..].
  unfold bind at 1.
  destruct (mdIDJournal_readLatestRevision (fs_fault E) (j s))
    as [la | |] eqn:Hla; [| intros [= <- <-]; by left ..].
  unfold bind at 1.
  destruct (mdIDJournal_getRange (fs_fault E) e la (j s))
    as [[realStart allMdIDs] | |] eqn:Hr; [| intros [= <- <-]; by left ..].
  assert (forall op, In op [LogReadEarliestRevision; LogReadLatestRevision;
                            LogGetRange] ->
                     fs_fault E (OrdinalLog (jdir (j s)) op) = None) as Hf.
  { revert He Hla Hr.
    unfold mdIDJournal_readEarliestRevision, mdIDJournal_readLatestRevision,
      mdIDJournal_getRange, logFault.
    destruct (fs_fault E (OrdinalLog (jdir (j s)) LogReadEarliestRevision))
      eqn:H1; [done |].
    destruct (fs_fault E (OrdinalLog (jdir (j s)) LogReadLatestRevision))
      eqn:H2; [done |].
    destruct (fs_fault E (OrdinalLog (jdir (j s)) LogGetRange)) eqn:H3;
      [done |].
    intros _ _ _ op [<- | [<- | [<- | []]]]; done. }
  apply (mdIDJournal_getRange_all _ _ _ _ _ He Hla) in Hr. simpl in Hr.
  subst allMdIDs.
  unfold bind at 1, lift.
  destruct (crypto_MakeRandomBranchID E) as [bid | |];
    [| intros [= <- <-]; by left ..].
  unfold bind, ioutil_TempDir.
  destruct (fs_fault E TempDir); [intros [= <- <-]; by left |].
  destruct (convertRewrite E uid key signer tlfID bid (ids (j s))
              (fs_tempName E) s) as [[s1 tr] r1] eqn:Hrw.
  intros [= <- <-]. right. by exists bid, (fs_tempName E), s1, tr.
Qed.
End ConvertMore.

(** X16: a convertToBranch that does not succeed leaves the entries of the
    ordinal log, branchID and lastMdID as they were, wherever it fails; the
    MD cache can only have lost keys. *)
Theorem convertToBranch_failure_rolls_back (E : Externals) (uid key : N)
    (signer : list Byte.byte -> result N) (tlfID : N) (s s' : mdJournal)
    (r : result N) :
  convertToBranch E uid key signer tlfID s = (s', r) ->
  (forall bid, r <> OK bid) ->
  ids (j s') = ids (j s) /\
  earliestRevision (j s') = earliestRevision (j s) /\
  branchID s' = branchID s /\
  lastMdID s' = lastMdID s /\
  mdcache s' ⊆ mdcache s.
Proof.
  intros Hconv Hfail.
  apply convertToBranch_cases in Hconv
    as [[-> _] | (bid & dir & s1 & tr & _ & _ & _ & Hrw & ->)]; [done |].
  apply convertRewrite_frame in Hrw as (Hl & Hc & Hno & _).
  destruct (Hno Hfail) as (Hids & He & Hb).
  destruct (removeMDs_frame E tr s1) as (Hj' & Hb' & Hl' & _).
  destruct (removeMDs_mdcache E tr s1) as (Hc' & _).
  rewrite Hj', Hb', Hl', Hc'. by repeat split.
Qed.

Lemma convertToBranch_failure_rolls_back_witness :
  let E := Demo.externals
             (fun op => match op with
                        | WriteFile _ => Some (PathError ENOSPC)
                        | _ => None
                        end) true 7%N in
  snd (convertToBranch E 1%N 1%N Demo.signer 1%N Demo.two)
  = Err (PathError ENOSPC) /\
  ids (j (fst (convertToBranch E 1%N 1%N Demo.signer 1%N Demo.two)))
  = ids (j Demo.two) /\
  branchID (fst (convertToBranch E 1%N 1%N Demo.signer 1%N Demo.two))
  = branchID Demo.two.
Proof.
  intros E.
  destruct (convertToBranch E 1%N 1%N Demo.signer 1%N Demo.two) as [s' r] eqn:Hc.
  assert (r = Err (PathError ENOSPC)) as Hr
    by (vm_compute in Hc; by injection Hc as _ <-).
  destruct (convertToBranch_failure_rolls_back E 1%N 1%N Demo.signer 1%N
              Demo.two s' r Hc) as (Hids & _ & Hb & _).
  { intros bid. by rewrite Hr. }
  cbn [fst snd]. split; [exact Hr |]. split; [exact Hids | exact Hb].
Defined.

(** X17: converting an empty journal on the trunk, absent I/O errors, puts
    it on the random branch with an empty log and touches nothing else. *)
Theorem convertToBranch_empty (E : Externals) (uid key : N)
    (signer : list Byte.byte -> result N) (tlfID : N) (s : mdJournal)
    (bid : N) :
  ids (j s) = [] ->
  branchID s = NullBranchID ->
  crypto_MakeRandomBranchID E = OK bid ->
  (forall op, fs_fault E op = None) ->
  convertToBranch E uid key signer tlfID s
  = (mkMdJournal
       (mkMdIDJournal (jdir (j s)) MetadataRevisionUninitialized [])
       bid (lastMdID s) (mds s) (mdcache s),
     OK bid).
Proof.
  intros Hnil Hb Hbid Hf.
  unfold convertToBranch. unfold bind at 1, get. rewrite Hb, N.eqb_refl.
  cbn [negb].
  unfold bind at 1, jread, mdIDJournal_readEarliestRevision, logFault.
  rewrite Hf, Hnil.
  unfold bind at 1, mdIDJournal_readLatestRevision, logFault.
  rewrite Hf, Hnil.
  unfold bind at 1, mdIDJournal_getRange, logFault. rewrite Hf, Hnil.
  unfold bind at 1, lift. rewrite Hbid.
  unfold bind, ioutil_TempDir. rewrite Hf.
  unfold convertRewrite. cbn [convertLoop].
  unfold mdIDJournal_move, logFault. rewrite !Hf.
  by destruct s.
Qed.

Lemma convertToBranch_empty_witness :
  convertToBranch Demo.E0 1%N 1%N Demo.signer 1%N Demo.empty
  = (mkMdJournal
       (mkMdIDJournal (jdir (j Demo.empty)) MetadataRevisionUninitialized [])
       7%N (lastMdID Demo.empty) (mds Demo.empty) (mdcache Demo.empty),
     OK 7%N).
Proof.
  apply (convertToBranch_empty Demo.E0 1%N 1%N Demo.signer 1%N Demo.empty 7%N);
    reflexivity.
Defined.

(** X18: after a successful convertToBranch the content file of every old
    MdID whose removal met no I/O error is gone from the content store. *)
Theorem convertToBranch_collects_old_files (E : Externals) (uid key : N)
    (signer : list Byte.byte -> result N) (tlfID : N) (s s' : mdJournal)
    (bid old : N) :
  convertToBranch E uid key signer tlfID s = (s', OK bid) ->
  old ∈ ids (j s) ->
  fs_fault E (Remove old) = None ->
  mds s' !! old = None.
Proof.
  intros Hconv Hin Hf.
  apply convertToBranch_cases in Hconv
    as [[_ Hno] | (bid' & dir & s1 & tr & _ & _ & _ & Hrw & ->)];
    [by elim (Hno bid) |].
  apply convertRewrite_frame in Hrw as (_ & _ & _ & Hok).
  destruct (Hok bid eq_refl) as (_ & -> & _).
  by apply removeMDs_mdcache.
Qed.

Lemma convertToBranch_collects_old_files_witness :
  mds Demo.branched !! Demo.id1 = None.
Proof.
  apply (convertToBranch_collects_old_files Demo.E0 1%N 1%N Demo.signer 1%N
           Demo.two Demo.branched 7%N Demo.id1).
  - by vm_compute.
  - assert (ids (j Demo.two) = [Demo.id1; Demo.id2]) as -> by (by vm_compute).
    apply elem_of_cons. by left.
  - reflexivity.
Defined.

(** X19: after a successful convertToBranch on the folder tlfID, the MD
    cache holds no merged key (tlfID, revision, NULL_BID) for any revision
    of the converted log, and no key it did not hold before; the log has as
    many entries as before, in the same directory, and lastMdID is as
    before. *)
Theorem convertToBranch_evicts_merged (E : Externals) (uid key : N)
    (signer : list Byte.byte -> result N) (tlfID : N) (s s' : mdJournal)
    (bid : N) :
  convertToBranch E uid key signer tlfID s = (s', OK bid) ->
  mdcache s' ⊆ mdcache s /\
  (forall k : nat,
     (k < List.length (ids (j s')))%nat ->
     (tlfID, earliestRevision (j s') + Z.of_nat k, NullBranchID) ∉ mdcache s') /\
  List.length (ids (j s')) = List.length (ids (j s)) /\
  jdir (j s') = jdir (j s) /\
  lastMdID s' = lastMdID s.
Proof.
  intros Hconv.
  apply convertToBranch_cases in Hconv
    as [[_ Hno] | (bid' & dir & s1 & tr & _ & _ & _ & Hrw & ->)];
    [by elim (Hno bid) |].
  apply convertRewrite_frame in Hrw as (Hl & Hc & _ & Hok).
  destruct (Hok bid eq_refl) as (_ & _ & _ & Hdir & Hlen & Hkeys).
  destruct (removeMDs_frame E tr s1) as (Hj' & _ & Hl' & _).
  destruct (removeMDs_mdcache E tr s1) as (Hc' & _).
  rewrite Hj', Hl', Hc'. repeat split; try done.
  intros k Hk. apply Hkeys. by rewrite <- Hlen.
Qed.

Lemma convertToBranch_evicts_merged_witness :
  ((1%N, 1, NullBranchID)
   ∉ mdcache (fst (convertToBranch Demo.E0 1%N 1%N Demo.signer 1%N cachedTwo))) /\
  ((1%N, 2, NullBranchID)
   ∉ mdcache (fst (convertToBranch Demo.E0 1%N 1%N Demo.signer 1%N cachedTwo))).
Proof.
  destruct (convertToBranch Demo.E0 1%N 1%N Demo.signer 1%N cachedTwo)
    as [s' r] eqn:Hc.
  assert (r = OK 7%N) as -> by (vm_compute in Hc; by injection Hc as _ <-).
  destruct (convertToBranch_evicts_merged Demo.E0 1%N 1%N Demo.signer 1%N
              cachedTwo s' 7%N Hc) as (_ & Hkeys & Hlen & _).
  assert (earliestRevision (j s') = 1) as He
    by (vm_compute in Hc; by injection Hc as <-).
  assert (List.length (ids (j s')) = 2%nat) as Hl by (by rewrite Hlen).
  rewrite Hl, He in Hkeys. cbn [fst]. split.
  - apply (Hkeys 0%nat). lia.
  - apply (Hkeys 1%nat). lia.
Defined.

(** ** More on [clear] *)

(** The loop of [clear], when it succeeds, removed every listed content
    file and no other. *)
Lemma clearLoop_OK (E : Externals) (allMdIDs : list N) :
  forall s s', clearLoop E allMdIDs s = (s', OK tt) ->
    (forall id, id ∈ allMdIDs -> mds s' !! id = None) /\
    (forall id, id ∉ allMdIDs -> mds s' !! id = mds s !! id) /\
    (forall id, mds s !! id = None -> mds s' !! id = None).
Proof.
  induction allMdIDs as [| a rest IH]; intros s s'; simpl.
  - unfold ret. intros [= <-]. repeat split; try done.
    intros id Hin. by apply elem_of_nil in Hin.
  - unfold bind, os_Remove.
    destruct (fs_fault E (Remove a)); [done |].
    destruct (mds s !! a) eqn:Hf; [| done].
    intros Hloop. apply IH in Hloop as (Hin & Hout & Hnone).
    cbn [mds set_mds] in Hout, Hnone. repeat split.
    + intros id Hid. apply elem_of_cons in Hid as [-> | Hid]; [| by apply Hin].
      apply Hnone. by rewrite lookup_delete_eq.
    + intros id Hid. apply not_elem_of_cons in Hid as [Hne Hid].
      rewrite Hout by done. by rewrite lookup_delete_ne.
    + intros id Hid. apply Hnone.
      destruct (decide (a = id)) as [<- | Hne]; [congruence |].
      by rewrite lookup_delete_ne.
Qed.

(** X20: when clear of the current branch runs to its end without error
    (the head is read and exists, the log answers the range and is
    truncated, every content file is removed), the content files of all the
    entries of the log are gone from the content store and the other
    content files are as they were. *)
Theorem clear_collects_content_files (E : Externals) (uid key bid extra : N)
    (s s' : mdJournal) (head : ImmutableBareRootMetadata)
    (md : BareRootMetadata) :
  bid <> NullBranchID ->
  snd (getHead E uid key extra s) = OK head ->
  ibrmd head = Some md ->
  BID md = bid ->
  (forall op,
     In op [LogReadEarliestRevision; LogReadLatestRevision; LogGetRange;
            LogClear] ->
     fs_fault E (OrdinalLog (jdir (j s)) op) = None) ->
  clear E uid key bid extra s = (s', OK tt) ->
  (forall id, id ∈ ids (j s) -> mds s' !! id = None) /\
  (forall id, id ∉ ids (j s) -> mds s' !! id = mds s !! id).
Proof.
  intros Hbid Hhead Hmd Hb Hf.
  apply readOnly_run in Hhead; [| apply readOnly_getHead].
  unfold clear. apply N.eqb_neq in Hbid. rewrite Hbid.
  unfold bind at 1. rewrite Hhead.
  destruct (decide (head = zeroIBRMD)) as [-> | _]; [done |].
  unfold embedded. rewrite Hmd, Hb, N.eqb_refl. cbn [negb].
  unfold bind, jread, modify, mdIDJournal_readEarliestRevision,
    mdIDJournal_readLatestRevision, mdIDJournal_getRange, mdIDJournal_clear,
    logFault.
  rewrite !Hf by (simpl; tauto).
  destruct (ids (j s)) as [| a rest] eqn:Hids.
  - cbv beta iota. rewrite Hf by (simpl; tauto). cbn [clearLoop]. unfold ret.
    intros [= <-]. split; [| done].
    intros id Hin. by apply elem_of_nil in Hin.
  - rewrite Z.max_id, Z.min_id. unfold latestRevision. rewrite Hids.
    replace (Z.to_nat (earliestRevision (j s) - earliestRevision (j s)))
      with 0%nat by lia.
    rewrite drop_0, take_ge by (simpl; lia).
    cbv beta iota. rewrite Hf by (simpl; tauto).
    intros Hloop. apply clearLoop_OK in Hloop as (Hin & Hout & _).
    split; [done |]. intros id Hid. by rewrite Hout.
Qed.

Lemma clear_collects_content_files_witness :
  exists a b,
    ids (j Demo.branched) = [a; b] /\
    mds (fst (clear Demo.E0 1%N 1%N 7%N 0%N Demo.branched)) !! a = None /\
    mds (fst (clear Demo.E0 1%N 1%N 7%N 0%N Demo.branched)) !! b = None.
Proof.
  destruct (clear Demo.E0 1%N 1%N 7%N 0%N Demo.branched) as [s' r] eqn:Hc.
  assert (r = OK tt) as -> by (vm_compute in Hc; by injection Hc as _ <-).
  assert (exists head md,
            snd (getHead Demo.E0 1%N 1%N 0%N Demo.branched) = OK head /\
            ibrmd head = Some md /\ BID md = 7%N) as (head & md & Hh & Hmd & Hb).
  { do 2 eexists. split; [by vm_compute |]. split; by vm_compute. }
  pose proof (clear_collects_content_files Demo.E0 1%N 1%N 7%N 0%N
                Demo.branched s' head md) as H.
  assert (7%N <> NullBranchID) as Hbid by done.
  specialize (H Hbid Hh Hmd Hb).
  assert (forall op : LogOp,
            In op [LogReadEarliestRevision; LogReadLatestRevision; LogGetRange;
                   LogClear] ->
            fs_fault Demo.E0 (OrdinalLog (jdir (j Demo.branched)) op) = None)
    as Hf by (intros op _; reflexivity).
  specialize (H Hf Hc). destruct H as [Hin _].
  assert (exists a b, ids (j Demo.branched) = [a; b]) as (a & b & Hids)
    by (do 2 eexists; vm_compute; reflexivity).
  exists a, b. cbn [fst]. split; [exact Hids |].
  split; apply Hin; rewrite Hids, ?elem_of_cons; auto.
Defined.

(** ** Opening the journal *)

Section Open.
Variable E : Externals.

(** [getMD] succeeds exactly when the file is there and readable and every
    check passes. *)
Lemma getMD_OK_iff uid key id verify s md ts :
  getMD E uid key id verify s = (s, OK (md, ts)) <->
  fs_fault E (ReadFile id) = None /\ fs_fault E (Stat id) = None /\
  (exists f, mds s !! id = Some f /\ codec_Decode E (fdata f) = OK md /\
             ts = fmodTime f) /\
  crypto_MakeMdID E md = OK id /\
  IsLastModifiedBy E uid key md = OK tt /\
  IsValidAndSigned E md = OK tt /\
  (verify = true -> BID md = branchID s).
Proof.
  split.
  - unfold getMD, bind, lift, fail, get, ret, ioutil_ReadFile, os_Stat.
    destruct (fs_fault E (ReadFile id)) eqn:Hr; [done |].
    destruct (mds s !! id) as [f |] eqn:Hf; [| done].
    destruct (codec_Decode E (fdata f)) as [md' | |] eqn:Hd; [| done | done].
    destruct (crypto_MakeMdID E md') as [id' | |] eqn:Hm; [| done | done].
    destruct (id' =? id)%N eqn:Hid; [| done]. apply N.eqb_eq in Hid. subst id'.
    cbn [negb].
    destruct (IsLastModifiedBy E uid key md') as [[] | |] eqn:Hl; [| done | done].
    destruct (IsValidAndSigned E md') as [[] | |] eqn:Hs; [| done | done].
    destruct (verify && negb (BID md' =? branchID s)%N) eqn:Hv; [done |].
    destruct (fs_fault E (Stat id)) eqn:Hst; [done |].
    rewrite Hf. intros [= <- <-]. repeat split; try done; [by exists f |].
    intros ->. simpl in Hv. by apply negb_false_iff, N.eqb_eq in Hv.
  - intros (Hr & Hs & (f & Hf & Hd & ->) & Hid & Hl & Hv & Hb).
    unfold getMD, bind, lift, fail, get, ret, ioutil_ReadFile, os_Stat.
    rewrite Hr, Hf, Hd, Hid, N.eqb_refl, Hl, Hv, Hs. cbn [negb].
    destruct verify; cbn [andb]; [rewrite (Hb eq_refl), N.eqb_refl |];
      cbn [negb]; by rewrite Hf.
Qed.

(** Metadata read without the branch check is read again, with it, from any
    journal with the same content store that is on its branch. *)
Lemma getMD_reverify uid key id verify s0 s1 md ts :
  getMD E uid key id verify s0 = (s0, OK (md, ts)) ->
  mds s1 = mds s0 ->
  BID md = branchID s1 ->
  getMD E uid key id true s1 = (s1, OK (md, ts)).
Proof.
  intros H Hm Hb. apply getMD_OK_iff in H as (Hr & Hs & Hf & Hid & Hl & Hv & _).
  apply getMD_OK_iff. rewrite Hm. by repeat split.
Qed.

Lemma getMD_unverified uid key id verify s0 s1 md ts :
  getMD E uid key id verify s0 = (s0, OK (md, ts)) ->
  mds s1 = mds s0 ->
  getMD E uid key id false s1 = (s1, OK (md, ts)).
Proof.
  intros H Hm. apply getMD_OK_iff in H as (Hr & Hs & Hf & Hid & Hl & Hv & _).
  apply getMD_OK_iff. rewrite Hm. by repeat split.
Qed.

(** An endpoint read by [getLatest] from one journal is read again from any
    journal with the same log and content store, with the branch check if
    the journal is on the branch of the endpoint. *)
Lemma getLatest_transfer uid key verify verify' s0 s1 head :
  getLatest E uid key verify s0 = (s0, OK head) ->
  j s1 = j s0 -> mds s1 = mds s0 ->
  (verify' = true -> forall md, ibrmd head = Some md -> BID md = branchID s1) ->
  getLatest E uid key verify' s1 = (s1, OK head).
Proof.
  intros H Hj Hm Hb.
  apply getLatest_OK in H as (_ & Hlog & Hcases).
  unfold getLatest, bind, jread. rewrite Hj, Hlog.
  destruct Hcases as [[-> _] | (md & Hmd & Hne & Hg)]; [done |].
  apply N.eqb_neq in Hne. rewrite Hne.
  assert (getMD E uid key (mdID head) verify' s1
          = (s1, OK (md, localTimestamp head))) as ->.
  { destruct verify'.
    - eapply getMD_reverify; [done | done |]. by apply Hb.
    - by eapply getMD_unverified. }
  unfold lift, MakeImmutableBareRootMetadata. rewrite Hne.
  by destruct head; simpl in *; subst.
Qed.

Lemma getEarliest_transfer uid key verify verify' s0 s1 head :
  getEarliest E uid key verify s0 = (s0, OK head) ->
  j s1 = j s0 -> mds s1 = mds s0 ->
  (verify' = true -> forall md, ibrmd head = Some md -> BID md = branchID s1) ->
  getEarliest E uid key verify' s1 = (s1, OK head).
Proof.
  intros H Hj Hm Hb.
  apply getEarliest_OK in H as (_ & Hlog & Hcases).
  unfold getEarliest, bind, jread. rewrite Hj, Hlog.
  destruct Hcases as [[-> _] | (md & Hmd & Hne & Hg)]; [done |].
  apply N.eqb_neq in Hne. rewrite Hne.
  assert (getMD E uid key (mdID head) verify' s1
          = (s1, OK (md, localTimestamp head))) as ->.
  { destruct verify'.
    - eapply getMD_reverify; [done | done |]. by apply Hb.
    - by eapply getMD_unverified. }
  unfold lift, MakeImmutableBareRootMetadata. rewrite Hne.
  by destruct head; simpl in *; subst.
Qed.

(** What a successful [makeMDJournal] read and decided. *)
Lemma makeMDJournal_OK uid key log files cache s' :
  makeMDJournal E uid key log files cache = OK s' ->
  let journal := mkMdJournal log NullBranchID zeroMdID files cache in
  exists earliest latest,
    getEarliest E uid key false journal = (journal, OK earliest) /\
    getLatest E uid key false journal = (journal, OK latest) /\
    ((earliest = zeroIBRMD /\ latest = zeroIBRMD /\ s' = journal) \/
     (exists e l, ibrmd earliest = Some e /\ ibrmd latest = Some l /\
        BID e = BID l /\ s' = set_branchID (BID e) journal)).
Proof.
  intros H journal. revert H. unfold makeMDJournal. fold journal. cbv zeta.
  unfold bind at 1.
  pose proof (readOnly_getEarliest E uid key false journal) as Hre.
  destruct (getEarliest E uid key false journal) as [s0 [earliest | |]] eqn:He;
    simpl in Hre; subst s0; [| done | done].
  unfold bind at 1.
  pose proof (readOnly_getLatest E uid key false journal) as Hrl.
  destruct (getLatest E uid key false journal) as [s0 [latest | |]] eqn:Hl;
    simpl in Hrl; subst s0; [| done | done].
  exists earliest, latest. split; [done |]. split; [done |]. revert H.
  destruct (negb (eqb _ _)) eqn:Hsame; [done |].
  apply negb_false_iff, eqb_prop in Hsame.
  destruct (decide (earliest <> zeroIBRMD)) as [Hnz | Hz].
  - unfold embedded. destruct (ibrmd earliest) as [e |]; [| done].
    destruct (ibrmd latest) as [l |]; [| done].
    destruct (negb (BID e =? BID l)%N) eqn:Hb; [done |].
    apply negb_false_iff, N.eqb_eq in Hb.
    unfold modify. intros [= <-]. right. by exists e, l.
  - unfold ret. intros [= <-]. left.
    assert (earliest = zeroIBRMD) as -> by (by destruct (decide (earliest = zeroIBRMD))).
    rewrite bool_decide_eq_true_2 in Hsame by done. symmetry in Hsame.
    by apply bool_decide_eq_true in Hsame.
Qed.
End Open.

(** X21: a journal that [makeMDJournal] opens holds the log, the content
    store and the cache it was given and no remembered MdID; the verified
    reads of its two endpoints succeed, both endpoints are on the branch the
    journal adopted, and a journal without an earliest entry is on the
    trunk. *)
Theorem makeMDJournal_adopts_stored_branch (E : Externals) (uid key : N)
    (log : mdIDJournal) (files : gmap N File) (cache : gset (N * Z * N))
    (s' : mdJournal) :
  makeMDJournal E uid key log files cache = OK s' ->
  j s' = log /\ mds s' = files /\ mdcache s' = cache /\
  lastMdID s' = zeroMdID /\
  exists earliest latest,
    getEarliest E uid key true s' = (s', OK earliest) /\
    getLatest E uid key true s' = (s', OK latest) /\
    (earliest = zeroIBRMD <-> latest = zeroIBRMD) /\
    (earliest = zeroIBRMD -> branchID s' = NullBranchID) /\
    (forall md, ibrmd earliest = Some md -> BID md = branchID s') /\
    (forall md, ibrmd latest = Some md -> BID md = branchID s').
Proof.
  intros H. apply makeMDJournal_OK in H as (earliest & latest & He & Hl & Hc).
  destruct Hc as [(-> & -> & ->) | (e & l & Hie & Hil & Hb & ->)].
  - repeat split; try done. exists zeroIBRMD, zeroIBRMD.
    split; [by eapply getEarliest_transfer |].
    split; [by eapply getLatest_transfer |]. done.
  - repeat split; try done. exists earliest, latest.
    split.
    { eapply getEarliest_transfer; [exact He | done | done |].
      intros _ md Hmd. rewrite Hie in Hmd. by simplify_eq. }
    split.
    { eapply getLatest_transfer; [exact Hl | done | done |].
      intros _ md Hmd. rewrite Hil in Hmd. simplify_eq. done. }
    split; [split; intros ->; done |].
    split; [by intros -> |].
    split; intros md Hmd; [rewrite Hie in Hmd | rewrite Hil in Hmd];
      by simplify_eq.
Qed.

Lemma makeMDJournal_adopts_stored_branch_witness :
  exists s',
    makeMDJournal Demo.E0 1%N 1%N (j Demo.branched) (mds Demo.branched) ∅
    = OK s' /\
    branchID s' = 7%N /\ lastMdID s' = zeroMdID.
Proof.
  destruct (makeMDJournal Demo.E0 1%N 1%N (j Demo.branched) (mds Demo.branched) ∅)
    as [s' | e | msg] eqn:Hm; [| by vm_compute in Hm | by vm_compute in Hm].
  destruct (makeMDJournal_adopts_stored_branch Demo.E0 1%N 1%N _ _ _ s' Hm)
    as (_ & _ & _ & Hlast & _).
  exists s'. split; [done |]. split; [| done].
  vm_compute in Hm. by simplify_eq.
Defined.

(** X22: reopening a running journal whose verified head read succeeds and
    finds an entry recovers the branch of the journal from the entries: the
    journal that [makeMDJournal] builds from the same log and content store
    is on the same branch, and it has forgotten the remembered MdID. *)
Theorem makeMDJournal_restart_recovers_branch (E : Externals) (uid key : N)
    (s s' : mdJournal) (head : ImmutableBareRootMetadata)
    (cache : gset (N * Z * N)) :
  getLatest E uid key true s = (s, OK head) ->
  head <> zeroIBRMD ->
  makeMDJournal E uid key (j s) (mds s) cache = OK s' ->
  branchID s' = branchID s /\ j s' = j s /\ mds s' = mds s /\
  lastMdID s' = zeroMdID /\
  getLatest E uid key true s' = (s', OK head).
Proof.
  intros Hhead Hnz H.
  apply makeMDJournal_OK in H as (earliest & latest & He & Hl & Hc).
  assert (latest = head) as ->.
  { pose proof (getLatest_transfer E uid key true false s
                  (mkMdJournal (j s) NullBranchID zeroMdID (mds s) cache) head
                  Hhead eq_refl eq_refl) as Hu.
    rewrite Hl in Hu. specialize (Hu ltac:(done)). by simplify_eq. }
  destruct Hc as [(_ & -> & _) | (e & l & Hie & Hil & Hb & ->)]; [done |].
  pose proof Hhead as Hhead'.
  apply getLatest_OK in Hhead' as (_ & _ & [[-> _] | (md & Hmd & _ & Hg)]);
    [done |].
  apply getMD_OK in Hg as (_ & _ & _ & _ & _ & _ & Hbid).
  specialize (Hbid eq_refl). rewrite Hil in Hmd. simplify_eq.
  assert (branchID (set_branchID (BID e)
            (mkMdJournal (j s) NullBranchID zeroMdID (mds s) cache))
          = branchID s) as Hbr by (simpl; congruence).
  repeat split; try done.
  eapply getLatest_transfer; [exact Hhead | done | done |].
  intros _ md' Hmd'. rewrite Hil in Hmd'. simplify_eq. by rewrite Hbr.
Qed.

Lemma makeMDJournal_restart_recovers_branch_witness :
  exists s',
    makeMDJournal Demo.E0 1%N 1%N (j Demo.branched) (mds Demo.branched) ∅
    = OK s' /\
    branchID s' = branchID Demo.branched.
Proof.
  destruct (getLatest Demo.E0 1%N 1%N true Demo.branched)
    as [s0 [head | e | msg]] eqn:Hg;
    [| by vm_compute in Hg | by vm_compute in Hg].
  assert (s0 = Demo.branched) as ->.
  { pose proof (readOnly_getLatest Demo.E0 1%N 1%N true Demo.branched) as Hr.
    rewrite Hg in Hr. done. }
  destruct (makeMDJournal Demo.E0 1%N 1%N (j Demo.branched) (mds Demo.branched) ∅)
    as [s' | e | msg] eqn:Hm; [| by vm_compute in Hm | by vm_compute in Hm].
  exists s'. split; [done |].
  eapply (makeMDJournal_restart_recovers_branch Demo.E0 1%N 1%N
            Demo.branched s' head ∅); [exact Hg | | exact Hm].
  intros ->. apply (f_equal snd) in Hg. vm_compute in Hg. discriminate Hg.
Defined.

(** ** The remembered MdID *)

Lemma preserves_readOnly {A} (P : mdJournal -> Prop) (m : M A) :
  readOnly m -> preserves P m.
Proof. intros Hm s Hs. by rewrite Hm. Qed.

Lemma preserves_bind {A B} (P : mdJournal -> Prop) (m : M A) (k : A -> M B) :
  preserves P m -> (forall a, preserves P (k a)) -> preserves P (bind m k).
Proof.
  intros Hm Hk s Hs. unfold bind. specialize (Hm s Hs).
  destruct (m s) as [s1 [a | e | msg]]; simpl in *; [| done | done].
  by apply Hk.
Qed.

Lemma preserves_keeps {A} (m : M A) :
  keeps j m -> keeps lastMdID m -> preserves lastMdIDOnlyWhenEmpty m.
Proof.
  intros Hj Hl s Hs. unfold lastMdIDOnlyWhenEmpty. by rewrite Hj, Hl.
Qed.

Section Remembered.
Variable E : Externals.

Lemma preserves_removeFlushedEntry uid key mdID' rmds :
  preserves lastMdIDOnlyWhenEmpty (removeFlushedEntry E uid key mdID' rmds).
Proof.
  unfold removeFlushedEntry.
  apply preserves_bind; [apply preserves_readOnly, readOnly_getEarliest |].
  intros head. destruct (decide (head = zeroIBRMD));
    [apply preserves_readOnly; auto with readonly |].
  destruct (negb (mdID' =? mdID head)%N);
    [apply preserves_readOnly; auto with readonly |].
  unfold embedded. destruct (ibrmd head) as [md |];
    [| apply preserves_readOnly; auto with readonly].
  apply preserves_bind; [apply preserves_readOnly; auto with readonly |].
  intros eq. destruct (negb eq);
    [apply preserves_readOnly; auto with readonly |].
  intros s Hs.
  unfold mdIDJournal_removeEarliest, logFault.
  destruct (fs_fault E (OrdinalLog (jdir (j s)) LogRemoveEarliest)); [done |].
  destruct (ids (j s)) as [| a rest] eqn:Hids; [done |].
  cbv beta iota zeta.
  apply (preserves_keeps (os_Remove E mdID')).
  - by apply keeps_os_Remove.
  - by apply keeps_os_Remove.
  - unfold lastMdIDOnlyWhenEmpty in *.
    destruct rest; simpl; [done |]. intros Hl. specialize (Hs Hl). congruence.
Qed.

Lemma preserves_clear uid key bid extra :
  preserves lastMdIDOnlyWhenEmpty (clear E uid key bid extra).
Proof.
  unfold clear.
  destruct (bid =? NullBranchID)%N;
    [apply preserves_readOnly; auto with readonly |].
  apply preserves_bind; [apply preserves_readOnly, readOnly_getHead |].
  intros head. destruct (decide (head = zeroIBRMD));
    [apply preserves_readOnly; auto with readonly |].
  unfold embedded. destruct (ibrmd head) as [md |];
    [| apply preserves_readOnly; auto with readonly].
  destruct (negb (BID md =? bid)%N);
    [apply preserves_readOnly; auto with readonly |].
  apply preserves_bind; [apply preserves_readOnly; auto with readonly |].
  intros earliest.
  apply preserves_bind; [apply preserves_readOnly; auto with readonly |].
  intros latest.
  apply preserves_bind; [apply preserves_readOnly; auto with readonly |].
  intros [? allMdIDs].
  apply preserves_bind; [by intros s Hs |].
  intros _ s Hs.
  unfold mdIDJournal_clear, logFault.
  destruct (fs_fault E (OrdinalLog (jdir (j s)) LogClear)); [done |].
  apply (preserves_keeps (clearLoop E allMdIDs)).
  - by apply keeps_clearLoop.
  - by apply keeps_clearLoop.
  - by intros _.
Qed.

Lemma preserves_put uid key signer ekg bsplit rmd s :
  lastMdIDOnlyWhenEmpty s ->
  lastMdIDOnlyWhenEmpty (fst (fst (put E uid key signer ekg bsplit rmd s))).
Proof.
  intros Hs.
  assert (forall s0 s1, j s1 = j s0 -> lastMdID s1 = lastMdID s0 ->
            lastMdIDOnlyWhenEmpty s0 -> lastMdIDOnlyWhenEmpty s1) as Hsame.
  { intros s0 s1 Hj Hl. unfold lastMdIDOnlyWhenEmpty. by rewrite Hj, Hl. }
  assert (forall head mStatus rmd' s2,
            lastMdIDOnlyWhenEmpty s2 ->
            lastMdIDOnlyWhenEmpty
              (fst (putCommon E uid key signer ekg bsplit head mStatus rmd' s2)))
    as Hcommon.
  { intros head mStatus rmd' s2 Hs2.
    destruct (putCommon E uid key signer ekg bsplit head mStatus rmd' s2)
      as [s3 r3] eqn:Hc. cbn [fst].
    pose proof Hc as Hc'.
    apply putCommon_not_OK in Hc' as [[id ->] | (Hj & _ & Hl)].
    - apply putCommon_OK in Hc as (_ & _ & _ & _ & Hz & _).
      intros Hne. by rewrite Hz in Hne.
    - by apply (Hsame s2). }
  unfold put.
  pose proof (readOnly_getLatest E uid key true s) as Hr.
  destruct (getLatest E uid key true s) as [s1 [head | e1 | msg]];
    simpl in Hr; subst s1; [| done | done].
  destruct (MergedStatus (bareMd rmd)).
  - specialize (Hcommon head Merged rmd s Hs).
    destruct (putCommon _ _ _ _ _ _ _ _ _ _) as [s3 r3]. cbn [fst] in *.
    destruct (false && isErr r3); [by apply (Hsame s3) | done].
  - destruct (putUnmerged head rmd s) as [[[s2 rmd2] reverting] r] eqn:Hu.
    apply putUnmerged_frame in Hu as (Hj & Hl & _).
    assert (lastMdIDOnlyWhenEmpty s2) as Hs2 by by apply (Hsame s).
    destruct r as [[] | e2 | msg]; [| done | done].
    specialize (Hcommon head Unmerged rmd2 s2 Hs2).
    destruct (putCommon _ _ _ _ _ _ _ _ _ _) as [s3 r3]. cbn [fst] in *.
    destruct (reverting && isErr r3); [by apply (Hsame s3) | done].
Qed.

Lemma preserves_convertToBranch uid key signer tlfID :
  preserves lastMdIDOnlyWhenEmpty (convertToBranch E uid key signer tlfID).
Proof.
  intros s Hs.
  destruct (convertToBranch E uid key signer tlfID s) as [s' r] eqn:Hconv.
  cbn [fst].
  apply convertToBranch_cases in Hconv
    as [[-> _] | (bid & dir & s1 & tr & _ & _ & Hlog & Hrw & ->)]; [done |].
  apply convertRewrite_frame in Hrw as (Hl & _ & Hno & Hok).
  destruct (removeMDs_frame E tr s1) as (Hj' & _ & Hl' & _).
  unfold lastMdIDOnlyWhenEmpty. rewrite Hj', Hl', Hl. intros Hne.
  specialize (Hs Hne).
  destruct r as [b | e | msg].
  - destruct (Hok b eq_refl) as (_ & -> & _ & _ & Hlen & _).
    rewrite Hs in Hlen. by destruct (ids (j s1)).
  - destruct Hno as (-> & _); done.
  - destruct Hno as (-> & _); done.
Qed.

Lemma preserves_afterCall uid key c s :
  lastMdIDOnlyWhenEmpty s -> lastMdIDOnlyWhenEmpty (afterCall E uid key c s).
Proof.
  destruct c; simpl.
  - apply preserves_put.
  - apply preserves_removeFlushedEntry.
  - apply preserves_convertToBranch.
  - apply preserves_clear.
Qed.
End Remembered.

(** X23: a journal that [makeMDJournal] opened remembers the MdID of a
    flushed entry only while its log is empty, after any sequence of calls
    of put, removeFlushedEntry, convertToBranch and clear, whatever each of
    them returned. *)
Theorem lastMdID_only_when_log_empty (E : Externals) (uid key : N)
    (log : mdIDJournal) (files : gmap N File) (cache : gset (N * Z * N))
    (s0 : mdJournal) (calls : list Call) :
  makeMDJournal E uid key log files cache = OK s0 ->
  lastMdID (afterCalls E uid key calls s0) <> zeroMdID ->
  ids (j (afterCalls E uid key calls s0)) = [].
Proof.
  intros Hopen.
  assert (lastMdIDOnlyWhenEmpty s0) as H0.
  { apply makeMDJournal_OK in Hopen as (? & ? & _ & _ & Hc).
    destruct Hc as [(_ & _ & ->) | (? & ? & _ & _ & _ & ->)];
      by intros Hne. }
  clear Hopen. revert s0 H0. unfold afterCalls.
  induction calls as [| c calls IH]; intros s0 H0; simpl; [done |].
  by apply IH, preserves_afterCall.
Qed.

Lemma lastMdID_only_when_log_empty_witness :
  let calls :=
    [CallPut Demo.signer 0%N Demo.bsplit (Demo.merged 1 0%N);
     CallRemoveFlushedEntry Demo.id1 (mkRMDS 9%N (bareMd (Demo.merged 1 0%N)))] in
  lastMdID (afterCalls Demo.E0 1%N 1%N calls Demo.empty) = Demo.id1 /\
  ids (j (afterCalls Demo.E0 1%N 1%N calls Demo.empty)) = [].
Proof.
  intros calls.
  assert (lastMdID (afterCalls Demo.E0 1%N 1%N calls Demo.empty) = Demo.id1)
    as Hl by by vm_compute.
  split; [done |].
  apply (lastMdID_only_when_log_empty Demo.E0 1%N 1%N
           (makeMdIDJournal "md_journal") ∅ ∅ Demo.empty calls).
  - by vm_compute.
  - rewrite Hl. by vm_compute.
Defined.

(** ** Flushing *)

(** X24: what getNextEntryToFlush hands out is what removeFlushedEntry
    accepts.  If signMD leaves the metadata as it is and the codec finds
    metadata equal to itself, then, absent I/O errors of the removal, the
    entry that getNextEntryToFlush returned is removed by removeFlushedEntry:
    the log loses its earliest entry, the content file of the entry goes,
    and the MdID is remembered exactly if the log became empty. *)
Theorem flushed_entry_is_removed (E : Externals) (uid key : N) (end' : Z)
    (signer : list Byte.byte -> result N) (s : mdJournal) (id : N)
    (rmds : RootMetadataSigned) :
  signKeepsMD E -> codecEqualRefl E ->
  fs_fault E (OrdinalLog (jdir (j s)) LogRemoveEarliest) = None ->
  fs_fault E (Remove id) = None ->
  getNextEntryToFlush E uid key end' signer s = (s, OK (id, Some rmds)) ->
  exists s',
    removeFlushedEntry E uid key id rmds s = (s', OK tt) /\
    ids (j s) = id :: ids (j s') /\
    earliestRevision (j s') = earliestRevision (j s) + 1 /\
    mds s' = delete id (mds s) /\
    lastMdID s' = (if ids (j s') is [] then id else lastMdID s) /\
    branchID s' = branchID s.
Proof.
  intros Hsign Heq Hlog Hrm. unfold getNextEntryToFlush. unfold bind at 1.
  destruct (getEarliest E uid key true s) as [s1 [h | |]] eqn:He; [| done | done].
  pose proof He as He'.
  apply getEarliest_OK in He' as (-> & Hl & Hcases).
  destruct (decide (h = zeroIBRMD)) as [-> | Hnz]; [done |].
  destruct Hcases as [[-> _] | (md & Hmd & Hne & Hg)]; [done |].
  unfold embedded. rewrite Hmd.
  destruct (RevisionNumber md >=? end'); [done |].
  destruct (negb (isMutableBareRootMetadata E)); [done |].
  unfold bind, lift, ret.
  destruct (signMD E signer (mkRMDS 0%N md)) as [rmds' | |] eqn:Hs;
    [| done | done].
  intros [= <- ->]. apply Hsign in Hs. simpl in Hs.
  unfold mdIDJournal_getEarliest, logFault in Hl.
  destruct (fs_fault E (OrdinalLog (jdir (j s)) LogGetEarliest)); [done |].
  injection Hl as Hhd.
  destruct (ids (j s)) as [| a rest] eqn:Hids; [simpl in Hhd; congruence |].
  simpl in Hhd. subst a.
  apply getMD_OK in Hg as (_ & f & Hf & _).
  assert (mdIDJournal_removeEarliest (fs_fault E) (j s)
          = OK (mkMdIDJournal (jdir (j s)) (earliestRevision (j s) + 1) rest,
                match rest with [] => true | _ => false end)) as Hre.
  { unfold mdIDJournal_removeEarliest, logFault. by rewrite Hlog, Hids. }
  rewrite (removeFlushedEntry_run E uid key rmds s h md _ _
             ltac:(by rewrite He) Hmd ltac:(by rewrite Hs) Hre).
  unfold os_Remove. rewrite Hrm.
  destruct rest; cbn [mds set_j set_lastMdID]; rewrite Hf;
    eexists; (split; [reflexivity |]); done.
Qed.

Lemma flushed_entry_is_removed_witness :
  exists rmds s',
    getNextEntryToFlush Demo.E0 1%N 1%N 3 Demo.signer Demo.two
    = (Demo.two, OK (Demo.id1, Some rmds)) /\
    removeFlushedEntry Demo.E0 1%N 1%N Demo.id1 rmds Demo.two = (s', OK tt) /\
    ids (j s') = [Demo.id2].
Proof.
  destruct (getNextEntryToFlush Demo.E0 1%N 1%N 3 Demo.signer Demo.two)
    as [s0 [[id [rmds |]] | e | msg]] eqn:Hg;
    [| by vm_compute in Hg | by vm_compute in Hg | by vm_compute in Hg].
  assert (s0 = Demo.two /\ id = Demo.id1) as [-> ->].
  { split.
    - pose proof (readOnly_getNextEntryToFlush Demo.E0 1%N 1%N 3 Demo.signer
                    Demo.two) as Hro.
      rewrite Hg in Hro. exact Hro.
    - pose proof (f_equal snd Hg) as Hs. vm_compute in Hs.
      injection Hs as <- _. vm_compute. reflexivity. }
  destruct (flushed_entry_is_removed Demo.E0 1%N 1%N 3 Demo.signer Demo.two
              Demo.id1 rmds) as (s' & Hr & Hids & _).
  - intros sg r r'. simpl. by destruct (sg []); intros [= <-].
  - intros md. simpl. by rewrite bool_decide_eq_true_2.
  - reflexivity.
  - reflexivity.
  - exact Hg.
  - exists rmds, s'. split; [reflexivity |]. split; [exact Hr |].
    assert (ids (j Demo.two) = [Demo.id1; Demo.id2]) as Htwo
      by (vm_compute; reflexivity).
    rewrite Htwo in Hids. injection Hids as Hids. symmetry. exact Hids.
Defined.

(** ** Reading back what was put *)

Section PutRead.
Variable E : Externals.

(** What a successful [putCommon] stored: the encrypted metadata went
    through [putMD], and the MdID it returned is the latest of the log. *)
Lemma putCommon_stored uid key signer ekg bsplit head mStatus rmd s s' id :
  putCommon E uid key signer ekg bsplit head mStatus rmd s = (s', OK id) ->
  exists brmd s1 l,
    encryptMDPrivateData E signer ekg uid rmd = OK brmd /\
    putMD E uid key brmd s = (s1, OK id) /\
    s' = set_lastMdID zeroMdID (set_j l s1) /\
    List.last (ids l) zeroMdID = id /\
    jdir l = jdir (j s).
Proof.
  unfold putCommon. unfold bind at 1, get.
  destruct (negb (eqb _ _)); [done |].
  destruct (isMerged mStatus && _); [done |].
  destruct (negb (BID _ =? _)%N); [done |].
  unfold bind at 1.
  match goal with
  | |- context [match ?m s with _ => _ end] =>
      assert (readOnly m) as Hro
  end.
  { destruct (decide (head <> zeroIBRMD)); [| apply readOnly_ret].
    apply readOnly_embedded. intros md. auto 10 with readonly. }
  match goal with
  | |- context [match ?m s with _ => _ end] =>
      specialize (Hro s); destruct (m s) as [s0 [[] | e | msg]];
      simpl in Hro; subst s0; [| done | done]
  end.
  destruct (_ && negb (bsplit _)); [done |].
  unfold bind at 1, lift.
  destruct (encryptMDPrivateData E signer ekg uid rmd) as [brmd | e | msg];
    [| done | done].
  unfold bind at 1.
  pose proof (keeps_putMD E (fun s => j s) uid key brmd (fun _ _ => eq_refl) s) as Hj.
  destruct (putMD E uid key brmd s) as [s1 [id1 | e | msg]] eqn:Hput;
    [| done | done].
  simpl in Hj.
  assert (forall f,
            (forall l, f (j s) = OK l ->
               List.last (ids l) zeroMdID = id1 /\ jdir l = jdir (j s)) ->
            bind (jwrite f) (fun _ =>
              bind (modify (set_lastMdID zeroMdID)) (fun _ => ret id1)) s1
            = (s', OK id) ->
            exists l, s' = set_lastMdID zeroMdID (set_j l s1) /\ id1 = id /\
                      List.last (ids l) zeroMdID = id1 /\ jdir l = jdir (j s))
    as Hw.
  { intros f Hf. unfold bind, jwrite, modify, ret. rewrite Hj.
    destruct (f (j s)) as [l | |] eqn:Hfl; [| done | done].
    intros [= <- <-]. exists l. destruct (Hf l eq_refl). by repeat split. }
  assert (forall l, mdIDJournal_replaceHead (fs_fault E) id1 (j s) = OK l ->
            List.last (ids l) zeroMdID = id1 /\ jdir l = jdir (j s)) as Hrep.
  { intros l. unfold mdIDJournal_replaceHead, logFault.
    destruct (fs_fault E _); [done |].
    destruct (ids (j s)); [done |]. intros [= <-]. simpl.
    by rewrite last_last. }
  assert (forall r l, mdIDJournal_append (fs_fault E) r id1 (j s) = OK l ->
            List.last (ids l) zeroMdID = id1 /\ jdir l = jdir (j s)) as Happ.
  { intros r l Hl. apply mdIDJournal_append_OK in Hl as (_ & _ & _ & -> & ->).
    by rewrite last_last. }
  destruct (decide (head <> zeroIBRMD)) as [Hnz | Hz].
  - unfold embedded. unfold bind at 1.
    destruct (ibrmd head) as [hmd |] eqn:Hmd; [| done].
    destruct (RevisionNumber (bareMd rmd) =? RevisionNumber hmd).
    + intros H. apply Hw in H as (l & -> & -> & Hlast & Hdir); [| apply Hrep].
      by exists brmd, s1, l.
    + intros H. apply Hw in H as (l & -> & -> & Hlast & Hdir);
        [| apply Happ].
      by exists brmd, s1, l.
  - intros H. apply Hw in H as (l & -> & -> & Hlast & Hdir); [| apply Happ].
    by exists brmd, s1, l.
Qed.
End PutRead.

(** X25: a journal reads back what was put.  After a put that returned a
    non-zero MdID, if decoding undoes encoding and the encryptor keeps the
    branch ID, then, absent I/O errors of the reads, the verified latest
    metadata of the journal is the encrypted metadata that was put, under
    the returned MdID and with the time of the write; getHead returns it to
    every reader of it. *)
Theorem put_then_getHead (E : Externals) (uid key : N)
    (signer : list Byte.byte -> result N) (ekg extra : N)
    (bsplit : BlockChanges -> bool) (rmd rmd' : RootMetadata)
    (s s' : mdJournal) (id : N) :
  codecRoundTrip E ->
  (forall brmd, encryptMDPrivateData E signer ekg uid rmd' = OK brmd ->
                BID brmd = BID (bareMd rmd')) ->
  put E uid key signer ekg bsplit rmd s = (s', rmd', OK id) ->
  id <> zeroMdID ->
  fs_fault E (OrdinalLog (jdir (j s)) LogGetLatest) = None ->
  fs_fault E (ReadFile id) = None ->
  fs_fault E (Stat id) = None ->
  exists brmd,
    encryptMDPrivateData E signer ekg uid rmd' = OK brmd /\
    getLatest E uid key true s'
    = (s', OK (mkIBRMD (Some brmd) id (fs_now E))) /\
    (isReader E uid brmd extra = OK true ->
     getHead E uid key extra s'
     = (s', OK (mkIBRMD (Some brmd) id (fs_now E)))).
Proof.
  intros Hcodec Hbid Hput Hnz Hlog Hread Hstat.
  apply put_OK in Hput as (head & s2 & _ & Hj2 & _ & Hc).
  pose proof Hc as Hc'.
  apply putCommon_checks in Hc' as (_ & Hb2).
  apply putCommon_stored in Hc
    as (brmd & s1 & l & Henc & Hmd & -> & Hlast & Hdir).
  apply putMD_OK_checked in Hmd
    as (Hv & Hl & [(-> & _) | (Hid & buf & Hbuf & ->)]); [done |].
  exists brmd. split; [done |].
  assert (getLatest E uid key true
            (set_lastMdID zeroMdID
               (set_j l (set_mds (<[id:=mkFile buf (fs_now E)]> (mds s2)) s2)))
          = (set_lastMdID zeroMdID
               (set_j l (set_mds (<[id:=mkFile buf (fs_now E)]> (mds s2)) s2)),
             OK (mkIBRMD (Some brmd) id (fs_now E)))) as Hlatest.
  { unfold getLatest. unfold bind at 1, jread.
    unfold mdIDJournal_getLatest, logFault. cbn [j set_j set_lastMdID].
    rewrite Hdir, Hj2, Hlog, Hlast.
    apply N.eqb_neq in Hnz. rewrite Hnz. unfold bind.
    match goal with
    | |- context [getMD E uid key id true ?st] =>
        assert (getMD E uid key id true st = (st, OK (brmd, fs_now E))) as ->
    end.
    { apply getMD_OK_iff. split; [done |]. split; [done |].
      split; [| repeat split; try done].
      - exists (mkFile buf (fs_now E)). cbn [mds set_mds set_j set_lastMdID].
        rewrite lookup_insert_eq. split; [done |]. split; [| done].
        by apply Hcodec.
      - intros _. cbn [branchID set_mds set_j set_lastMdID].
        rewrite <- Hb2. by apply Hbid. }
    unfold lift, MakeImmutableBareRootMetadata. by rewrite Hnz. }
  split; [done |].
  intros Hreader. unfold getHead, checkGetParams, bind. rewrite Hlatest.
  destruct (decide (mkIBRMD (Some brmd) id (fs_now E) <> zeroIBRMD)) as [_ | Hz];
    [| by destruct Hz].
  unfold embedded. cbn [ibrmd]. unfold lift. by rewrite Hreader.
Qed.

Lemma put_then_getHead_witness :
  getHead Demo.E0 1%N 1%N 0%N Demo.one
  = (Demo.one,
     OK (mkIBRMD (Some (bareMd (Demo.merged 1 0%N))) Demo.id1 (fs_now Demo.E0))).
Proof.
  destruct (put Demo.E0 1%N 1%N Demo.signer 0%N Demo.bsplit (Demo.merged 1 0%N)
              Demo.empty) as [[s' rmd'] r] eqn:Hput.
  assert (s' = Demo.one /\ rmd' = Demo.merged 1 0%N /\ r = OK Demo.id1)
    as (-> & -> & ->).
  { unfold Demo.one, Demo.id1, Demo.putJ. rewrite Hput. cbn [fst snd].
    vm_compute in Hput. by simplify_eq. }
  destruct (put_then_getHead Demo.E0 1%N 1%N Demo.signer 0%N 0%N Demo.bsplit
              (Demo.merged 1 0%N) (Demo.merged 1 0%N) Demo.empty Demo.one
              Demo.id1) as (brmd & Henc & _ & Hhead).
  - apply Demo_codecRoundTrip.
  - by intros brmd [= <-].
  - exact Hput.
  - by vm_compute.
  - reflexivity.
  - reflexivity.
  - reflexivity.
  - simpl in Henc. injection Henc as <-. by apply Hhead.
Defined.

(** ** Permissions *)

(** X26: a user who is not a reader of the head of the journal is refused
    by every operation that checks the caller: getHead, getRange and clear
    of a branch return MDServerErrorUnauthorized and leave the journal as it
    is. *)
Theorem non_reader_is_refused (E : Externals) (uid key extra bid : N)
    (start stop : Z) (s : mdJournal) (head : ImmutableBareRootMetadata)
    (md : BareRootMetadata) :
  getLatest E uid key true s = (s, OK head) ->
  ibrmd head = Some md ->
  isReader E uid md extra = OK false ->
  bid <> NullBranchID ->
  getHead E uid key extra s = (s, Err MDServerErrorUnauthorized) /\
  getRange E uid key extra start stop s = (s, Err MDServerErrorUnauthorized) /\
  clear E uid key bid extra s = (s, Err MDServerErrorUnauthorized).
Proof.
  intros Hl Hmd Hr Hbid.
  assert (checkGetParams E uid key extra s = (s, Err MDServerErrorUnauthorized))
    as Hc.
  { unfold checkGetParams, bind. rewrite Hl.
    destruct (decide (head <> zeroIBRMD)) as [_ | Hz].
    - unfold embedded. rewrite Hmd. unfold lift. by rewrite Hr.
    - exfalso. apply Hz. intros ->. done. }
  split; [done |]. split.
  - unfold getRange. unfold bind at 1. by rewrite Hc.
  - unfold clear. apply N.eqb_neq in Hbid. rewrite Hbid.
    unfold bind at 1, getHead. by rewrite Hc.
Qed.

Lemma non_reader_is_refused_witness :
  let E := Demo.externals Demo.noFault false 7%N in
  getHead E 1%N 1%N 0%N Demo.two = (Demo.two, Err MDServerErrorUnauthorized) /\
  getRange E 1%N 1%N 0%N 1 2 Demo.two
  = (Demo.two, Err MDServerErrorUnauthorized) /\
  clear E 1%N 1%N 7%N 0%N Demo.two = (Demo.two, Err MDServerErrorUnauthorized).
Proof.
  intros E.
  destruct (getLatest E 1%N 1%N true Demo.two) as [s0 [head | e | msg]] eqn:Hl;
    [| by vm_compute in Hl | by vm_compute in Hl].
  assert (s0 = Demo.two) as ->.
  { pose proof (readOnly_getLatest E 1%N 1%N true Demo.two) as Hr.
    by rewrite Hl in Hr. }
  destruct (ibrmd head) as [md |] eqn:Hmd; [| by vm_compute in Hl; simplify_eq].
  by apply (non_reader_is_refused E 1%N 1%N 0%N 7%N 1 2 Demo.two head md).
Defined.

Section PutChecks.
Variable E : Externals.

(** What a successful [putCommon] checked against the head. *)
Lemma putCommon_authorized uid key signer ekg bsplit head mStatus rmd s s' id hmd :
  putCommon E uid key signer ekg bsplit head mStatus rmd s = (s', OK id) ->
  ibrmd head = Some hmd ->
  isWriterOrValidRekey E uid hmd (bareMd rmd) = OK true /\
  (RevisionNumber (bareMd rmd) <> RevisionNumber hmd ->
   CheckValidSuccessorForServer E hmd (mdID head) (bareMd rmd) = OK tt) /\
  ((Info_BlockPointer (data_Changes rmd) =? zeroPtr)%N = true ->
   bsplit (data_Changes rmd) = true).
Proof.
  intros H Hmd. revert H. unfold putCommon. unfold bind at 1, get.
  destruct (negb (eqb _ _)); [done |].
  destruct (isMerged mStatus && _); [done |].
  destruct (negb (BID _ =? _)%N); [done |].
  unfold bind at 1.
  destruct (decide (head <> zeroIBRMD)) as [_ | Hz];
    [| exfalso; apply Hz; by intros ->].
  unfold embedded at 1. rewrite Hmd. unfold bind at 1, lift.
  destruct (isWriterOrValidRekey E uid hmd (bareMd rmd)) as [[|] | |];
    [| done | done | done].
  cbn [negb].
  destruct (RevisionNumber (bareMd rmd) =? RevisionNumber hmd) eqn:Hrev;
    cbn [negb].
  - apply Z.eqb_eq in Hrev. unfold ret.
    destruct (_ && negb (bsplit _)) eqn:Hsplit; [done |]. intros _.
    split; [done |]. split; [done |]. intros Hp. rewrite Hp in Hsplit.
    by apply negb_false_iff in Hsplit.
  - destruct (CheckValidSuccessorForServer E hmd (mdID head) (bareMd rmd))
      as [[] | |]; [| done | done].
    destruct (_ && negb (bsplit _)) eqn:Hsplit; [done |]. intros _.
    split; [done |]. split; [done |]. intros Hp. rewrite Hp in Hsplit.
    by apply negb_false_iff in Hsplit.
Qed.
End PutChecks.

(** X27: put succeeds on a journal with a head only for a writer (or a
    valid rekey) of that head, and, unless it replaces the head, only with
    metadata that the head accepts as its successor; metadata with embedded
    block changes that the splitter wants unembedded never goes in.  The
    metadata checked is the one put hands on, after its changes for the
    unmerged cases. *)
Theorem put_success_was_authorized (E : Externals) (uid key : N)
    (signer : list Byte.byte -> result N) (ekg : N)
    (bsplit : BlockChanges -> bool) (rmd rmd' : RootMetadata)
    (s s' : mdJournal) (id : N) (head : ImmutableBareRootMetadata)
    (hmd : BareRootMetadata) :
  put E uid key signer ekg bsplit rmd s = (s', rmd', OK id) ->
  getLatest E uid key true s = (s, OK head) ->
  ibrmd head = Some hmd ->
  isWriterOrValidRekey E uid hmd (bareMd rmd') = OK true /\
  (RevisionNumber (bareMd rmd') <> RevisionNumber hmd ->
   CheckValidSuccessorForServer E hmd (mdID head) (bareMd rmd') = OK tt) /\
  ((Info_BlockPointer (data_Changes rmd') =? zeroPtr)%N = true ->
   bsplit (data_Changes rmd') = true).
Proof.
  intros Hput Hl Hmd.
  apply put_OK in Hput as (head' & s2 & Hl' & _ & _ & Hc).
  rewrite Hl in Hl'. injection Hl' as <-.
  by eapply putCommon_authorized.
Qed.

Lemma put_success_was_authorized_witness :
  isWriterOrValidRekey Demo.E0 1%N (bareMd (Demo.merged 1 0%N))
    (bareMd (Demo.merged 2 Demo.id1)) = OK true /\
  CheckValidSuccessorForServer Demo.E0 (bareMd (Demo.merged 1 0%N)) Demo.id1
    (bareMd (Demo.merged 2 Demo.id1)) = OK tt.
Proof.
  destruct (put Demo.E0 1%N 1%N Demo.signer 0%N Demo.bsplit
              (Demo.merged 2 Demo.id1) Demo.one) as [[s' rmd'] r] eqn:Hput.
  assert (rmd' = Demo.merged 2 Demo.id1 /\ r = OK Demo.id2) as (-> & ->).
  { unfold Demo.id2, Demo.putJ. rewrite Hput. cbn [fst snd].
    vm_compute in Hput. by simplify_eq. }
  destruct (put_success_was_authorized Demo.E0 1%N 1%N Demo.signer 0%N
              Demo.bsplit (Demo.merged 2 Demo.id1) (Demo.merged 2 Demo.id1)
              Demo.one s' Demo.id2
              (mkIBRMD (Some (bareMd (Demo.merged 1 0%N))) Demo.id1
                 (fs_now Demo.E0))
              (bareMd (Demo.merged 1 0%N)) Hput) as (Hw & Hs & _).
  - by vm_compute.
  - reflexivity.
  - split; [exact Hw |]. apply Hs. by vm_compute.
Defined.
